(** * Sistema bancário simples (src/01pacotes/desafio.py)

    Shallow embedding of [desafio.py]: the banking classes ([Historico],
    [Conta], [ContaCorrente], [Saque], [Deposito],
    [Cliente.realizar_transacao], [ContasIterador]) and the functions of
    the menu ([main] and what it calls), followed by the properties of
    the specification that concern them.

    Modelling choices.
    - The classes are duck-typed over numbers.  An amount is a value of
      any type [V] with the operations the classes apply to it, the
      class [Numero]: [+], [-], [<=], [>] and the value of an [int]
      literal.  Two instances are given: the Python [int] ([Z], exact)
      and the Python [float] (the binary64 numbers of [PrimFloat], with
      their rounding, infinities and nan), which is what [main] passes,
      since it reads amounts with [float(input())].  The [int] literals
      of the source ([0], [500]) take part in float arithmetic at their
      exact value ([0.0], [500.0]).
    - A Python method that mutates [self] and prints is a computation in
      the monad [Exec S]: it receives the object, and returns its value,
      the object after the call and the lines printed, in order.
    - [datetime.now()] is an input: every method that reads the clock
      takes the reading as an argument.
    - A ledger entry is the dict [{"tipo", "valor", "data"}]; its ["data"]
      is kept as the fields that [strftime("%d-%m-%Y %H:%M:%S")] prints and
      [strptime] reads back, so [.date()] of the parsed value is the
      [date] field.
    - A string is the sequence of the bytes of its UTF-8 encoding.
      [str.lower] is a parameter, the class [Texto]: any function that
      acts on strings of ASCII characters as [lower] does, which folds
      the letters [A] to [Z]. *)

From Stdlib Require Import ZArith List String Ascii Bool Lia Floats QArith.
Import ListNotations.
Open Scope Z_scope.

(* ================================================================== *)
(** ** Numbers *)

(** The operations the classes apply to an amount. *)
Class Numero (V : Type) : Type := mkNumero {
  de_int : Z -> V;                (* an [int] literal among the amounts *)
  soma : V -> V -> V;             (* [a + b] *)
  subtrai : V -> V -> V;          (* [a - b] *)
  menor_igual : V -> V -> bool;   (* [a <= b] *)
  maior : V -> V -> bool          (* [a > b] *)
}.

(** The Python [int]. *)
#[export] Instance Numero_int : Numero Z :=
  mkNumero Z (fun z => z) Z.add Z.sub Z.leb Z.gtb.

(** The float an [int] converts to, for the integers that are exactly
    representable (as [0] and [500] are). *)
Definition float_de_int (z : Z) : float :=
  match z with
  | Z0 => PrimFloat.of_uint63 (Uint63.of_Z 0)
  | Zpos p => PrimFloat.of_uint63 (Uint63.of_Z (Zpos p))
  | Zneg p => PrimFloat.opp (PrimFloat.of_uint63 (Uint63.of_Z (Zpos p)))
  end.

(** The Python [float]: IEEE 754 binary64; [a > b] is [b < a], false
    when either is nan. *)
#[export] Instance Numero_float : Numero float :=
  mkNumero float float_de_int PrimFloat.add PrimFloat.sub PrimFloat.leb
           (fun a b => PrimFloat.ltb b a).

(** What the two kinds of number have in common that keeps a balance
    from falling below zero. *)
Class Numero_leis (V : Type) {num : Numero V} : Prop := mkNumero_leis {
  zero_nao_negativo : maior (de_int 0) (de_int 0) = false;
  soma_nao_negativa : forall s v : V,
    maior (de_int 0) s = false ->
    menor_igual v (de_int 0) = false ->
    maior (de_int 0) (soma s v) = false;
  subtrai_nao_negativa : forall s v : V,
    maior (de_int 0) s = false ->
    menor_igual v (de_int 0) = false ->
    maior v s = false ->
    maior (de_int 0) (subtrai s v) = false
}.


(** A float that is not below zero: a zero, nan, or a number or an
    infinity with the positive sign. *)
Definition sinal_nao_negativo (x : spec_float) : bool :=
  match x with
  | S754_zero _ | S754_nan => true
  | S754_infinity s | S754_finite s _ _ => negb s
  end.

(* ================================================================== *)
(** ** Strings *)

(** [str.lower] on the ASCII letters. *)
Definition lower_ascii (a : ascii) : ascii :=
  let n := N_of_ascii a in
  if ((65 <=? n) && (n <=? 90))%N then ascii_of_N (n + 32) else a.

Fixpoint lower (s : string) : string :=
  match s with
  | EmptyString => EmptyString
  | String a r => String (lower_ascii a) (lower r)
  end.

(** A string of ASCII characters only. *)
Fixpoint so_ascii (s : string) : bool :=
  match s with
  | EmptyString => true
  | String a r => (N_of_ascii a <? 128)%N && so_ascii r
  end.

(** [str.lower]: on a string of ASCII characters it is [lower]; what it
    does to the other strings is left open. *)
Class Texto : Type := mkTexto {
  str_lower : string -> string;
  str_lower_ascii : forall s, so_ascii s = true -> str_lower s = lower s
}.

(** [str.lower] for a program that handles ASCII strings only. *)
Definition Texto_ascii : Texto := mkTexto lower (fun s _ => eq_refl).

(* ================================================================== *)
(** ** Console output *)

(** The lines the classes print (each one is printed after a blank line). *)
Inductive Mensagem : Type :=
| LimiteDiarioExcedido   (* Cliente.realizar_transacao, line 101 *)
| ValorInvalido          (* Conta.sacar line 179, Conta.depositar line 195 *)
| SaldoInsuficiente      (* Conta.sacar, line 183 *)
| SaqueSucesso           (* Conta.sacar, line 187 *)
| DepositoSucesso        (* Conta.depositar, line 199 *)
| LimiteSaqueExcedido    (* ContaCorrente.sacar, line 229: valor > limite *)
| LimiteSaquesExcedido.  (* ContaCorrente.sacar, line 233: numero_saques >= limite_saques *)

Definition texto (m : Mensagem) : string :=
  match m with
  | LimiteDiarioExcedido => "@@@ Limite diário de transações excedido! @@@"
  | ValorInvalido        => "@@@ Valor inválido! @@@"
  | SaldoInsuficiente    => "@@@ Saldo insuficiente! @@@"
  | SaqueSucesso         => "=== Saque realizado com sucesso! ==="
  | DepositoSucesso      => "=== Depósito realizado com sucesso! ==="
  | LimiteSaqueExcedido  => "@@@ Limite de saque excedido! @@@"
  | LimiteSaquesExcedido => "@@@ Limite de saques excedido! @@@"
  end.

Definition Mensagem_eqb (a b : Mensagem) : bool :=
  match a, b with
  | LimiteDiarioExcedido, LimiteDiarioExcedido
  | ValorInvalido, ValorInvalido
  | SaldoInsuficiente, SaldoInsuficiente
  | SaqueSucesso, SaqueSucesso
  | DepositoSucesso, DepositoSucesso
  | LimiteSaqueExcedido, LimiteSaqueExcedido
  | LimiteSaquesExcedido, LimiteSaquesExcedido => true
  | _, _ => false
  end.

(* ================================================================== *)
(** ** Methods as computations *)

(** A method of an object of type [S] returning an [A]. *)
Definition Exec (S A : Type) : Type := S -> A * S * list Mensagem.

Definition ret {S A : Type} (a : A) : Exec S A :=
  fun self => (a, self, []).

Definition bind {S A B : Type} (m : Exec S A) (k : A -> Exec S B) : Exec S B :=
  fun self =>
    let '(a, self1, out1) := m self in
    let '(b, self2, out2) := k a self1 in
    (b, self2, out1 ++ out2).

Definition get {S : Type} : Exec S S :=
  fun self => (self, self, []).

Definition put {S : Type} (s : S) : Exec S unit :=
  fun _ => (tt, s, []).

Definition print {S : Type} (m : Mensagem) : Exec S unit :=
  fun self => (tt, self, [m]).

Notation "x <- m ;; k" := (bind m (fun x => k))
  (at level 61, m at next level, right associativity).
Notation "m ;; k" := (bind m (fun _ => k))
  (at level 61, right associativity).

(** Projections of the outcome of a call. *)
Definition retorno {S A : Type} (r : A * S * list Mensagem) : A := fst (fst r).
Definition depois {S A : Type} (r : A * S * list Mensagem) : S := snd (fst r).
Definition saida {S A : Type} (r : A * S * list Mensagem) : list Mensagem := snd r.

(* ================================================================== *)
(** ** Clock readings *)

Record Data : Type := mkData { dia : Z; mes : Z; ano : Z }.

Record DataHora : Type := mkDataHora {
  date : Data;       (* datetime.date() *)
  hora : Z;
  minuto : Z;
  segundo : Z
}.

Definition Data_eqb (a b : Data) : bool :=
  (dia a =? dia b) && (mes a =? mes b) && (ano a =? ano b).

Definition Data_eq_dec (a b : Data) : {a = b} + {a <> b}.
Proof. decide equality; apply Z.eq_dec. Defined.

Section Classes.

Context {V : Type} {num : Numero V} {txt : Texto}.

(* ================================================================== *)
(** ** Transacao, Saque, Deposito (data) *)

Inductive Transacao : Type :=
| Saque (_valor : V)
| Deposito (_valor : V).

(** [transacao.__class__.__name__] *)
Definition nome_da_classe (t : Transacao) : string :=
  match t with
  | Saque _ => "Saque"
  | Deposito _ => "Deposito"
  end.

(** The [valor] property of both subclasses. *)
Definition valor_de (t : Transacao) : V :=
  match t with
  | Saque v => v
  | Deposito v => v
  end.

(* ================================================================== *)
(** ** Historico *)

(** One dict of [Historico._transacoes]. *)
Record Entrada : Type := mkEntrada {
  tipo : string;
  valor : V;
  data : DataHora
}.

Record Historico : Type := mkHistorico {
  _transacoes : list Entrada
}.

(** [Historico()] *)
Definition Historico_init : Historico := mkHistorico [].

(** The [transacoes] property. *)
Definition transacoes (h : Historico) : list Entrada := _transacoes h.

(** [Historico.adicionar_transacao]; [agora] is its [datetime.now()]. *)
Definition adicionar_transacao (agora : DataHora) (transacao : Transacao)
  : Exec Historico unit :=
  self <- get ;;
  put (mkHistorico (_transacoes self ++
         [ mkEntrada (nome_da_classe transacao) (valor_de transacao) agora ])).

(** The test of line 279:
    [tipo is None or transacao["tipo"].lower() == tipo.lower()]. *)
Definition relatorio_inclui (filtro : option string) (transacao : Entrada) : bool :=
  match filtro with
  | None => true
  | Some t => String.eqb (str_lower (tipo transacao)) (str_lower t)
  end.

(** [Historico.gerar_relatorio]: the generator is run to exhaustion; the
    loop walks [_transacoes] from the front and each [yield] extends the
    sequence produced so far. *)
Definition gerar_relatorio (filtro : option string) : Exec Historico (list Entrada) :=
  self <- get ;;
  ret (fold_left
         (fun produzidas transacao =>
            if relatorio_inclui filtro transacao
            then produzidas ++ [transacao]
            else produzidas)
         (_transacoes self) []).

(** [Historico.transacoes_do_dia]; [hoje] is its [datetime.now().date()]. *)
Definition transacoes_do_dia (hoje : Data) : Exec Historico (list Entrada) :=
  self <- get ;;
  ret (filter (fun t => Data_eqb (date (data t)) hoje) (_transacoes self)).

(* ================================================================== *)
(** ** Conta and ContaCorrente *)

(** The class of an account object, with the fields the subclass adds. *)
Inductive Classe : Type :=
| ClasseConta
| ClasseContaCorrente (_limite : V) (_limite_saques : Z).

(** The owner of an account, [_cliente], is a customer object; it is
    named here by its CPF.  Among customers of distinct CPFs, as [main]
    keeps them, that names one object. *)
Record Conta : Type := mkConta {
  _saldo : V;
  _numero : Z;
  _agencia : string;
  _cliente : string;          (* the owner, by CPF *)
  _historico : Historico;
  classe : Classe
}.

(** [Conta.__init__] *)
Definition Conta_init (numero : Z) (cliente : string) : Conta :=
  mkConta (de_int 0) numero "0001" cliente Historico_init ClasseConta.

(** [ContaCorrente.__init__], defaults [limite=500], [limite_saques=3]
    passed by the caller. *)
Definition ContaCorrente_init (numero : Z) (cliente : string)
    (limite : V) (limite_saques : Z) : Conta :=
  mkConta (de_int 0) numero "0001" cliente Historico_init
          (ClasseContaCorrente limite limite_saques).

Definition limite_padrao : V := de_int 500.
Definition limite_saques_padrao : Z := 3.

(** The read-only properties. *)
Definition saldo (c : Conta) : V := _saldo c.
Definition historico (c : Conta) : Historico := _historico c.

Definition com_saldo (s : V) (c : Conta) : Conta :=
  mkConta s (_numero c) (_agencia c) (_cliente c) (_historico c) (classe c).

Definition com_historico (h : Historico) (c : Conta) : Conta :=
  mkConta (_saldo c) (_numero c) (_agencia c) (_cliente c) h (classe c).

(** A method of the account's [Historico], called through
    [conta.historico]. *)
Definition no_historico {A : Type} (m : Exec Historico A) : Exec Conta A :=
  fun conta =>
    let '(a, h, out) := m (_historico conta) in
    (a, com_historico h conta, out).

(** [Conta.sacar] *)
Definition Conta_sacar (valor : V) : Exec Conta bool :=
  self <- get ;;
  if menor_igual valor (de_int 0) then
    print ValorInvalido ;; ret false
  else if maior valor (_saldo self) then
    print SaldoInsuficiente ;; ret false
  else
    put (com_saldo (subtrai (_saldo self) valor) self) ;;
    print SaqueSucesso ;;
    ret true.

(** [Conta.depositar] (inherited unchanged by [ContaCorrente]) *)
Definition Conta_depositar (valor : V) : Exec Conta bool :=
  self <- get ;;
  if menor_igual valor (de_int 0) then
    print ValorInvalido ;; ret false
  else
    put (com_saldo (soma (_saldo self) valor) self) ;;
    print DepositoSucesso ;;
    ret true.

(** [len([t for t in self.historico.transacoes if t["tipo"] == "Saque"])] *)
Definition numero_saques (h : Historico) : Z :=
  Z.of_nat (List.length (filter (fun t => String.eqb (tipo t) "Saque") (transacoes h))).

(** [ContaCorrente.sacar] *)
Definition ContaCorrente_sacar (limite : V) (limite_saques : Z) (valor : V)
  : Exec Conta bool :=
  self <- get ;;
  if maior valor limite then
    print LimiteSaqueExcedido ;; ret false
  else if numero_saques (historico self) >=? limite_saques then
    print LimiteSaquesExcedido ;; ret false
  else
    Conta_sacar valor.

(** [conta.sacar(valor)]: dispatch on the class of the object. *)
Definition sacar (valor : V) : Exec Conta bool :=
  self <- get ;;
  match classe self with
  | ClasseConta => Conta_sacar valor
  | ClasseContaCorrente limite limite_saques =>
      ContaCorrente_sacar limite limite_saques valor
  end.

(** [conta.depositar(valor)] *)
Definition depositar (valor : V) : Exec Conta bool :=
  Conta_depositar valor.

(* ================================================================== *)
(** ** Saque.registrar, Deposito.registrar *)

(** [transacao.registrar(conta)]; [agora] is the clock reading of
    [adicionar_transacao], used only when the entry is written. *)
Definition registrar (agora : DataHora) (transacao : Transacao) : Exec Conta unit :=
  match transacao with
  | Saque v =>
      ok <- sacar v ;;
      if ok then no_historico (adicionar_transacao agora transacao) else ret tt
  | Deposito v =>
      ok <- depositar v ;;
      if ok then no_historico (adicionar_transacao agora transacao) else ret tt
  end.

(* ================================================================== *)
(** ** Cliente.realizar_transacao *)

(** [cliente.realizar_transacao(conta, transacao)], as a computation on
    the account; [hoje] is the clock reading of [transacoes_do_dia]. *)
Definition realizar_transacao (hoje : Data) (agora : DataHora)
    (transacao : Transacao) : Exec Conta unit :=
  do_dia <- no_historico (transacoes_do_dia hoje) ;;
  if (2 <=? List.length do_dia)%nat then
    print LimiteDiarioExcedido ;; ret tt
  else
    registrar agora transacao.

(* ================================================================== *)
(** ** Sequences of requests *)

(** The calls through which a caller can change an account: the two
    methods of the account, [registrar] of a transaction, and
    [realizar_transacao] of its customer.  Each carries the clock
    readings the call makes. *)
Inductive Pedido : Type :=
| PedidoSacar (valor : V)
| PedidoDepositar (valor : V)
| PedidoRegistrar (agora : DataHora) (transacao : Transacao)
| PedidoRealizar (hoje : Data) (agora : DataHora) (transacao : Transacao).

Definition atender (p : Pedido) : Exec Conta unit :=
  match p with
  | PedidoSacar v => sacar v ;; ret tt
  | PedidoDepositar v => depositar v ;; ret tt
  | PedidoRegistrar agora t => registrar agora t
  | PedidoRealizar hoje agora t => realizar_transacao hoje agora t
  end.

(** Runs the requests in order; the result is the account at the end and,
    for each request, what it printed. *)
Fixpoint executar (ps : list Pedido) (conta : Conta)
  : Conta * list (Pedido * list Mensagem) :=
  match ps with
  | [] => (conta, [])
  | p :: resto =>
      let r := atender p conta in
      let '(final, registro) := executar resto (depois r) in
      (final, (p, saida r) :: registro)
  end.

(** The requests that go through a transaction object, hence through
    [registrar]. *)
Definition por_transacao (p : Pedido) : bool :=
  match p with
  | PedidoRegistrar _ _ | PedidoRealizar _ _ _ => true
  | _ => false
  end.

(* ================================================================== *)
(** ** Vocabulary of the specification *)

(** The amount a request asks to move. *)
Definition valor_pedido (p : Pedido) : V :=
  match p with
  | PedidoSacar v | PedidoDepositar v => v
  | PedidoRegistrar _ t | PedidoRealizar _ _ t => valor_de t
  end.

(** A withdrawal request, as opposed to a deposit request. *)
Definition pedido_de_saque (p : Pedido) : bool :=
  match p with
  | PedidoSacar _
  | PedidoRegistrar _ (Saque _)
  | PedidoRealizar _ _ (Saque _) => true
  | _ => false
  end.

Definition imprimiu (m : Mensagem) (out : list Mensagem) : bool :=
  existsb (Mensagem_eqb m) out.

(** A request succeeded when the account printed the success line of its
    kind; [sacar] and [depositar] print it exactly when they return
    [True] (lemmas [saque_bem_sucedido_retorno] and
    [deposito_bem_sucedido_retorno]). *)
Definition saque_bem_sucedido (r : Pedido * list Mensagem) : bool :=
  pedido_de_saque (fst r) && imprimiu SaqueSucesso (snd r).

Definition deposito_bem_sucedido (r : Pedido * list Mensagem) : bool :=
  negb (pedido_de_saque (fst r)) && imprimiu DepositoSucesso (snd r).





(** A value below zero. *)
Definition negativo (v : V) : bool := maior (de_int 0) v.

(** Number of successful withdrawals of [registro]. *)
Definition saques_bem_sucedidos (registro : list (Pedido * list Mensagem)) : Z :=
  Z.of_nat (List.length (filter saque_bem_sucedido registro)).

(** Number of successful withdrawals of [registro] that were made through
    a transaction object. *)
Definition saques_registrados (registro : list (Pedido * list Mensagem)) : Z :=
  Z.of_nat (List.length
    (filter (fun r => por_transacao (fst r) && saque_bem_sucedido r) registro)).

(** The balance mutation under [transacao.registrar(conta)]. *)
Definition mutacao (transacao : Transacao) : Exec Conta bool :=
  match transacao with
  | Saque v => sacar v
  | Deposito v => depositar v
  end.

(** The entry [adicionar_transacao] writes for [transacao] at [agora]. *)
Definition entrada_de (agora : DataHora) (transacao : Transacao) : Entrada :=
  mkEntrada (nome_da_classe transacao) (valor_de transacao) agora.

(** Number of entries of the ledger whose timestamp is dated [hoje]. *)
Definition entradas_do_dia (hoje : Data) (h : Historico) : nat :=
  count_occ Data_eq_dec (map (fun t => date (data t)) (transacoes h)) hoje.

(** Two strings are equal up to case as Python compares them: their
    [str.lower] are equal. *)
Definition igual_sem_caixa (a b : string) : bool :=
  String.eqb (str_lower a) (str_lower b).

(** The messages that report a refused request. *)
Definition recusa (m : Mensagem) : bool :=
  match m with
  | SaqueSucesso | DepositoSucesso => false
  | _ => true
  end.

(** The ledger after request [p] succeeded on [c]: a request made through
    a transaction object wrote its entry, a direct call of the account
    wrote none. *)
Definition historico_apos (p : Pedido) (c : Conta) : Historico :=
  match p with
  | PedidoRegistrar agora t | PedidoRealizar _ agora t =>
      mkHistorico (_transacoes (_historico c) ++ [entrada_de agora t])
  | _ => _historico c
  end.

(** The three ways a request can end: a withdrawal made, of an amount
    that is not [<= 0] and not [>] the balance; a deposit made, of an
    amount that is not [<= 0]; or a refusal that leaves the account as
    it was. *)
Inductive Desfecho (p : Pedido) (c : Conta) : Conta -> list Mensagem -> Prop :=
| DesfechoSaque :
    pedido_de_saque p = true ->
    menor_igual (valor_pedido p) (de_int 0) = false ->
    maior (valor_pedido p) (_saldo c) = false ->
    Desfecho p c
      (com_historico (historico_apos p c)
                     (com_saldo (subtrai (_saldo c) (valor_pedido p)) c))
      [SaqueSucesso]
| DesfechoDeposito :
    pedido_de_saque p = false ->
    menor_igual (valor_pedido p) (de_int 0) = false ->
    Desfecho p c
      (com_historico (historico_apos p c)
                     (com_saldo (soma (_saldo c) (valor_pedido p)) c))
      [DepositoSucesso]
| DesfechoRecusa (m : Mensagem) :
    recusa m = true ->
    Desfecho p c c [m].

(* ================================================================== *)
(** ** What a ledger records *)

(** The entry a request writes when it succeeds: one for a request made
    through a transaction object, none for a direct call of the
    account. *)
Definition entrada_do_pedido (p : Pedido) : list Entrada :=
  match p with
  | PedidoRegistrar agora t | PedidoRealizar _ agora t => [entrada_de agora t]
  | _ => []
  end.

(** The entries written by the requests of [registro], in order. *)
Definition entradas_do_registro (registro : list (Pedido * list Mensagem))
  : list Entrada :=
  flat_map
    (fun r => if saque_bem_sucedido r || deposito_bem_sucedido r
              then entrada_do_pedido (fst r) else [])
    registro.

(** What one entry does to a balance: a deposit adds its amount, a
    withdrawal subtracts it. *)
Definition lancar (s : V) (e : Entrada) : V :=
  if String.eqb (tipo e) "Deposito" then soma s (valor e)
  else if String.eqb (tipo e) "Saque" then subtrai s (valor e)
  else s.

(** The balance the entries of a ledger lead to from zero, applied one
    by one in the order of the ledger. *)
Definition saldo_do_historico (h : Historico) : V :=
  fold_left lancar (transacoes h) (de_int 0).

(** An entry the classes can have written on an account of class [cls]:
    of a deposit or of a withdrawal, with an amount that passed the
    tests of the methods: it is not [<= 0] and, for a withdrawal from a
    [ContaCorrente], not [>] the limit. *)
Definition entrada_valida (cls : Classe) (e : Entrada) : bool :=
  negb (menor_igual (valor e) (de_int 0))
  && (String.eqb (tipo e) "Deposito"
      || (String.eqb (tipo e) "Saque"
          && match cls with
             | ClasseConta => true
             | ClasseContaCorrente limite _ => negb (maior (valor e) limite)
             end)).

(** A call of [realizar_transacao] during which the date does not
    change: the entry it writes is dated like the check it made. *)
Definition relogio_coerente (p : Pedido) : bool :=
  match p with
  | PedidoRealizar hoje agora _ => Data_eqb (date agora) hoje
  | _ => false
  end.

(** What [ContaCorrente.sacar] requires beyond [Conta.sacar]. *)
Definition dentro_dos_limites (c : Conta) (v : V) : Prop :=
  match classe c with
  | ClasseConta => True
  | ClasseContaCorrente limite limite_saques =>
      maior v limite = false /\ numero_saques (historico c) < limite_saques
  end.

End Classes.

Arguments Transacao V : clear implicits.
Arguments Entrada V : clear implicits.
Arguments Historico V : clear implicits.
Arguments Classe V : clear implicits.
Arguments Conta V : clear implicits.
Arguments Pedido V : clear implicits.

(** An ASCII capital letter, [A] to [Z]. *)
Definition maiuscula (a : ascii) : Prop :=
  (65 <= N_of_ascii a <= 90)%N.

(** The same character up to case: the same character, or a capital
    letter and its small letter, 32 codes above. *)
Definition mesma_letra (a b : ascii) : Prop :=
  a = b
  \/ (maiuscula a /\ N_of_ascii b = (N_of_ascii a + 32)%N)
  \/ (maiuscula b /\ N_of_ascii a = (N_of_ascii b + 32)%N).

(** The same string up to case, character by character. *)
Inductive mesmas_letras : string -> string -> Prop :=
| mesmas_letras_vazio : mesmas_letras EmptyString EmptyString
| mesmas_letras_cons (a b : ascii) (s t : string) :
    mesma_letra a b -> mesmas_letras s t ->
    mesmas_letras (String a s) (String b t).

(* ================================================================== *)
(** ** The session: customers, the lists of [main], input and output

    Modelling choices for the functions of the menu.
    - The keyboard is the list of the lines still to be typed; [input]
      at the end of that list raises [EOFError].
    - [float] is a parameter: the amount a line denotes, or nothing when
      [float] raises [ValueError].  The amount can be any float, nan and
      the infinities included, which [float] reads from ["nan"] and
      ["inf"].
    - The objects of the lists [clientes] and [contas] of [main] are
      shared with the customers that hold them, so an object is named
      by its position in its list, which never changes: the lists only
      grow.
    - The clock is read at most three times in a turn of the loop, for
      three different things; the readings of each turn are given. *)

(** [PessoaFisica].  [Cliente.contas] holds the accounts of the customer;
    the same account objects are in the list [contas] of [main], so an
    account is referred to by its position in that list.  (The field is
    [contas] in the source.) *)
Record PessoaFisica : Type := mkPessoaFisica {
  nome : string;
  data_nascimento : string;
  cpf : string;
  endereco : string;
  contas_do_cliente : list nat
}.

(** The texts that [input] shows. *)
Inductive Pergunta : Type :=
| PerguntaMenu             (* menu(), lines 371-381 *)
| PerguntaCPF              (* "CPF: " *)
| PerguntaValorDeposito    (* "Valor do depósito: " *)
| PerguntaValorSaque       (* "Valor do saque: " *)
| PerguntaNome             (* "Nome: " *)
| PerguntaDataNascimento   (* "Data de nascimento: " *)
| PerguntaEndereco         (* "Endereço: " *)
| PerguntaCPFCliente.      (* "CPF do cliente: " *)

(** The exceptions the session can raise. *)
Inductive Excecao : Type :=
| EOFError         (* [input] at the end of the input *)
| ValueError       (* [float] of a line that is not a number *)
| StopIteration.   (* [ContasIterador.__next__] past the last account *)

(** Outcomes that exist only in this model: a position that names no
    object, and a loop stopped by its fuel.  [main] is proved to reach
    neither. *)
Inductive ForaDoModelo : Type :=
| ReferenciaPerdida
| SemCombustivel.

Inductive Resultado (A : Type) : Type :=
| Retornou (a : A)
| Levantou (e : Excecao)
| Fora (f : ForaDoModelo).

Arguments Retornou {A} a.
Arguments Levantou {A} e.
Arguments Fora {A} f.

(** One value of [args] in a line of the log, by what its [repr] shows:
    a number, the CPF of each customer of a list ([PessoaFisica.__repr__]),
    and agency, number and owner's name of each account of a list
    ([ContaCorrente.__repr__]). *)
Inductive Argumento : Type :=
| ArgNumero (n : Z)
| ArgClientes (cpfs : list string)
| ArgContas (contas : list (string * Z * option string)).

(** One line of [log.txt]. *)
Record RegistroLog : Type := mkRegistroLog {
  log_data_hora : DataHora;
  log_funcao : string;
  log_args : list Argumento;
  log_resultado : unit          (* every decorated function returns [None] *)
}.

(** The clock readings one turn of the loop of [main] can make: the date
    of [transacoes_do_dia], the time of [adicionar_transacao] and the UTC
    time of [log_transacao]. *)
Record Leituras : Type := mkLeituras {
  leitura_hoje : Data;
  leitura_agora : DataHora;
  leitura_utc : DataHora
}.

(** The list [l] with the element at position [k] replaced (unchanged
    when there is none). *)
Fixpoint substituir {A : Type} (k : nat) (x : A) (l : list A) : list A :=
  match l, k with
  | [], _ => []
  | _ :: r, O => x :: r
  | y :: r, S k' => y :: substituir k' x r
  end.

(** [filtrar_cliente]: the first customer of the list with that CPF, as
    its position and the object, or [None]. *)
Fixpoint filtrar_cliente (cpf_ : string) (clientes : list PessoaFisica)
  : option (nat * PessoaFisica) :=
  match clientes with
  | [] => None
  | cliente :: resto =>
      if String.eqb (cpf cliente) cpf_ then Some (O, cliente)
      else match filtrar_cliente cpf_ resto with
           | Some (i, c) => Some (S i, c)
           | None => None
           end
  end.

Section Dados_da_sessao.

Context {V : Type} {num : Numero V}.

(** The string [ContasIterador.__next__] builds for one account, by its
    four fields. *)
Record Ficha : Type := mkFicha {
  ficha_agencia : string;
  ficha_numero : Z;
  ficha_titular : string;
  ficha_saldo : V
}.

(** What the session writes on the console. *)
Inductive Linha : Type :=
| Perguntou (p : Pergunta)       (* the prompt of an [input] *)
| DaConta (m : Mensagem)         (* a line printed by the classes *)
| ClienteNaoEncontrado           (* lines 405, 419, 433, 468 *)
| ClienteSemConta                (* line 395 *)
| ClienteJaExiste                (* line 452 *)
| ClienteCriado                  (* line 460 *)
| ContaCriada                    (* line 474 *)
| OpcaoInvalida                  (* line 509 *)
| ExtratoCabecalho               (* line 440 *)
| ExtratoLinha (t : Entrada V)   (* line 442: data, tipo and valor of [t] *)
| ExtratoSaldo (s : V)           (* line 444 *)
| ExtratoRodape                  (* line 445 *)
| ListaSeparador                 (* line 480 *)
| ListaConta (f : Ficha).        (* line 481 *)

(** Everything the session can read or change. *)
Record Mundo : Type := mkMundo {
  clientes : list PessoaFisica;   (* [clientes] of [main] *)
  contas : list (Conta V);        (* [contas] of [main] *)
  stdin : list string;            (* the lines still to be read *)
  stdout : list Linha;            (* what was written, oldest first *)
  log_txt : list RegistroLog;     (* the lines of [log.txt] *)
  relogio : nat -> Leituras;      (* the clock, turn by turn *)
  voltas : nat                    (* turns of the loop completed *)
}.

Definition com_clientes (cs : list PessoaFisica) (w : Mundo) : Mundo :=
  mkMundo cs (contas w) (stdin w) (stdout w) (log_txt w) (relogio w) (voltas w).
Definition com_contas (cs : list (Conta V)) (w : Mundo) : Mundo :=
  mkMundo (clientes w) cs (stdin w) (stdout w) (log_txt w) (relogio w) (voltas w).
Definition com_stdin (l : list string) (w : Mundo) : Mundo :=
  mkMundo (clientes w) (contas w) l (stdout w) (log_txt w) (relogio w) (voltas w).
Definition com_stdout (l : list Linha) (w : Mundo) : Mundo :=
  mkMundo (clientes w) (contas w) (stdin w) l (log_txt w) (relogio w) (voltas w).
Definition com_log_txt (l : list RegistroLog) (w : Mundo) : Mundo :=
  mkMundo (clientes w) (contas w) (stdin w) (stdout w) l (relogio w) (voltas w).
Definition com_voltas (n : nat) (w : Mundo) : Mundo :=
  mkMundo (clientes w) (contas w) (stdin w) (stdout w) (log_txt w) (relogio w) n.

(** [conta.cliente.nome]: the owner is the customer of the list with the
    CPF the account keeps; it is one object when the CPFs of the list
    are distinct. *)
Definition titular_de (clientes : list PessoaFisica) (conta : Conta V)
  : option string :=
  match filtrar_cliente (_cliente conta) clientes with
  | Some (_, cliente) => Some (nome cliente)
  | None => None
  end.

(** [ContasIterador.__next__] on an iterator at [_index] over the list
    [contas]: the outcome and the index afterwards.  The [finally]
    clause advances the index also when the call raises. *)
Definition ContasIterador_next (clientes : list PessoaFisica)
    (contas : list (Conta V)) (_index : nat) : Resultado Ficha * nat :=
  (match nth_error contas _index with
   | Some conta =>
       match titular_de clientes conta with
       | Some titular =>
           Retornou (mkFicha (_agencia conta) (_numero conta) titular (saldo conta))
       | None => Fora ReferenciaPerdida
       end
   | None => Levantou StopIteration
   end,
   S _index).

(** [for conta in iterador], collecting what the iterator yields: calls
    [__next__] until it raises [StopIteration].  The result is what was
    yielded and the index the iterator is left at. *)
Fixpoint ContasIterador_for (combustivel : nat) (clientes : list PessoaFisica)
    (contas : list (Conta V)) (_index : nat) : Resultado (list Ficha) * nat :=
  match combustivel with
  | O => (Fora SemCombustivel, _index)
  | S n =>
      match ContasIterador_next clientes contas _index with
      | (Retornou ficha, i) =>
          match ContasIterador_for n clientes contas i with
          | (Retornou fichas, j) => (Retornou (ficha :: fichas), j)
          | outro => outro
          end
      | (Levantou StopIteration, i) => (Retornou [], i)
      | (Levantou e, i) => (Levantou e, i)
      | (Fora f, i) => (Fora f, i)
      end
  end.

End Dados_da_sessao.

Arguments Ficha V : clear implicits.
Arguments Linha V : clear implicits.
Arguments Mundo V : clear implicits.

Module Sessao.

Section Programa.

Context {V : Type} {num : Numero V} {txt : Texto}.

(** A function of the session: from the world before to its outcome and
    the world after. *)
Definition Prog (A : Type) : Type := Mundo V -> Resultado A * Mundo V.

Definition ret {A : Type} (a : A) : Prog A := fun w => (Retornou a, w).

Definition levantar {A : Type} (e : Excecao) : Prog A :=
  fun w => (Levantou e, w).

Definition bind {A B : Type} (m : Prog A) (k : A -> Prog B) : Prog B :=
  fun w =>
    match m w with
    | (Retornou a, w1) => k a w1
    | (Levantou e, w1) => (Levantou e, w1)
    | (Fora f, w1) => (Fora f, w1)
    end.

Definition mundo : Prog (Mundo V) := fun w => (Retornou w, w).

Definition print (l : Linha V) : Prog unit :=
  fun w => (Retornou tt, com_stdout (stdout w ++ [l]) w).

Declare Scope prog_scope.
Delimit Scope prog_scope with prog.
Notation "x <- m ;; k" := (bind m (fun x => k))
  (at level 61, m at next level, right associativity) : prog_scope.
Notation "m ;; k" := (bind m (fun _ => k))
  (at level 61, right associativity) : prog_scope.
Local Open Scope prog_scope.

(** [input(texto)]: shows the text, then reads one line. *)
Definition input (p : Pergunta) : Prog string :=
  fun w =>
    let w1 := com_stdout (stdout w ++ [Perguntou p]) w in
    match stdin w with
    | [] => (Levantou EOFError, w1)
    | linha :: resto => (Retornou linha, com_stdin resto w1)
    end.

(** A method of the account at position [k] of [contas]; its lines go to
    the console. *)
Definition na_conta {A : Type} (k : nat) (m : Exec (Conta V) A) : Prog A :=
  fun w =>
    match nth_error (contas w) k with
    | Some conta =>
        let r := m conta in
        (Retornou (retorno r),
         com_stdout (stdout w ++ map DaConta (saida r))
                    (com_contas (substituir k (depois r) (contas w)) w))
    | None => (Fora ReferenciaPerdida, w)
    end.

(** [cliente.realizar_transacao(conta, transacao)] with the clock of the
    current turn. *)
Definition realizar_transacao_em (k : nat) (transacao : Transacao V) : Prog unit :=
  w <- mundo ;;
  let l := relogio w (voltas w) in
  na_conta k (realizar_transacao (leitura_hoje l) (leitura_agora l) transacao).

(** [menu] *)
Definition menu : Prog string := input PerguntaMenu.

(** [recuperar_conta_cliente] *)
Definition recuperar_conta_cliente (cliente : PessoaFisica) : Prog (option nat) :=
  match contas_do_cliente cliente with
  | [] => print ClienteSemConta ;; ret None
  | conta :: _ => ret (Some conta)
  end.

(** [log_transacao(func)]: [funcao] is [func.__name__] and [args] gives
    the [repr] of the arguments when the line is written, after [func]
    has run. *)
Definition log_transacao (funcao : string)
    (args : Mundo V -> list Argumento) (func : Prog unit) : Prog unit :=
  resultado <- func ;;
  w <- mundo ;;
  let data_hora := leitura_utc (relogio w (voltas w)) in
  (fun w => (Retornou tt,
             com_log_txt
               (log_txt w ++ [mkRegistroLog data_hora funcao (args w) resultado])
               w)) ;;
  ret resultado.

Definition repr_clientes (w : Mundo V) : Argumento :=
  ArgClientes (map cpf (clientes w)).

Definition repr_contas (w : Mundo V) : Argumento :=
  ArgContas (map (fun c => (_agencia c, _numero c, titular_de (clientes w) c))
                 (contas w)).

(** [float]: the number a line denotes, [None] when [float] raises
    [ValueError]. *)
Variable float_ : string -> option V.

Definition float (linha : string) : Prog V :=
  match float_ linha with
  | Some v => ret v
  | None => levantar ValueError
  end.

(** [depositar], before decoration. *)
Definition depositar_ : Prog unit :=
  cpf_ <- input PerguntaCPF ;;
  w <- mundo ;;
  match filtrar_cliente cpf_ (clientes w) with
  | None => print ClienteNaoEncontrado
  | Some (_, cliente) =>
      linha <- input PerguntaValorDeposito ;;
      valor <- float linha ;;
      conta <- recuperar_conta_cliente cliente ;;
      match conta with
      | Some k => realizar_transacao_em k (Deposito valor)
      | None => ret tt
      end
  end.

(** [sacar], before decoration. *)
Definition sacar_ : Prog unit :=
  cpf_ <- input PerguntaCPF ;;
  w <- mundo ;;
  match filtrar_cliente cpf_ (clientes w) with
  | None => print ClienteNaoEncontrado
  | Some (_, cliente) =>
      linha <- input PerguntaValorSaque ;;
      valor <- float linha ;;
      conta <- recuperar_conta_cliente cliente ;;
      match conta with
      | Some k => realizar_transacao_em k (Saque valor)
      | None => ret tt
      end
  end.

(** [exibir_extrato], before decoration. *)
Definition exibir_extrato_ : Prog unit :=
  cpf_ <- input PerguntaCPF ;;
  w <- mundo ;;
  match filtrar_cliente cpf_ (clientes w) with
  | None => print ClienteNaoEncontrado
  | Some (_, cliente) =>
      conta <- recuperar_conta_cliente cliente ;;
      match conta with
      | None => ret tt
      | Some k =>
          print ExtratoCabecalho ;;
          ts <- na_conta k (no_historico (gerar_relatorio None)) ;;
          (fun w => (Retornou tt, com_stdout (stdout w ++ map ExtratoLinha ts) w)) ;;
          s <- na_conta k (fun c => (saldo c, c, [])) ;;
          print (ExtratoSaldo s) ;;
          print ExtratoRodape
      end
  end.

(** [criar_cliente], before decoration. *)
Definition criar_cliente_ : Prog unit :=
  cpf_ <- input PerguntaCPF ;;
  w <- mundo ;;
  match filtrar_cliente cpf_ (clientes w) with
  | Some _ => print ClienteJaExiste
  | None =>
      nome_ <- input PerguntaNome ;;
      data_nascimento_ <- input PerguntaDataNascimento ;;
      endereco_ <- input PerguntaEndereco ;;
      (fun w => (Retornou tt,
                 com_clientes
                   (clientes w ++
                      [mkPessoaFisica nome_ data_nascimento_ cpf_ endereco_ []])
                   w)) ;;
      print ClienteCriado
  end.

(** [criar_conta], before decoration. *)
Definition criar_conta_ (numero : Z) : Prog unit :=
  cpf_ <- input PerguntaCPFCliente ;;
  w <- mundo ;;
  match filtrar_cliente cpf_ (clientes w) with
  | None => print ClienteNaoEncontrado
  | Some (i, cliente) =>
      let conta :=
        ContaCorrente_init numero (cpf cliente) limite_padrao limite_saques_padrao in
      (fun w =>
         let k := List.length (contas w) in
         (Retornou tt,
          com_clientes
            (substituir i
               (mkPessoaFisica (nome cliente) (data_nascimento cliente)
                  (cpf cliente) (endereco cliente)
                  (contas_do_cliente cliente ++ [k]))
               (clientes w))
            (com_contas (contas w ++ [conta]) w))) ;;
      print ContaCriada
  end.

(** The loop of [listar_contas], with the iterator at [_index]. *)
Fixpoint listar_contas_laco (combustivel : nat) (_index : nat) : Prog unit :=
  match combustivel with
  | O => fun w => (Fora SemCombustivel, w)
  | S n =>
      fun w =>
        match ContasIterador_next (clientes w) (contas w) _index with
        | (Retornou conta, i) =>
            (print ListaSeparador ;;
             print (ListaConta conta) ;;
             listar_contas_laco n i) w
        | (Levantou StopIteration, _) => (Retornou tt, w)
        | (Levantou e, _) => (Levantou e, w)
        | (Fora f, _) => (Fora f, w)
        end
  end.

(** [listar_contas]: a new iterator over [contas]; one call of
    [__next__] more than there are accounts ends the loop. *)
Definition listar_contas : Prog unit :=
  w <- mundo ;;
  listar_contas_laco (S (List.length (contas w))) 0.

(** The decorated functions. *)
Definition depositar : Prog unit :=
  log_transacao "depositar" (fun w => [repr_clientes w]) depositar_.
Definition sacar : Prog unit :=
  log_transacao "sacar" (fun w => [repr_clientes w]) sacar_.
Definition exibir_extrato : Prog unit :=
  log_transacao "exibir_extrato" (fun w => [repr_clientes w])
    exibir_extrato_.
Definition criar_cliente : Prog unit :=
  log_transacao "criar_cliente" (fun w => [repr_clientes w])
    criar_cliente_.
Definition criar_conta (numero : Z) : Prog unit :=
  log_transacao "criar_conta"
    (fun w => [ArgNumero numero; repr_clientes w; repr_contas w])
    (criar_conta_ numero).

(** One turn of the loop of [main] after [opcao] was read and found not
    to be ["q"]. *)
Definition acao (opcao : string) : Prog unit :=
  if String.eqb opcao "d" then depositar
  else if String.eqb opcao "s" then sacar
  else if String.eqb opcao "e" then exibir_extrato
  else if String.eqb opcao "nu" then criar_cliente
  else if String.eqb opcao "nc" then
    (w <- mundo ;; criar_conta (Z.of_nat (List.length (contas w)) + 1))
  else if String.eqb opcao "lc" then listar_contas
  else print OpcaoInvalida.

(** The [while True] of [main]. *)
Fixpoint main_laco (combustivel : nat) : Prog unit :=
  match combustivel with
  | O => fun w => (Fora SemCombustivel, w)
  | S n =>
      opcao <- menu ;;
      if String.eqb opcao "q" then ret tt
      else
        acao opcao ;;
        (fun w => (Retornou tt, com_voltas (S (voltas w)) w)) ;;
        main_laco n
  end.

(** The world when [main] starts: the input to come, the clock, and
    what [log.txt] already holds. *)
Definition mundo_inicial (entrada : list string) (relogio : nat -> Leituras)
    (log : list RegistroLog) : Mundo V :=
  mkMundo [] [] entrada [] log relogio 0.

(** [main]: every turn reads at least the option, so one turn more than
    there are lines is enough fuel. *)
Definition main (entrada : list string)
    (relogio : nat -> Leituras) (log : list RegistroLog)
  : Resultado unit * Mundo V :=
  main_laco (S (List.length entrada)) (mundo_inicial entrada relogio log).

End Programa.

End Sessao.

(* ================================================================== *)
(** ** Vocabulary for the session *)

(** The function names [log_transacao] can write. *)
Definition funcoes_decoradas : list string :=
  ["depositar"; "sacar"; "exibir_extrato"; "criar_cliente"; "criar_conta"]%string.

(** The lines of [novas] were written by [log_transacao] for decorated
    functions. *)
Definition linhas_de_log (novas : list RegistroLog) : Prop :=
  Forall (fun l => In (log_funcao l) funcoes_decoradas) novas.

(** The function [main] calls for an option of the menu, by the name
    [log_transacao] writes. *)
Definition funcao_da_opcao (opcao : string) : option string :=
  if String.eqb opcao "d" then Some "depositar"%string
  else if String.eqb opcao "s" then Some "sacar"%string
  else if String.eqb opcao "e" then Some "exibir_extrato"%string
  else if String.eqb opcao "nu" then Some "criar_cliente"%string
  else if String.eqb opcao "nc" then Some "criar_conta"%string
  else None.

(** The customer [cliente] with one more account, at position [k]:
    [cliente.adicionar_conta]. *)
Definition com_mais_uma_conta (k : nat) (cliente : PessoaFisica) : PessoaFisica :=
  mkPessoaFisica (nome cliente) (data_nascimento cliente) (cpf cliente)
    (endereco cliente) (contas_do_cliente cliente ++ [k]).

Section Vocabulario_da_sessao.

Context {V : Type} {num : Numero V}.

(** The account [criar_conta] creates in the world [w] for [cliente]. *)
Definition conta_criada (w : Mundo V) (cliente : PessoaFisica) : Conta V :=
  ContaCorrente_init (Z.of_nat (List.length (contas w)) + 1) (cpf cliente)
    limite_padrao limite_saques_padrao.

(** What one turn of the loop of [main] can do to the customers and the
    accounts: nothing; register one customer, whose CPF is new and who
    has no account; open one account for a registered customer; or
    apply one transaction, through [realizar_transacao], to the first
    account of a registered customer. *)
Inductive Mudanca (w w' : Mundo V) : Prop :=
| MudancaNenhuma :
    clientes w' = clientes w -> contas w' = contas w -> Mudanca w w'
| MudancaNovoCliente (novo : PessoaFisica) :
    filtrar_cliente (cpf novo) (clientes w) = None ->
    contas_do_cliente novo = [] ->
    clientes w' = clientes w ++ [novo] ->
    contas w' = contas w ->
    Mudanca w w'
| MudancaNovaConta (i : nat) (cliente : PessoaFisica) :
    filtrar_cliente (cpf cliente) (clientes w) = Some (i, cliente) ->
    clientes w' =
      substituir i (com_mais_uma_conta (List.length (contas w)) cliente)
                 (clientes w) ->
    contas w' = contas w ++ [conta_criada w cliente] ->
    Mudanca w w'
| MudancaTransacao (i : nat) (cliente : PessoaFisica) (k : nat) (conta : Conta V)
    (transacao : Transacao V) :
    filtrar_cliente (cpf cliente) (clientes w) = Some (i, cliente) ->
    hd_error (contas_do_cliente cliente) = Some k ->
    nth_error (contas w) k = Some conta ->
    clientes w' = clientes w ->
    contas w' =
      substituir k
        (depois (realizar_transacao
                   (leitura_hoje (relogio w (voltas w)))
                   (leitura_agora (relogio w (voltas w)))
                   transacao conta))
        (contas w) ->
    Mudanca w w'.

(** An account as the session keeps it: a [ContaCorrente] of agency
    ["0001"] with the default limit and cap, whose balance is what its
    ledger leads to from zero, with no more withdrawals on the ledger
    than the cap, and only entries that passed the tests of the
    methods. *)
Definition conta_integra (c : Conta V) : Prop :=
  classe c = ClasseContaCorrente limite_padrao limite_saques_padrao
  /\ _agencia c = "0001"%string
  /\ saldo c = saldo_do_historico (historico c)
  /\ numero_saques (historico c) <= limite_saques_padrao
  /\ forallb (entrada_valida (classe c)) (transacoes (historico c)) = true.

(** The accounts of a customer are accounts of the list, and theirs. *)
Definition contas_sao_do_cliente (ks : list (Conta V)) (cliente : PessoaFisica)
  : Prop :=
  Forall (fun k => exists c, nth_error ks k = Some c /\ _cliente c = cpf cliente)
         (contas_do_cliente cliente).

(** The state of a session that holds together. *)
Definition mundo_integro (w : Mundo V) : Prop :=
  NoDup (map cpf (clientes w))
  /\ map _numero (contas w) =
      map (fun k => Z.of_nat k + 1) (seq 0 (List.length (contas w)))
  /\ Forall conta_integra (contas w)
  /\ Forall (fun c => In (_cliente c) (map cpf (clientes w))) (contas w)
  /\ Forall (contas_sao_do_cliente (contas w)) (clientes w).

(** The record [__next__] builds for an account whose owner is in the
    list of customers. *)
Definition ficha_da_conta (clientes : list PessoaFisica) (conta : Conta V)
  : Ficha V :=
  mkFicha (_agencia conta) (_numero conta)
          (match titular_de clientes conta with
           | Some titular => titular
           | None => EmptyString
           end)
          (saldo conta).

(** The record of an account, read from the owner it keeps: agency,
    number, the owner's name and the balance. *)
Definition ficha_com_titular (titular : PessoaFisica) (conta : Conta V) : Ficha V :=
  mkFicha (_agencia conta) (_numero conta) (nome titular) (saldo conta).

(** [cliente] is the owner of [conta], among the customers [cs]. *)
Definition titular (cs : list PessoaFisica) (conta : Conta V)
    (cliente : PessoaFisica) : Prop :=
  In cliente cs /\ cpf cliente = _cliente conta.

(** What every function of the session respects, whatever it does to
    the customers and accounts: it reads the input from the front and
    only adds to the console; it leaves the clock alone; [EOFError]
    means the input is used up, [ValueError] that a line of the input is
    not a number; it lets no [StopIteration] escape; and on a state that
    holds together it ends with an outcome of the program. *)
Definition Moldura (float_ : string -> option V)
    (w : Mundo V) (r : Resultado unit) (w' : Mundo V) : Prop :=
  (exists lidas, stdin w = lidas ++ stdin w')
  /\ (exists escritas, stdout w' = stdout w ++ escritas)
  /\ relogio w' = relogio w
  /\ voltas w' = voltas w
  /\ (r = Levantou EOFError -> stdin w' = [])
  /\ (r = Levantou ValueError ->
      exists linha, In linha (stdin w) /\ float_ linha = None)
  /\ r <> Levantou StopIteration
  /\ (mundo_integro w -> forall f, r <> Fora f).

(** One turn of the loop of [main], from the option read to the end of
    the function called: one change of state, the frame of every
    function, and at most one new line at the end of the log, none when
    the function raised. *)
Definition Volta (float_ : string -> option V)
    (w : Mundo V) (r : Resultado unit) (w' : Mundo V) : Prop :=
  Mudanca w w'
  /\ Moldura float_ w r w'
  /\ exists novas,
       log_txt w' = log_txt w ++ novas
       /\ linhas_de_log novas
       /\ (List.length novas <= 1)%nat
       /\ (r <> Retornou tt -> novas = []).

(** A run of the loop of [main] from [w]: it ends on a state that holds
    together, by a return, and then the last line it read is ["q"], by
    [EOFError] (with the input used up) or by [ValueError] (a line of the
    input is not a number); it reads the input from the front, only adds
    to the console and to the log, one line at most per turn completed,
    each the line of a decorated function. *)
Definition Resumo (float_ : string -> option V)
    (w : Mundo V) (r : Resultado unit) (w' : Mundo V) : Prop :=
  mundo_integro w'
  /\ (r = Retornou tt \/ r = Levantou EOFError \/ r = Levantou ValueError)
  /\ (exists lidas, stdin w = lidas ++ stdin w'
                    /\ (r = Retornou tt ->
                        exists antes, lidas = antes ++ ["q"%string]))
  /\ (r = Levantou EOFError -> stdin w' = [])
  /\ (r = Levantou ValueError ->
      exists linha, In linha (stdin w) /\ float_ linha = None)
  /\ (exists escritas, stdout w' = stdout w ++ escritas)
  /\ (exists novas,
        log_txt w' = log_txt w ++ novas
        /\ linhas_de_log novas
        /\ (List.length novas + voltas w <= voltas w')%nat)
  /\ relogio w' = relogio w.

(** The lines [exibir_extrato] prints for an account. *)
Definition linhas_do_extrato (c : Conta V) : list (Linha V) :=
  [ExtratoCabecalho]
  ++ map ExtratoLinha (transacoes (historico c))
  ++ [ExtratoSaldo (saldo c); ExtratoRodape].

(** The lines [listar_contas] prints for the accounts [ks]. *)
Definition linhas_da_lista (cs : list PessoaFisica) (ks : list (Conta V))
  : list (Linha V) :=
  flat_map (fun c => [ListaSeparador; ListaConta (ficha_da_conta cs c)]) ks.

End Vocabulario_da_sessao.

(* ================================================================== *)
(** ** Examples *)

(** A session used as an example: the amounts the lines denote, a clock
    that stays on one day, and what is typed: a customer is registered,
    opens an account, deposits 1000, asks for 1500 and then for 300, and
    quits; one more line, a CPF, is left unread. *)
Definition float_exemplo (linha : string) : option float :=
  if String.eqb linha "1000" then Some 1000%float
  else if String.eqb linha "1500" then Some 1500%float
  else if String.eqb linha "300" then Some 300%float
  else None.

Definition relogio_exemplo (volta : nat) : Leituras :=
  mkLeituras (mkData 3 11 2026)
             (mkDataHora (mkData 3 11 2026) 9 0 (Z.of_nat volta))
             (mkDataHora (mkData 3 11 2026) 12 0 (Z.of_nat volta)).

Definition entrada_exemplo : list string :=
  [ "nu"; "123"; "Ana"; "01-01-2000"; "Rua A";
    "nc"; "123";
    "d"; "123"; "1000";
    "s"; "123"; "1500";
    "s"; "123"; "300";
    "q"; "123" ]%string.

Definition sessao_exemplo : Resultado unit * Mundo float :=
  Sessao.main (txt := Texto_ascii) float_exemplo entrada_exemplo relogio_exemplo [].



(* ================================================================== *)
(** * Properties *)

Ltac exec_unfold :=
  unfold realizar_transacao, registrar, mutacao, sacar, depositar,
    ContaCorrente_sacar, Conta_sacar, Conta_depositar, no_historico,
    adicionar_transacao, transacoes_do_dia, gerar_relatorio,
    bind, ret, get, put, print, retorno, depois, saida,
    saldo, historico, transacoes, com_saldo, com_historico in *;
  cbn [fst snd _saldo _numero _agencia _cliente _historico classe
       _transacoes app] in *.

Ltac recusado := right; eexists; split; [|reflexivity]; reflexivity.

Lemma Data_eqb_eq (a b : Data) : Data_eqb a b = true <-> a = b.
Proof.
  unfold Data_eqb. rewrite !andb_true_iff, !Z.eqb_eq.
  destruct a, b; cbn. split.
  - intros [[-> ->] ->]. reflexivity.
  - intros [= -> -> ->]. auto.
Qed.

Lemma lista_mais_um_difere {A : Type} (l : list A) (x : A) : l <> l ++ [x].
Proof.
  intros H. apply (f_equal (@List.length A)) in H.
  rewrite length_app in H. cbn in H. lia.
Qed.

Section Propriedades_das_classes.

Context {V : Type} {num : Numero V} {txt : Texto}.

(** ** The monad and the basic methods *)

(** What [Conta.sacar] does, by cases. *)
Lemma Conta_sacar_eq (v : V) (c : Conta V) :
  Conta_sacar v c =
    if menor_igual v (de_int 0) then (false, c, [ValorInvalido])
    else if maior v (_saldo c) then (false, c, [SaldoInsuficiente])
    else (true, com_saldo (subtrai (_saldo c) v) c, [SaqueSucesso]).
Proof.
  exec_unfold. destruct (menor_igual v (de_int 0)); [reflexivity|].
  destruct (maior v (_saldo c)); reflexivity.
Qed.

Lemma Conta_depositar_eq (v : V) (c : Conta V) :
  Conta_depositar v c =
    if menor_igual v (de_int 0) then (false, c, [ValorInvalido])
    else (true, com_saldo (soma (_saldo c) v) c, [DepositoSucesso]).
Proof.
  exec_unfold. destruct (menor_igual v (de_int 0)); reflexivity.
Qed.

Lemma ContaCorrente_sacar_eq (l : V) (n : Z) (v : V) (c : Conta V) :
  ContaCorrente_sacar l n v c =
    if maior v l then (false, c, [LimiteSaqueExcedido])
    else if numero_saques (_historico c) >=? n then (false, c, [LimiteSaquesExcedido])
    else Conta_sacar v c.
Proof.
  unfold ContaCorrente_sacar, bind, get, print, ret, historico.
  destruct (maior v l); [reflexivity|].
  destruct (numero_saques (_historico c) >=? n); [reflexivity|].
  destruct (Conta_sacar v c) as [[b c'] o]. reflexivity.
Qed.

Lemma sacar_eq (v : V) (c : Conta V) :
  sacar v c =
    match classe c with
    | ClasseConta => Conta_sacar v c
    | ClasseContaCorrente l n => ContaCorrente_sacar l n v c
    end.
Proof.
  unfold sacar, bind, get.
  destruct (classe c) as [|l n].
  - destruct (Conta_sacar v c) as [[b c'] o]. reflexivity.
  - destruct (ContaCorrente_sacar l n v c) as [[b c'] o]. reflexivity.
Qed.

Lemma com_historico_mesmo (c : Conta V) : com_historico (_historico c) c = c.
Proof. destruct c; reflexivity. Qed.

(** [sacar] either withdraws and prints the success line, the amount
    having passed the two tests of [Conta.sacar], or refuses with one
    message and leaves the account untouched. *)
Lemma sacar_casos (v : V) (c : Conta V) :
  (menor_igual v (de_int 0) = false /\ maior v (_saldo c) = false /\
   sacar v c = (true, com_saldo (subtrai (_saldo c) v) c, [SaqueSucesso])) \/
  (exists m, recusa m = true /\ sacar v c = (false, c, [m])).
Proof.
  rewrite sacar_eq. destruct (classe c) as [|l n].
  - rewrite Conta_sacar_eq.
    destruct (menor_igual v (de_int 0)) eqn:E1; [recusado|].
    destruct (maior v (_saldo c)) eqn:E2; [recusado|].
    left. repeat split.
  - rewrite ContaCorrente_sacar_eq.
    destruct (maior v l); [recusado|].
    destruct (_ >=? n); [recusado|].
    rewrite Conta_sacar_eq.
    destruct (menor_igual v (de_int 0)) eqn:E1; [recusado|].
    destruct (maior v (_saldo c)) eqn:E2; [recusado|].
    left. repeat split.
Qed.

Lemma depositar_casos (v : V) (c : Conta V) :
  (menor_igual v (de_int 0) = false /\
   depositar v c = (true, com_saldo (soma (_saldo c) v) c, [DepositoSucesso])) \/
  (exists m, recusa m = true /\ depositar v c = (false, c, [m])).
Proof.
  unfold depositar. rewrite Conta_depositar_eq.
  destruct (menor_igual v (de_int 0)) eqn:E1.
  - right. exists ValorInvalido. split; reflexivity.
  - left. split; reflexivity.
Qed.

(** [sacar] returns [True] exactly when it prints its success line. *)
Lemma sacar_retorno_saida (v : V) (c : Conta V) :
  retorno (sacar v c) = true <-> saida (sacar v c) = [SaqueSucesso].
Proof.
  destruct (sacar_casos v c) as [(_ & _ & ->) | (m & Hm & ->)]; cbn.
  - tauto.
  - split; [discriminate|]. intros [= ->]. discriminate.
Qed.

Lemma depositar_retorno_saida (v : V) (c : Conta V) :
  retorno (depositar v c) = true <-> saida (depositar v c) = [DepositoSucesso].
Proof.
  destruct (depositar_casos v c) as [[_ ->] | (m & Hm & ->)]; cbn.
  - tauto.
  - split; [discriminate|]. intros [= ->]. discriminate.
Qed.

(** [registrar] in terms of the mutation it calls. *)
Lemma registrar_eq (agora : DataHora) (t : Transacao V) (c : Conta V) :
  registrar agora t c =
    let r := mutacao t c in
    if retorno r
    then (tt,
          com_historico
            (mkHistorico (_transacoes (_historico (depois r)) ++ [entrada_de agora t]))
            (depois r),
          saida r)
    else (tt, depois r, saida r).
Proof.
  destruct t as [v|v]; unfold registrar, mutacao, bind; cbn zeta.
  - destruct (sacar v c) as [[[] c'] o]; cbn; rewrite app_nil_r; reflexivity.
  - destruct (depositar v c) as [[[] c'] o]; cbn; rewrite app_nil_r; reflexivity.
Qed.

(** The list comprehension of [transacoes_do_dia] selects the entries
    dated [hoje]. *)
Lemma entradas_do_dia_eq (hoje : Data) (h : Historico V) :
  entradas_do_dia hoje h =
    List.length (filter (fun t => Data_eqb (date (data t)) hoje) (_transacoes h)).
Proof.
  unfold entradas_do_dia, transacoes.
  induction (_transacoes h) as [|e l IH]; [reflexivity|].
  cbn [map count_occ filter].
  destruct (Data_eq_dec (date (data e)) hoje) as [E|E].
  - apply Data_eqb_eq in E. rewrite E. cbn. now rewrite IH.
  - destruct (Data_eqb (date (data e)) hoje) eqn:B.
    + apply Data_eqb_eq in B. contradiction.
    + exact IH.
Qed.

Lemma realizar_transacao_eq (hoje : Data) (agora : DataHora) (t : Transacao V)
    (c : Conta V) :
  realizar_transacao hoje agora t c =
    if (2 <=? entradas_do_dia hoje (_historico c))%nat
    then (tt, c, [LimiteDiarioExcedido])
    else registrar agora t c.
Proof.
  rewrite entradas_do_dia_eq.
  unfold realizar_transacao, no_historico, transacoes_do_dia,
    transacoes, bind, get, ret, print.
  rewrite com_historico_mesmo. cbn [app].
  destruct (2 <=? _)%nat; [reflexivity|].
  destruct (registrar agora t c) as [[u c'] o]. reflexivity.
Qed.

Lemma registrar_desfecho (agora : DataHora) (t : Transacao V) (c : Conta V) :
  Desfecho (PedidoRegistrar agora t) c
           (depois (registrar agora t c)) (saida (registrar agora t c)).
Proof.
  rewrite registrar_eq. destruct t as [v|v]; cbn [mutacao].
  - destruct (sacar_casos v c) as [(Hv & Hs & ->) | (m & Hm & ->)]; cbn.
    + exact (DesfechoSaque (PedidoRegistrar agora (Saque v)) c eq_refl Hv Hs).
    + now apply DesfechoRecusa.
  - destruct (depositar_casos v c) as [[Hv ->] | (m & Hm & ->)]; cbn.
    + exact (DesfechoDeposito (PedidoRegistrar agora (Deposito v)) c eq_refl Hv).
    + now apply DesfechoRecusa.
Qed.

Lemma Desfecho_realizar (hoje : Data) (agora : DataHora) (t : Transacao V)
    (c c' : Conta V) (o : list Mensagem) :
  Desfecho (PedidoRegistrar agora t) c c' o ->
  Desfecho (PedidoRealizar hoje agora t) c c' o.
Proof.
  intros H. destruct H as [Hs Hv Hb | Hs Hv | m Hm].
  - exact (DesfechoSaque (PedidoRealizar hoje agora t) c Hs Hv Hb).
  - exact (DesfechoDeposito (PedidoRealizar hoje agora t) c Hs Hv).
  - now apply DesfechoRecusa.
Qed.

(** Every request ends in one of the three ways of [Desfecho]. *)
Lemma atender_desfecho (p : Pedido V) (c : Conta V) :
  Desfecho p c (depois (atender p c)) (saida (atender p c)).
Proof.
  destruct p as [v | v | agora t | hoje agora t]; cbn [atender].
  - unfold bind, ret.
    destruct (sacar_casos v c) as [(Hv & Hs & ->) | (m & Hm & ->)]; cbn.
    + rewrite <- (com_historico_mesmo (com_saldo _ c)).
      exact (DesfechoSaque (PedidoSacar v) c eq_refl Hv Hs).
    + now apply DesfechoRecusa.
  - unfold bind, ret.
    destruct (depositar_casos v c) as [[Hv ->] | (m & Hm & ->)]; cbn.
    + rewrite <- (com_historico_mesmo (com_saldo _ c)).
      exact (DesfechoDeposito (PedidoDepositar v) c eq_refl Hv).
    + now apply DesfechoRecusa.
  - apply registrar_desfecho.
  - rewrite realizar_transacao_eq.
    destruct (2 <=? _)%nat.
    + now apply DesfechoRecusa.
    + apply Desfecho_realizar, registrar_desfecho.
Qed.

(** What "successful" means for a request, in terms of the flag that
    [sacar] and [depositar] return: the request reached the method (the
    daily limit of [realizar_transacao] did not stop it) and the method
    returned [True]. *)
Lemma saque_bem_sucedido_retorno (p : Pedido V) (c : Conta V) :
  saque_bem_sucedido (p, saida (atender p c)) = true <->
  match p with
  | PedidoSacar v | PedidoRegistrar _ (Saque v) => retorno (sacar v c) = true
  | PedidoRealizar hoje _ (Saque v) =>
      (entradas_do_dia hoje (historico c) < 2)%nat /\ retorno (sacar v c) = true
  | _ => False
  end.
Proof.
  unfold saque_bem_sucedido. cbn [fst snd].
  assert (S : forall v, imprimiu SaqueSucesso (saida (sacar v c)) = true <->
                        retorno (sacar v c) = true).
  { intros v. destruct (sacar_casos v c) as [(_ & _ & ->) | (m & Hm & ->)]; cbn.
    - tauto.
    - destruct m; try discriminate Hm; cbn; tauto. }
  destruct p as [v | v | agora [v|v] | hoje agora [v|v]];
    cbn [pedido_de_saque andb atender]; try (split; [discriminate | tauto]).
  - unfold bind, ret. rewrite <- S.
    destruct (sacar v c) as [[b c'] o]. cbn. rewrite app_nil_r. tauto.
  - rewrite registrar_eq. cbv zeta. cbn [mutacao]. rewrite <- S.
    destruct (retorno (sacar v c)); cbn; tauto.
  - rewrite realizar_transacao_eq. unfold historico.
    destruct (2 <=? _)%nat eqn:E.
    + apply Nat.leb_le in E. cbn. split; [discriminate | lia].
    + apply Nat.leb_gt in E. rewrite registrar_eq. cbv zeta. cbn [mutacao].
      rewrite <- S. destruct (retorno (sacar v c)); cbn; tauto.
Qed.

Lemma deposito_bem_sucedido_retorno (p : Pedido V) (c : Conta V) :
  deposito_bem_sucedido (p, saida (atender p c)) = true <->
  match p with
  | PedidoDepositar v | PedidoRegistrar _ (Deposito v) =>
      retorno (depositar v c) = true
  | PedidoRealizar hoje _ (Deposito v) =>
      (entradas_do_dia hoje (historico c) < 2)%nat
      /\ retorno (depositar v c) = true
  | _ => False
  end.
Proof.
  unfold deposito_bem_sucedido. cbn [fst snd].
  assert (S : forall v, imprimiu DepositoSucesso (saida (depositar v c)) = true <->
                        retorno (depositar v c) = true).
  { intros v. destruct (depositar_casos v c) as [[_ ->] | (m & Hm & ->)]; cbn.
    - tauto.
    - destruct m; try discriminate Hm; cbn; tauto. }
  destruct p as [v | v | agora [v|v] | hoje agora [v|v]];
    cbn [pedido_de_saque negb andb atender]; try (split; [discriminate | tauto]).
  - unfold bind, ret. rewrite <- S.
    destruct (depositar v c) as [[b c'] o]. cbn. rewrite app_nil_r. tauto.
  - rewrite registrar_eq. cbv zeta. cbn [mutacao]. rewrite <- S.
    destruct (retorno (depositar v c)); cbn; tauto.
  - rewrite realizar_transacao_eq. unfold historico.
    destruct (2 <=? _)%nat eqn:E.
    + apply Nat.leb_le in E. cbn. split; [discriminate | lia].
    + apply Nat.leb_gt in E. rewrite registrar_eq. cbv zeta. cbn [mutacao].
      rewrite <- S. destruct (retorno (depositar v c)); cbn; tauto.
Qed.

(* ================================================================== *)
(** ** Balance and sequences of requests *)

Lemma executar_cons (p : Pedido V) (ps : list (Pedido V)) (c : Conta V) :
  executar (p :: ps) c =
    (fst (executar ps (depois (atender p c))),
     (p, saida (atender p c)) :: snd (executar ps (depois (atender p c)))).
Proof.
  cbn [executar]. destruct (executar ps _) as [final registro]. reflexivity.
Qed.



Section Com_as_leis.

Context {leis : Numero_leis V}.

(** A request leaves no balance below zero that was not. *)
Lemma desfecho_nao_negativo (p : Pedido V) (c c' : Conta V) (o : list Mensagem) :
  Desfecho p c c' o ->
  negativo (_saldo c) = false -> negativo (_saldo c') = false.
Proof.
  unfold negativo. intros [Hs Hv Hb | Hs Hv | m Hm] H0; cbn.
  - now apply subtrai_nao_negativa.
  - now apply soma_nao_negativa.
  - exact H0.
Qed.


End Com_as_leis.

(* ================================================================== *)
(** ** registrar and the ledger *)

(** A refused mutation leaves the whole account as it was. *)
Lemma mutacao_recusada (t : Transacao V) (c : Conta V) :
  retorno (mutacao t c) = false -> depois (mutacao t c) = c.
Proof.
  destruct t as [v|v]; cbn [mutacao].
  - destruct (sacar_casos v c) as [(_ & _ & ->) | (m & _ & ->)]; cbn;
      [discriminate | reflexivity].
  - destruct (depositar_casos v c) as [[_ ->] | (m & _ & ->)]; cbn;
      [discriminate | reflexivity].
Qed.

(** No mutation touches the ledger. *)
Lemma mutacao_historico (t : Transacao V) (c : Conta V) :
  _historico (depois (mutacao t c)) = _historico c.
Proof.
  destruct t as [v|v]; cbn [mutacao].
  - destruct (sacar_casos v c) as [(_ & _ & ->) | (m & _ & ->)]; reflexivity.
  - destruct (depositar_casos v c) as [[_ ->] | (m & _ & ->)]; reflexivity.
Qed.

(** C2.  [transacao.registrar(conta)], for a [Saque] or a [Deposito]:
    the ledger of the account gains the entry of the transaction if and
    only if the balance mutation it calls ([sacar] or [depositar])
    returned success; when the mutation fails the ledger is left as it
    was.  In both cases the balance is the one the mutation left. *)
Theorem C2_registrar_anota_sse_mutacao_com_sucesso
    (agora : DataHora) (transacao : Transacao V) (conta : Conta V) :
  let m := mutacao transacao conta in
  let r := registrar agora transacao conta in
  (transacoes (historico (depois r)) =
     transacoes (historico conta) ++ [entrada_de agora transacao]
   <-> retorno m = true)
  /\ (retorno m = false ->
      transacoes (historico (depois r)) = transacoes (historico conta))
  /\ saldo (depois r) = saldo (depois m).
Proof.
  cbv zeta. rewrite registrar_eq. cbv zeta.
  pose proof (mutacao_historico transacao conta) as Hh.
  destruct (retorno (mutacao transacao conta)) eqn:E;
    unfold transacoes, historico, saldo; cbn; rewrite Hh.
  - repeat split; try reflexivity. discriminate.
  - repeat split; try reflexivity.
    + intros H. exfalso. exact (lista_mais_um_difere _ _ H).
    + discriminate.
Qed.

(* ================================================================== *)
(** ** The daily limit of Cliente.realizar_transacao *)

(** C3.  [cliente.realizar_transacao(conta, transacao)], for a
    transaction of either kind: when the ledger of the account already
    holds two or more entries whose timestamp is dated today, the call
    prints the daily-limit message and leaves the account (balance and
    ledger) as it was; otherwise it is exactly
    [transacao.registrar(conta)]. *)
Theorem C3_limite_diario_ou_registrar
    (hoje : Data) (agora : DataHora) (transacao : Transacao V) (conta : Conta V) :
  ((2 <= entradas_do_dia hoje (historico conta))%nat ->
   realizar_transacao hoje agora transacao conta =
     (tt, conta, [LimiteDiarioExcedido]))
  /\
  ((entradas_do_dia hoje (historico conta) < 2)%nat ->
   realizar_transacao hoje agora transacao conta =
     registrar agora transacao conta).
Proof.
  rewrite realizar_transacao_eq. unfold historico.
  destruct (2 <=? entradas_do_dia hoje (_historico conta))%nat eqn:E.
  - apply Nat.leb_le in E. split; [reflexivity | lia].
  - apply Nat.leb_gt in E. split; [lia | reflexivity].
Qed.

(* ================================================================== *)
(** ** Refused withdrawals *)

(** A refused [sacar] changes nothing, so neither does the [registrar] or
    the [realizar_transacao] built on it. *)
Lemma saque_recusado (v : V) (c : Conta V) :
  retorno (sacar v c) = false ->
  depois (sacar v c) = c
  /\ (forall agora, depois (registrar agora (Saque v) c) = c)
  /\ (forall hoje agora, depois (realizar_transacao hoje agora (Saque v) c) = c).
Proof.
  intros H.
  assert (Hm : depois (mutacao (Saque v) c) = c) by now apply mutacao_recusada.
  assert (Hr : forall agora, depois (registrar agora (Saque v) c) = c).
  { intros agora. rewrite registrar_eq. cbv zeta. cbn [mutacao] in *.
    rewrite H. exact Hm. }
  repeat split; [exact Hm | exact Hr |].
  intros hoje agora. rewrite realizar_transacao_eq.
  destruct (2 <=? _)%nat; [reflexivity | apply Hr].
Qed.

(** C5.  A withdrawal request for more than the current balance
    ([valor > saldo], the test of line 182), on an account of either
    class: [sacar] returns [False], and the account (its balance, its
    ledger) is unchanged after [sacar], after [Saque.registrar] and
    after [realizar_transacao]; no entry is appended. *)
Theorem C5_saque_acima_do_saldo_recusado
    (conta : Conta V) (v : V) (hoje : Data) (agora : DataHora) :
  maior v (saldo conta) = true ->
  retorno (sacar v conta) = false
  /\ saldo (depois (sacar v conta)) = saldo conta
  /\ depois (sacar v conta) = conta
  /\ transacoes (historico (depois (registrar agora (Saque v) conta))) =
       transacoes (historico conta)
  /\ depois (registrar agora (Saque v) conta) = conta
  /\ depois (realizar_transacao hoje agora (Saque v) conta) = conta.
Proof.
  intros Hv. unfold saldo in Hv.
  assert (H : retorno (sacar v conta) = false).
  { destruct (sacar_casos v conta) as [(_ & Hok & _) | (m & _ & ->)];
      [congruence | reflexivity]. }
  destruct (saque_recusado v conta H) as (H1 & H2 & H3).
  rewrite H1, H2, H3. repeat split; assumption.
Qed.

(* ================================================================== *)
(** ** Order of the checks of ContaCorrente.sacar *)

(** [sacar] on a [ContaCorrente], by the two tests it makes before
    [Conta.sacar]. *)
Lemma sacar_ContaCorrente (c : Conta V) (l : V) (n : Z) (v : V) :
  classe c = ClasseContaCorrente l n ->
  sacar v c =
    if maior v l then (false, c, [LimiteSaqueExcedido])
    else if numero_saques (_historico c) >=? n then (false, c, [LimiteSaquesExcedido])
    else Conta_sacar v c.
Proof.
  intros H. rewrite sacar_eq, H. apply ContaCorrente_sacar_eq.
Qed.

(** C7.  [ContaCorrente.sacar] tests the limit, then the cap, and only
    then calls [Conta.sacar].  So when the amount is above the limit
    ([valor > limite]) the only line printed is the limit message, and
    when it is not but the number of recorded withdrawals has reached
    the cap the only line printed is the cap message: whether or not the
    amount is positive and whatever the balance (the outcome is the same
    for every balance, in particular when the amount also exceeds it).
    The messages of the base checks are printed only when both specific
    checks passed. *)
Theorem C7_verificacoes_especificas_primeiro
    (saldo0 : V) (numero : Z) (agencia cliente : string) (h : Historico V)
    (limite : V) (limite_saques : Z) (v : V) :
  let conta s :=
    mkConta s numero agencia cliente h (ClasseContaCorrente limite limite_saques) in
  (maior v limite = true ->
   forall s, sacar v (conta s) = (false, conta s, [LimiteSaqueExcedido]))
  /\ (maior v limite = false -> limite_saques <= numero_saques h ->
      forall s, sacar v (conta s) = (false, conta s, [LimiteSaquesExcedido]))
  /\ (In ValorInvalido (saida (sacar v (conta saldo0)))
      \/ In SaldoInsuficiente (saida (sacar v (conta saldo0))) ->
      maior v limite = false /\ numero_saques h < limite_saques).
Proof.
  cbv zeta. split; [|split].
  - intros Hv s. rewrite (sacar_ContaCorrente _ limite limite_saques) by reflexivity.
    rewrite Hv. reflexivity.
  - intros Hv Hn s.
    rewrite (sacar_ContaCorrente _ limite limite_saques) by reflexivity.
    rewrite Hv. cbn [_historico].
    destruct (numero_saques h >=? limite_saques) eqn:E2; [reflexivity | lia].
  - rewrite (sacar_ContaCorrente _ limite limite_saques) by reflexivity.
    cbn [_historico].
    destruct (maior v limite) eqn:E;
      [cbn; intros [[H|[]]|[H|[]]]; discriminate H|].
    destruct (numero_saques h >=? limite_saques) eqn:E2;
      [cbn; intros [[H|[]]|[H|[]]]; discriminate H|].
    intros _. split; [reflexivity | lia].
Qed.

(* ================================================================== *)
(** ** Deposits *)

(** A deposit of an amount that passes the test of [Conta.depositar]
    (it is not [<= 0]) is accepted on an account of either class in any
    state: the balance becomes [saldo + v], and [registrar] appends the
    entry of the deposit. *)
Lemma deposito_aceito (conta : Conta V) (v : V) (agora : DataHora) :
  menor_igual v (de_int 0) = false ->
  depositar v conta =
    (true, com_saldo (soma (saldo conta) v) conta, [DepositoSucesso])
  /\ saldo (depois (depositar v conta)) = soma (saldo conta) v
  /\ depois (registrar agora (Deposito v) conta) =
       com_historico
         (mkHistorico (transacoes (historico conta) ++ [mkEntrada "Deposito" v agora]))
         (com_saldo (soma (saldo conta) v) conta).
Proof.
  intros Hv.
  assert (H : depositar v conta =
              (true, com_saldo (soma (saldo conta) v) conta, [DepositoSucesso])).
  { unfold depositar. rewrite Conta_depositar_eq, Hv. reflexivity. }
  repeat split.
  - exact H.
  - rewrite H. reflexivity.
  - rewrite registrar_eq. cbv zeta. cbn [mutacao]. rewrite H. reflexivity.
Qed.

(* ================================================================== *)
(** ** Reading the ledger *)

(** The loop of [gerar_relatorio] started with [produzidas] already
    yielded. *)
Lemma laco_relatorio (filtro : option string) (ts produzidas : list (Entrada V)) :
  fold_left
    (fun produzidas transacao =>
       if relatorio_inclui filtro transacao
       then produzidas ++ [transacao]
       else produzidas)
    ts produzidas
  = produzidas ++ filter (relatorio_inclui filtro) ts.
Proof.
  revert produzidas. induction ts as [|t ts IH]; intros produzidas.
  - cbn. now rewrite app_nil_r.
  - cbn [fold_left filter]. rewrite IH.
    destruct (relatorio_inclui filtro t); [|reflexivity].
    now rewrite <- app_assoc.
Qed.

Lemma filter_tudo {A : Type} (l : list A) : filter (fun _ => true) l = l.
Proof. induction l as [|x l IH]; cbn; [reflexivity | now rewrite IH]. Qed.

Lemma lower_ascii_minuscula (a : ascii) :
  maiuscula a -> N_of_ascii (lower_ascii a) = (N_of_ascii a + 32)%N.
Proof.
  unfold maiuscula, lower_ascii. intros [H1 H2]. cbv zeta.
  destruct (65 <=? N_of_ascii a)%N eqn:E1; [|apply N.leb_gt in E1; lia].
  destruct (N_of_ascii a <=? 90)%N eqn:E2; [|apply N.leb_gt in E2; lia].
  cbn [andb]. apply N_ascii_embedding. lia.
Qed.

Lemma lower_ascii_outra (a : ascii) :
  ~ maiuscula a -> lower_ascii a = a.
Proof.
  unfold maiuscula, lower_ascii. intros H. cbv zeta.
  destruct (65 <=? N_of_ascii a)%N eqn:E1; [|reflexivity].
  destruct (N_of_ascii a <=? 90)%N eqn:E2; [|reflexivity].
  apply N.leb_le in E1, E2. lia.
Qed.

Lemma maiuscula_dec (a : ascii) : maiuscula a \/ ~ maiuscula a.
Proof. unfold maiuscula. lia. Qed.

Lemma N_of_ascii_inj (a b : ascii) : N_of_ascii a = N_of_ascii b -> a = b.
Proof.
  intros H. rewrite <- (ascii_N_embedding a), <- (ascii_N_embedding b).
  now rewrite H.
Qed.

(** Folding to small letters identifies exactly the characters that are
    the same up to case. *)
Lemma lower_ascii_mesma_letra (a b : ascii) :
  lower_ascii a = lower_ascii b <-> mesma_letra a b.
Proof.
  unfold mesma_letra. split.
  - intros H.
    destruct (maiuscula_dec a) as [Ha|Ha], (maiuscula_dec b) as [Hb|Hb].
    + left. apply N_of_ascii_inj.
      apply (f_equal N_of_ascii) in H.
      rewrite !lower_ascii_minuscula in H by assumption. lia.
    + right. left. split; [assumption|].
      rewrite (lower_ascii_outra b Hb) in H. rewrite <- H.
      now apply lower_ascii_minuscula.
    + right. right. split; [assumption|].
      rewrite (lower_ascii_outra a Ha) in H. rewrite H.
      now apply lower_ascii_minuscula.
    + left. now rewrite (lower_ascii_outra a Ha), (lower_ascii_outra b Hb) in H.
  - intros [-> | [[Ha Hb] | [Hb Ha]]]; [reflexivity | |].
    + assert (Nb : ~ maiuscula b) by (unfold maiuscula in *; lia).
      rewrite (lower_ascii_outra b Nb). apply N_of_ascii_inj.
      rewrite lower_ascii_minuscula by assumption. now rewrite Hb.
    + assert (Na : ~ maiuscula a) by (unfold maiuscula in *; lia).
      rewrite (lower_ascii_outra a Na). apply N_of_ascii_inj.
      rewrite lower_ascii_minuscula by assumption. now rewrite Ha.
Qed.

(** Two strings have the same [lower] exactly when they are the same up
    to the case of their letters. *)
Lemma lower_mesmas_letras (s t : string) :
  lower s = lower t <-> mesmas_letras s t.
Proof.
  split.
  - revert t. induction s as [|a s IH]; intros [|b t] H; cbn in H;
      try discriminate H.
    + constructor.
    + injection H as H1 H2. constructor.
      * now apply lower_ascii_mesma_letra.
      * now apply IH.
  - induction 1 as [|a b s t Hab _ IH]; [reflexivity|].
    cbn. f_equal; [now apply lower_ascii_mesma_letra | exact IH].
Qed.

(** On strings of ASCII characters the test of [gerar_relatorio] decides
    equality up to the case of the letters. *)
Lemma igual_sem_caixa_mesmas_letras (s t : string) :
  so_ascii s = true -> so_ascii t = true ->
  igual_sem_caixa s t = true <-> mesmas_letras s t.
Proof.
  intros Hs Ht. unfold igual_sem_caixa.
  rewrite (str_lower_ascii s Hs), (str_lower_ascii t Ht), String.eqb_eq.
  apply lower_mesmas_letras.
Qed.

Lemma gerar_relatorio_eq (filtro : option string) (h : Historico V) :
  gerar_relatorio filtro h =
    (filter (relatorio_inclui filtro) (transacoes h), h, []).
Proof.
  unfold gerar_relatorio, bind, get, ret, transacoes.
  rewrite laco_relatorio. reflexivity.
Qed.

(** C8.  [gerar_relatorio(tipo)] yields, in the order in which they were
    appended, exactly the entries of the ledger whose kind is equal to
    [tipo] once both are passed through [str.lower], which is how the
    code compares them without regard to case; for a kind and a filter
    of ASCII characters these are the entries whose kind is [tipo] up to
    the case of the letters.  [gerar_relatorio()] yields every entry in
    that order.  Neither of them nor [transacoes_do_dia] changes the
    ledger (and none prints). *)
Theorem C8_relatorio_filtra_em_ordem_sem_alterar
    (h : Historico V) (filtro : string) (hoje : Data) :
  gerar_relatorio (Some filtro) h =
    (filter (fun e => igual_sem_caixa (tipo e) filtro) (transacoes h), h, [])
  /\ (forall e, In e (retorno (gerar_relatorio (Some filtro) h)) <->
                In e (transacoes h)
                /\ str_lower (tipo e) = str_lower filtro)
  /\ (forall e, so_ascii (tipo e) = true -> so_ascii filtro = true ->
                (In e (retorno (gerar_relatorio (Some filtro) h)) <->
                 In e (transacoes h) /\ mesmas_letras (tipo e) filtro))
  /\ gerar_relatorio None h = (transacoes h, h, [])
  /\ depois (transacoes_do_dia hoje h) = h
  /\ saida (transacoes_do_dia hoje h) = [].
Proof.
  split; [apply gerar_relatorio_eq|]. split; [|split].
  - intros e. rewrite gerar_relatorio_eq. unfold retorno. cbn [fst].
    rewrite filter_In. cbn [relatorio_inclui].
    now rewrite String.eqb_eq.
  - intros e He Hf. rewrite gerar_relatorio_eq. unfold retorno. cbn [fst].
    rewrite filter_In. cbn [relatorio_inclui].
    now rewrite <- (igual_sem_caixa_mesmas_letras _ _ He Hf).
  - rewrite gerar_relatorio_eq. cbn [relatorio_inclui]. rewrite filter_tudo.
    repeat split.
Qed.

(* ================================================================== *)
(** ** The cap on the number of withdrawals *)

Lemma numero_saques_mais_um (l : list (Entrada V)) (e : Entrada V) :
  numero_saques (mkHistorico (l ++ [e])) =
    numero_saques (mkHistorico l)
    + (if String.eqb (tipo e) "Saque" then 1 else 0).
Proof.
  unfold numero_saques, transacoes. cbn [_transacoes].
  rewrite filter_app, length_app. cbn [filter].
  destruct (String.eqb (tipo e) "Saque"); cbn [List.length]; lia.
Qed.

Lemma historico_eta (h : Historico V) : mkHistorico (_transacoes h) = h.
Proof. destruct h; reflexivity. Qed.

(** One request adds one to the count of [ContaCorrente.sacar] when it is
    a successful withdrawal made through [registrar], and nothing
    otherwise; it never changes the class of the account. *)
Lemma desfecho_numero_saques (p : Pedido V) (c c' : Conta V) (o : list Mensagem) :
  Desfecho p c c' o ->
  numero_saques (_historico c') =
    numero_saques (_historico c)
    + (if por_transacao p && saque_bem_sucedido (p, o) then 1 else 0)
  /\ classe c' = classe c.
Proof.
  intros [Hs Hv Hb | Hs Hv | m Hm];
    unfold saque_bem_sucedido; cbn [fst snd _historico classe com_historico com_saldo].
  - destruct p as [v | v | a [v|v] | d a [v|v]]; try discriminate Hs;
      cbn [historico_apos por_transacao pedido_de_saque imprimiu existsb
           Mensagem_eqb orb andb entrada_de nome_da_classe];
      rewrite ?numero_saques_mais_um, ?historico_eta; cbn;
      (split; [lia | reflexivity]).
  - destruct p as [v | v | a [v|v] | d a [v|v]]; try discriminate Hs;
      cbn [historico_apos por_transacao pedido_de_saque imprimiu existsb
           Mensagem_eqb orb andb entrada_de nome_da_classe];
      rewrite ?numero_saques_mais_um, ?historico_eta; cbn;
      (split; [lia | reflexivity]).
  - destruct m; try discriminate Hm; cbn; rewrite !andb_false_r;
      (split; [lia | reflexivity]).
Qed.

Lemma executar_numero_saques (ps : list (Pedido V)) (c : Conta V) :
  numero_saques (historico (fst (executar ps c))) =
    numero_saques (historico c) + saques_registrados (snd (executar ps c))
  /\ classe (fst (executar ps c)) = classe c.
Proof.
  revert c. induction ps as [|p ps IH]; intros c.
  - cbn. unfold saques_registrados. cbn. split; [lia | reflexivity].
  - rewrite executar_cons. cbn [fst snd].
    destruct (IH (depois (atender p c))) as [IH1 IH2].
    destruct (desfecho_numero_saques _ _ _ _ (atender_desfecho p c)) as [H1 H2].
    unfold saques_registrados, historico in *. cbn [filter fst].
    rewrite IH1, IH2, H1, H2. split; [|reflexivity].
    destruct (por_transacao p && saque_bem_sucedido (p, saida (atender p c)));
      cbn [List.length]; lia.
Qed.

Lemma saques_registrados_bem_sucedidos
    (registro : list (Pedido V * list Mensagem)) :
  saques_registrados registro <= saques_bem_sucedidos registro.
Proof.
  unfold saques_registrados, saques_bem_sucedidos.
  induction registro as [|r registro IH]; [cbn; lia|].
  cbn [filter]. destruct (saque_bem_sucedido r), (por_transacao (fst r));
    cbn [andb List.length]; lia.
Qed.

(** The cap message comes only from the second test of
    [ContaCorrente.sacar]. *)
Lemma sacar_limite_de_saques (v : V) (c : Conta V) :
  In LimiteSaquesExcedido (saida (sacar v c)) ->
  exists l n, classe c = ClasseContaCorrente l n
              /\ maior v l = false /\ n <= numero_saques (_historico c).
Proof.
  rewrite sacar_eq. destruct (classe c) as [|l n].
  - rewrite Conta_sacar_eq.
    destruct (menor_igual v (de_int 0)); [cbn; intros [H|[]]; discriminate H|].
    destruct (maior v (_saldo c)); cbn; intros [H|[]]; discriminate H.
  - rewrite ContaCorrente_sacar_eq.
    destruct (maior v l) eqn:E1; [cbn; intros [H|[]]; discriminate H|].
    destruct (_ >=? n) eqn:E2.
    + intros _. exists l, n. split; [reflexivity|]. split; [exact E1 | lia].
    + rewrite Conta_sacar_eq.
      destruct (menor_igual v (de_int 0)); [cbn; intros [H|[]]; discriminate H|].
      destruct (maior v (_saldo c)); cbn; intros [H|[]]; discriminate H.
Qed.

Lemma atender_limite_de_saques (p : Pedido V) (c : Conta V) :
  In LimiteSaquesExcedido (saida (atender p c)) ->
  exists l n, classe c = ClasseContaCorrente l n
              /\ n <= numero_saques (_historico c).
Proof.
  assert (S : forall v, In LimiteSaquesExcedido (saida (sacar v c)) ->
              exists l n, classe c = ClasseContaCorrente l n
                          /\ n <= numero_saques (_historico c)).
  { intros v H. destruct (sacar_limite_de_saques v c H) as (l & n & H1 & _ & H2).
    eauto. }
  assert (D : forall v, ~ In LimiteSaquesExcedido (saida (depositar v c))).
  { intros v. unfold depositar. rewrite Conta_depositar_eq.
    destruct (menor_igual v (de_int 0)); cbn; intros [H|[]]; discriminate H. }
  assert (R : forall agora t, In LimiteSaquesExcedido (saida (registrar agora t c)) ->
              exists l n, classe c = ClasseContaCorrente l n
                          /\ n <= numero_saques (_historico c)).
  { intros agora t. rewrite registrar_eq. cbv zeta.
    destruct (retorno (mutacao t c)); cbn [saida snd];
      destruct t as [v|v]; cbn [mutacao]; intros H;
      solve [ apply (S v H) | destruct (D v H) ]. }
  destruct p as [v | v | agora t | hoje agora t]; cbn [atender].
  - unfold bind, ret. destruct (sacar v c) as [[b c'] o] eqn:E.
    cbn. rewrite app_nil_r. intros H. apply (S v). rewrite E. exact H.
  - unfold bind, ret. destruct (depositar v c) as [[b c'] o] eqn:E.
    cbn. rewrite app_nil_r. intros H. destruct (D v). rewrite E. exact H.
  - apply R.
  - rewrite realizar_transacao_eq. destruct (2 <=? _)%nat.
    + cbn. intros [H|[]]; discriminate H.
    + apply R.
Qed.

(** A withdrawal request that did not succeed left the account as it
    was. *)
Lemma pedido_de_saque_recusado (p : Pedido V) (c : Conta V) :
  pedido_de_saque p = true ->
  saque_bem_sucedido (p, saida (atender p c)) = false ->
  depois (atender p c) = c.
Proof.
  intros Hp Hf.
  destruct (atender_desfecho p c) as [Hs Hv Hb | Hs Hv | m Hm].
  - unfold saque_bem_sucedido in Hf. cbn in Hf. rewrite Hp in Hf. discriminate Hf.
  - congruence.
  - reflexivity.
Qed.

(** A [ContaCorrente] whose ledger holds as many ["Saque"] entries as its
    cap refuses every withdrawal, whatever its balance. *)
Lemma limite_de_saques_atingido (c : Conta V) (l : V) (n : Z) (v : V) :
  classe c = ClasseContaCorrente l n ->
  n <= numero_saques (_historico c) ->
  retorno (sacar v c) = false
  /\ (maior v l = false -> saida (sacar v c) = [LimiteSaquesExcedido]).
Proof.
  intros Hc Hn. rewrite sacar_eq, Hc, ContaCorrente_sacar_eq.
  destruct (maior v l) eqn:E1; [split; [reflexivity | discriminate]|].
  destruct (_ >=? n) eqn:E2; [split; reflexivity | lia].
Qed.

(** C9.  A new [ContaCorrente] with the default cap of three withdrawals,
    after any sequence of requests.  The count that the cap test of
    [sacar] reads off the ledger is the number of successful withdrawals
    made through [registrar], so it never exceeds the number of
    successful withdrawals; a withdrawal request that is refused leaves
    the account, hence that count, as it was; and a request is refused
    with the cap message only if at least three withdrawals have
    succeeded before it, however many requests were refused. *)
Theorem C9_recusas_nao_consomem_o_limite_de_saques
    (numero : Z) (cliente : string) (limite : V) (ps : list (Pedido V)) :
  let nova := ContaCorrente_init numero cliente limite limite_saques_padrao in
  let conta := fst (executar ps nova) in
  let registro := snd (executar ps nova) in
  numero_saques (historico conta) = saques_registrados registro
  /\ saques_registrados registro <= saques_bem_sucedidos registro
  /\ (forall p, pedido_de_saque p = true ->
                saque_bem_sucedido (p, saida (atender p conta)) = false ->
                depois (atender p conta) = conta)
  /\ (forall p, In LimiteSaquesExcedido (saida (atender p conta)) ->
                3 <= saques_bem_sucedidos registro).
Proof.
  cbv zeta.
  set (nova := ContaCorrente_init numero cliente limite limite_saques_padrao).
  destruct (executar_numero_saques ps nova) as [Hn Hc].
  pose proof (saques_registrados_bem_sucedidos (snd (executar ps nova))) as Hle.
  change (numero_saques (historico nova)) with 0 in Hn.
  split; [lia|]. split; [exact Hle|]. split.
  - intros p. apply pedido_de_saque_recusado.
  - intros p H.
    destruct (atender_limite_de_saques p _ H) as (l & n & Hcl & Hcap).
    rewrite Hc in Hcl. injection Hcl as <- <-.
    unfold limite_saques_padrao, historico in *. lia.
Qed.

(** C4.  A new [ContaCorrente] with a cap of three withdrawals, after
    any sequence of requests in which three withdrawals were made (they
    succeeded and are on the ledger): every further withdrawal request
    is refused, whatever the balance and the amount, and leaves the
    account (balance and ledger) as it was; when the amount is within
    the limit the message is the one of the cap. *)
Theorem C4_recusa_apos_tres_saques_registrados
    (numero : Z) (cliente : string) (limite : V) (ps : list (Pedido V))
    (v : V) (hoje : Data) (agora : DataHora) :
  let nova := ContaCorrente_init numero cliente limite 3 in
  let conta := fst (executar ps nova) in
  3 <= saques_registrados (snd (executar ps nova)) ->
  retorno (sacar v conta) = false
  /\ (maior v limite = false -> saida (sacar v conta) = [LimiteSaquesExcedido])
  /\ depois (sacar v conta) = conta
  /\ depois (registrar agora (Saque v) conta) = conta
  /\ depois (realizar_transacao hoje agora (Saque v) conta) = conta.
Proof.
  cbv zeta. intros H3.
  set (nova := ContaCorrente_init numero cliente limite 3) in *.
  destruct (executar_numero_saques ps nova) as [Hn Hc].
  change (numero_saques (historico nova)) with 0 in Hn.
  destruct (limite_de_saques_atingido (fst (executar ps nova)) limite 3 v Hc)
    as [Hr Hm].
  { unfold historico in Hn. lia. }
  destruct (saque_recusado v _ Hr) as (H1 & H2 & H4).
  repeat split; auto.
Qed.

(* ================================================================== *)
(** ** Sequences of requests and the ledger *)

(** A property kept by every request is kept by every sequence. *)
Lemma executar_invariante (Q : Pedido V -> bool) (I : Conta V -> Prop) :
  (forall p c, Q p = true -> I c -> I (depois (atender p c))) ->
  forall ps c, forallb Q ps = true -> I c -> I (fst (executar ps c)).
Proof.
  intros Hstep ps. induction ps as [|p ps IH]; intros c HQ Hc.
  - exact Hc.
  - cbn [forallb] in HQ. apply andb_true_iff in HQ as [Hp Hps].
    rewrite executar_cons. cbn [fst]. apply IH; [exact Hps|].
    now apply Hstep.
Qed.

Lemma forallb_tudo {A : Type} (l : list A) : forallb (fun _ => true) l = true.
Proof. induction l; cbn; auto. Qed.

(** When [sacar] returns [True]: the amount passed the tests of
    [Conta.sacar] (it is not [<= 0] and not [>] the balance), and on a
    [ContaCorrente] it was within the limit and the cap had not been
    reached. *)
Lemma sacar_aceito (v : V) (c : Conta V) :
  retorno (sacar v c) = true ->
  menor_igual v (de_int 0) = false /\ maior v (_saldo c) = false
  /\ dentro_dos_limites c v.
Proof.
  unfold dentro_dos_limites, historico. rewrite sacar_eq.
  destruct (classe c) as [|l n].
  - rewrite Conta_sacar_eq.
    destruct (menor_igual v (de_int 0)) eqn:E1; [discriminate|].
    destruct (maior v (_saldo c)) eqn:E2; [discriminate|]. intros _. auto.
  - rewrite ContaCorrente_sacar_eq.
    destruct (maior v l) eqn:E0; [discriminate|].
    destruct (_ >=? n) eqn:E3; [discriminate|].
    rewrite Conta_sacar_eq.
    destruct (menor_igual v (de_int 0)) eqn:E1; [discriminate|].
    destruct (maior v (_saldo c)) eqn:E2; [discriminate|]. intros _.
    repeat split; lia.
Qed.

(** The converse: such a withdrawal is accepted. *)
Lemma sacar_aceita (v : V) (c : Conta V) :
  menor_igual v (de_int 0) = false -> maior v (_saldo c) = false ->
  dentro_dos_limites c v ->
  sacar v c = (true, com_saldo (subtrai (_saldo c) v) c, [SaqueSucesso]).
Proof.
  unfold dentro_dos_limites, historico. intros Hv Hb Hl. rewrite sacar_eq.
  destruct (classe c) as [|l n].
  - rewrite Conta_sacar_eq, Hv, Hb. reflexivity.
  - rewrite ContaCorrente_sacar_eq. destruct Hl as [Hl Hn]. rewrite Hl.
    destruct (_ >=? n) eqn:E3; [lia|].
    rewrite Conta_sacar_eq, Hv, Hb. reflexivity.
Qed.

(** The ledger after one request: the ledger before, followed by the
    entry of the request when it succeeded. *)
Lemma desfecho_historico (p : Pedido V) (c c' : Conta V) (o : list Mensagem) :
  Desfecho p c c' o ->
  _transacoes (_historico c') =
    _transacoes (_historico c)
    ++ (if saque_bem_sucedido (p, o) || deposito_bem_sucedido (p, o)
        then entrada_do_pedido p else []).
Proof.
  intros [Hs Hv Hb | Hs Hv | m Hm];
    unfold saque_bem_sucedido, deposito_bem_sucedido;
    cbn [fst snd _historico com_historico com_saldo].
  - rewrite Hs. cbn.
    destruct p as [v | v | a t | d a t]; cbn; now rewrite ?app_nil_r.
  - rewrite Hs. cbn.
    destruct p as [v | v | a t | d a t]; cbn; now rewrite ?app_nil_r.
  - destruct m; try discriminate Hm; cbn;
      rewrite !andb_false_r; cbn; now rewrite app_nil_r.
Qed.

(** X1.  After any sequence of requests on any account, the ledger is
    the ledger before followed by the entries of the successful requests
    made through a transaction object, one each, in the order of the
    requests: nothing is removed or rewritten, a refused request and a
    direct call of [sacar] or [depositar] write nothing. *)
Theorem X1_historico_so_cresce_com_os_pedidos_aceitos
    (ps : list (Pedido V)) (conta : Conta V) :
  transacoes (historico (fst (executar ps conta))) =
    transacoes (historico conta)
    ++ entradas_do_registro (snd (executar ps conta)).
Proof.
  unfold transacoes, historico. revert conta.
  induction ps as [|p ps IH]; intros conta.
  - cbn. now rewrite app_nil_r.
  - rewrite executar_cons. cbn [fst snd entradas_do_registro flat_map].
    fold (entradas_do_registro (snd (executar ps (depois (atender p conta))))).
    rewrite IH, (desfecho_historico _ _ _ _ (atender_desfecho p conta)).
    cbn [fst]. now rewrite app_assoc.
Qed.

Lemma saldo_do_historico_mais_um (l : list (Entrada V)) (e : Entrada V) :
  saldo_do_historico (mkHistorico (l ++ [e])) =
    lancar (saldo_do_historico (mkHistorico l)) e.
Proof.
  unfold saldo_do_historico, transacoes. cbn [_transacoes].
  now rewrite fold_left_app.
Qed.

(** One request through a transaction object keeps the balance equal to
    what the ledger leads to. *)
Lemma desfecho_saldo_do_historico (p : Pedido V) (c c' : Conta V)
    (o : list Mensagem) :
  Desfecho p c c' o -> por_transacao p = true ->
  _saldo c = saldo_do_historico (_historico c) ->
  _saldo c' = saldo_do_historico (_historico c').
Proof.
  intros [Hs Hv Hb | Hs Hv | m Hm] Hp H0; [| |exact H0];
    destruct p as [v | v | a [v|v] | d a [v|v]];
    try discriminate Hp; try discriminate Hs;
    cbn [historico_apos com_historico com_saldo _saldo _historico valor_pedido
         valor_de entrada_de nome_da_classe];
    rewrite saldo_do_historico_mais_um, historico_eta, <- H0; reflexivity.
Qed.

(** X2.  On an account whose balance is what its ledger leads to from
    zero (each deposit added and each withdrawal subtracted, in the
    order of the ledger; a new account is one), any sequence of requests
    made through transaction objects ([registrar] or
    [realizar_transacao]) leaves the balance equal to what the ledger
    leads to: replaying the ledger gives the balance. *)
Theorem X2_saldo_e_o_do_historico (ps : list (Pedido V)) (conta : Conta V) :
  forallb por_transacao ps = true ->
  saldo conta = saldo_do_historico (historico conta) ->
  saldo (fst (executar ps conta)) =
    saldo_do_historico (historico (fst (executar ps conta))).
Proof.
  intros Hps H0.
  apply (executar_invariante por_transacao
           (fun c => saldo c = saldo_do_historico (historico c)));
    [|exact Hps|exact H0].
  intros p c Hp Hc. unfold saldo, historico in *.
  exact (desfecho_saldo_do_historico _ _ _ _ (atender_desfecho p c) Hp Hc).
Qed.

(** One request keeps the class of the account and, on a
    [ContaCorrente], keeps the withdrawals on the ledger within the
    cap. *)
Lemma atender_limite_de_saques_mantido (p : Pedido V) (c : Conta V)
    (l : V) (n : Z) :
  classe c = ClasseContaCorrente l n ->
  numero_saques (historico c) <= Z.max 0 n ->
  classe (depois (atender p c)) = ClasseContaCorrente l n
  /\ numero_saques (historico (depois (atender p c))) <= Z.max 0 n.
Proof.
  intros Hc Hn. unfold historico in *.
  destruct (desfecho_numero_saques _ _ _ _ (atender_desfecho p c)) as [H1 H2].
  split; [congruence|]. rewrite H1.
  destruct (saque_bem_sucedido (p, saida (atender p c))) eqn:E;
    [|rewrite andb_false_r; lia].
  destruct (por_transacao p); cbn [andb]; [|lia].
  apply saque_bem_sucedido_retorno in E.
  assert (S : forall v, retorno (sacar v c) = true ->
              numero_saques (_historico c) + 1 <= Z.max 0 n).
  { intros v Hv. apply sacar_aceito in Hv as (_ & _ & Hv).
    unfold dentro_dos_limites, historico in Hv. rewrite Hc in Hv. lia. }
  destruct p as [v | v | a [v|v] | d a [v|v]]; try contradiction;
    try (apply (S v); tauto).
Qed.

(** X3.  On a new [ContaCorrente], whatever is asked of it and in
    whatever order, the ledger never holds more withdrawals than the cap
    [limite_saques] (none when the cap is zero or negative). *)
Theorem X3_historico_nunca_passa_do_limite_de_saques
    (numero : Z) (cliente : string) (limite : V) (limite_saques : Z)
    (ps : list (Pedido V)) :
  numero_saques
    (historico (fst (executar ps
       (ContaCorrente_init numero cliente limite limite_saques))))
  <= Z.max 0 limite_saques.
Proof.
  set (nova := ContaCorrente_init numero cliente limite limite_saques).
  assert (H : classe (fst (executar ps nova))
              = ClasseContaCorrente limite limite_saques
              /\ numero_saques (historico (fst (executar ps nova)))
                 <= Z.max 0 limite_saques).
  { apply (executar_invariante (fun _ => true)
             (fun c => classe c = ClasseContaCorrente limite limite_saques
                       /\ numero_saques (historico c) <= Z.max 0 limite_saques));
      [|apply forallb_tudo|split; [reflexivity | cbn; lia]].
    intros p c _ [Hc Hn]. now apply atender_limite_de_saques_mantido. }
  apply H.
Qed.

Lemma entrada_valida_de (cls : Classe V) (agora : DataHora) (t : Transacao V) :
  menor_igual (valor_de t) (de_int 0) = false ->
  match t, cls with
  | Saque v, ClasseContaCorrente l _ => maior v l = false
  | _, _ => True
  end ->
  entrada_valida cls (entrada_de agora t) = true.
Proof.
  unfold entrada_valida. intros Hv Hl.
  destruct t as [v|v]; cbn in *; rewrite Hv; [|reflexivity].
  destruct cls as [|l n]; [reflexivity|]. rewrite Hl. reflexivity.
Qed.

(** One request keeps the entries of the ledger valid for the class of
    the account. *)
Lemma atender_entradas_validas (p : Pedido V) (c : Conta V) (cls : Classe V) :
  classe c = cls ->
  forallb (entrada_valida cls) (transacoes (historico c)) = true ->
  classe (depois (atender p c)) = cls
  /\ forallb (entrada_valida cls)
             (transacoes (historico (depois (atender p c)))) = true.
Proof.
  intros Hc Hf. unfold transacoes, historico in *.
  destruct (desfecho_numero_saques _ _ _ _ (atender_desfecho p c)) as [_ H2].
  split; [congruence|].
  rewrite (desfecho_historico _ _ _ _ (atender_desfecho p c)).
  rewrite forallb_app, Hf. cbn [andb].
  destruct (saque_bem_sucedido (p, saida (atender p c))) eqn:Es.
  - cbn [orb]. apply saque_bem_sucedido_retorno in Es.
    assert (S : forall a v, retorno (sacar v c) = true ->
                forallb (entrada_valida cls) [entrada_de a (Saque v)]
                = true).
    { intros a v Hv. apply sacar_aceito in Hv as (Hpos & _ & Hl).
      cbn [forallb]. rewrite andb_true_r. apply entrada_valida_de.
      - exact Hpos.
      - unfold dentro_dos_limites in Hl. rewrite Hc in Hl.
        destruct cls; [exact I | apply Hl]. }
    destruct p as [v | v | a [v|v] | d a [v|v]]; try contradiction;
      cbn [entrada_do_pedido]; try reflexivity; apply S; tauto.
  - cbn [orb].
    destruct (deposito_bem_sucedido (p, saida (atender p c))) eqn:Ed;
      [|reflexivity].
    apply deposito_bem_sucedido_retorno in Ed.
    assert (D : forall a v, retorno (depositar v c) = true ->
                forallb (entrada_valida cls) [entrada_de a (Deposito v)]
                = true).
    { intros a v Hv. cbn [forallb]. rewrite andb_true_r.
      apply entrada_valida_de; [|destruct cls; exact I].
      destruct (depositar_casos v c) as [[Hpos _] | (m & _ & E)];
        [exact Hpos | rewrite E in Hv; discriminate Hv]. }
    destruct p as [v | v | a [v|v] | d a [v|v]]; try contradiction;
      cbn [entrada_do_pedido]; try reflexivity; apply D; tauto.
Qed.

(** The entries written on an account that started with an empty ledger
    are valid for its class. *)
Lemma executar_entradas_validas (ps : list (Pedido V)) (nova : Conta V) :
  _transacoes (_historico nova) = [] ->
  forallb (entrada_valida (classe nova))
          (transacoes (historico (fst (executar ps nova)))) = true.
Proof.
  intros Hn.
  assert (H : classe (fst (executar ps nova)) = classe nova
              /\ forallb (entrada_valida (classe nova))
                   (transacoes (historico (fst (executar ps nova)))) = true);
    [|apply H].
  apply (executar_invariante (fun _ => true)
           (fun c => classe c = classe nova
                     /\ forallb (entrada_valida (classe nova))
                          (transacoes (historico c)) = true));
    [|apply forallb_tudo|split; [reflexivity|]].
  2:{ unfold transacoes, historico. now rewrite Hn. }
  intros p c _ [Hc Hf]. now apply atender_entradas_validas.
Qed.

(** X4.  Every entry on the ledger of an account that started new, of
    either class, has the kind ["Deposito"] or ["Saque"] and an amount
    that passed the tests the methods make: it is not [<= 0], and on a
    [ContaCorrente] the amount of a withdrawal is not [>] the limit.
    (A float that is not a number passes these tests.) *)
Theorem X4_entradas_do_historico_passaram_nos_testes
    (numero : Z) (cliente : string) (limite : V) (limite_saques : Z)
    (ps : list (Pedido V)) :
  let validas (nova : Conta V) :=
    forallb (entrada_valida (classe nova))
            (transacoes (historico (fst (executar ps nova)))) = true in
  validas (Conta_init numero cliente)
  /\ validas (ContaCorrente_init numero cliente limite limite_saques).
Proof.
  cbv zeta. split; apply executar_entradas_validas; reflexivity.
Qed.

(* ================================================================== *)
(** ** The daily limit over a sequence of requests *)

Lemma entradas_do_dia_app (d : Data) (l novas : list (Entrada V)) :
  entradas_do_dia d (mkHistorico (l ++ novas)) =
    (entradas_do_dia d (mkHistorico l) + entradas_do_dia d (mkHistorico novas))%nat.
Proof.
  unfold entradas_do_dia, transacoes. cbn [_transacoes].
  now rewrite map_app, count_occ_app.
Qed.

Lemma entradas_do_dia_uma (d : Data) (e : Entrada V) :
  entradas_do_dia d (mkHistorico [e]) =
    if Data_eqb (date (data e)) d then 1%nat else 0%nat.
Proof.
  rewrite entradas_do_dia_eq. cbn [_transacoes filter].
  destruct (Data_eqb (date (data e)) d); reflexivity.
Qed.

(** X5.  When the date does not change during any call (the entry is
    dated like the check of the same call), requests made through
    [realizar_transacao] never bring the ledger to more than two entries
    of the same date, provided it started with at most two of each:
    the daily limit holds as an invariant of the ledger. *)
Theorem X5_no_maximo_duas_entradas_por_dia
    (ps : list (Pedido V)) (conta : Conta V) :
  forallb relogio_coerente ps = true ->
  (forall d, (entradas_do_dia d (historico conta) <= 2)%nat) ->
  forall d, (entradas_do_dia d (historico (fst (executar ps conta))) <= 2)%nat.
Proof.
  intros Hps H0.
  apply (executar_invariante relogio_coerente
           (fun c => forall d, (entradas_do_dia d (historico c) <= 2)%nat));
    [|exact Hps|exact H0].
  clear. intros p c Hp Hc d.
  destruct p as [v | v | a t | hoje a t]; try discriminate Hp.
  cbn [relogio_coerente] in Hp. apply Data_eqb_eq in Hp.
  pose proof (desfecho_historico _ _ _ _
                (atender_desfecho (PedidoRealizar hoje a t) c)) as Hh.
  unfold historico in *.
  rewrite <- (historico_eta (_historico (depois _))), Hh,
    entradas_do_dia_app, historico_eta.
  set (r := (PedidoRealizar hoje a t, saida (atender (PedidoRealizar hoje a t) c))).
  assert (Hlt : saque_bem_sucedido r || deposito_bem_sucedido r = true ->
                (entradas_do_dia hoje (_historico c) < 2)%nat).
  { intros H. apply orb_true_iff in H as [H|H].
    - apply saque_bem_sucedido_retorno in H. destruct t; [apply H | destruct H].
    - apply deposito_bem_sucedido_retorno in H. destruct t; [destruct H | apply H]. }
  destruct (saque_bem_sucedido r || deposito_bem_sucedido r).
  - cbn [entrada_do_pedido]. rewrite entradas_do_dia_uma.
    cbn [entrada_de data]. rewrite Hp.
    destruct (Data_eqb hoje d) eqn:E.
    + apply Data_eqb_eq in E. subst d. specialize (Hlt eq_refl). lia.
    + specialize (Hc d). lia.
  - specialize (Hc d). cbn. lia.
Qed.

(* ================================================================== *)
(** ** One request *)

(** X7.  Every request, through any of the four entry points, prints
    exactly one line.  When it is a refusal (any line but the two
    success lines) the account is exactly the one before the call; when
    it is a success line the balance is the one before with the amount
    of the request subtracted, for a withdrawal, or added, for a
    deposit, in the arithmetic of the amounts. *)
Theorem X7_uma_linha_por_pedido_e_recusa_nao_altera
    (p : Pedido V) (conta : Conta V) :
  exists m,
    saida (atender p conta) = [m]
    /\ (recusa m = true -> depois (atender p conta) = conta)
    /\ (m = SaqueSucesso ->
        saldo (depois (atender p conta)) = subtrai (saldo conta) (valor_pedido p))
    /\ (m = DepositoSucesso ->
        saldo (depois (atender p conta)) = soma (saldo conta) (valor_pedido p)).
Proof.
  destruct (atender_desfecho p conta) as [Hs Hv Hb | Hs Hv | m Hm].
  - exists SaqueSucesso.
    split; [reflexivity|]. split; [discriminate|].
    split; [reflexivity | discriminate].
  - exists DepositoSucesso.
    split; [reflexivity|]. split; [discriminate|].
    split; [discriminate | reflexivity].
  - exists m.
    split; [reflexivity|]. split; [reflexivity|].
    split; intros ->; discriminate Hm.
Qed.

(* ================================================================== *)
(** ** Reports by kind *)

(** On a valid entry a filter that is ["Saque"] up to case selects the
    withdrawals, and one that is ["Deposito"] up to case the deposits. *)
Lemma relatorio_inclui_por_tipo (cls : Classe V) (f_saque f_deposito : string)
    (e : Entrada V) :
  igual_sem_caixa "Saque" f_saque = true ->
  igual_sem_caixa "Deposito" f_deposito = true ->
  entrada_valida cls e = true ->
  relatorio_inclui (Some f_saque) e = String.eqb (tipo e) "Saque"
  /\ relatorio_inclui (Some f_deposito) e = negb (String.eqb (tipo e) "Saque").
Proof.
  unfold igual_sem_caixa, entrada_valida. rewrite !String.eqb_eq.
  intros Hs Hd Hv. cbn [relatorio_inclui]. rewrite <- Hs, <- Hd.
  apply andb_true_iff in Hv as [_ Hv]. apply orb_true_iff in Hv as [Hv|Hv].
  - apply String.eqb_eq in Hv. rewrite Hv.
    rewrite (str_lower_ascii "Saque" eq_refl),
      (str_lower_ascii "Deposito" eq_refl).
    split; reflexivity.
  - apply andb_true_iff in Hv as [Hv _]. apply String.eqb_eq in Hv.
    rewrite Hv.
    rewrite (str_lower_ascii "Saque" eq_refl),
      (str_lower_ascii "Deposito" eq_refl).
    split; reflexivity.
Qed.

Lemma filter_particao {A : Type} (f : A -> bool) (l : list A) :
  (List.length (filter f l) + List.length (filter (fun x => negb (f x)) l)
   = List.length l)%nat.
Proof.
  induction l as [|x l IH]; [reflexivity|].
  cbn [filter]. destruct (f x); cbn [negb List.length]; lia.
Qed.

(** X8.  On the ledger of an account that started new, the report
    filtered by ["Saque"] and the report filtered by ["Deposito"]
    (either filter in any mix of capitals and small letters) split the
    ledger: every entry is in exactly one of them, so their lengths add
    up to the length of the ledger; and the first has as many entries as
    the count that [ContaCorrente.sacar] compares with the cap. *)
Theorem X8_relatorios_por_tipo_repartem_o_historico
    (numero : Z) (cliente : string) (limite : V) (limite_saques : Z)
    (ps : list (Pedido V)) (f_saque f_deposito : string) :
  igual_sem_caixa "Saque" f_saque = true ->
  igual_sem_caixa "Deposito" f_deposito = true ->
  let reparte (nova : Conta V) :=
    let h := historico (fst (executar ps nova)) in
    let saques := retorno (gerar_relatorio (Some f_saque) h) in
    let depositos := retorno (gerar_relatorio (Some f_deposito) h) in
    (List.length saques + List.length depositos
     = List.length (transacoes h))%nat
    /\ Z.of_nat (List.length saques) = numero_saques h
    /\ (forall e, In e (transacoes h) ->
                  (In e saques /\ ~ In e depositos)
                  \/ (In e depositos /\ ~ In e saques)) in
  reparte (Conta_init numero cliente)
  /\ reparte (ContaCorrente_init numero cliente limite limite_saques).
Proof.
  intros Hs Hd.
  assert (G : forall nova : Conta V, _transacoes (_historico nova) = [] ->
    let h := historico (fst (executar ps nova)) in
    let saques := retorno (gerar_relatorio (Some f_saque) h) in
    let depositos := retorno (gerar_relatorio (Some f_deposito) h) in
    (List.length saques + List.length depositos
     = List.length (transacoes h))%nat
    /\ Z.of_nat (List.length saques) = numero_saques h
    /\ (forall e, In e (transacoes h) ->
                  (In e saques /\ ~ In e depositos)
                  \/ (In e depositos /\ ~ In e saques))).
  { intros nova Hn. cbv zeta.
    pose proof (executar_entradas_validas ps nova Hn) as Hv.
    rewrite forallb_forall in Hv.
    rewrite !gerar_relatorio_eq. unfold retorno, numero_saques. cbn [fst].
    set (l := transacoes (historico (fst (executar ps nova)))) in *.
    assert (E1 : filter (relatorio_inclui (Some f_saque)) l
                 = filter (fun t => String.eqb (tipo t) "Saque") l).
    { apply filter_ext_in. intros e He.
      apply (relatorio_inclui_por_tipo _ _ _ e Hs Hd (Hv e He)). }
    assert (E2 : filter (relatorio_inclui (Some f_deposito)) l
                 = filter (fun t => negb (String.eqb (tipo t) "Saque")) l).
    { apply filter_ext_in. intros e He.
      apply (relatorio_inclui_por_tipo _ _ _ e Hs Hd (Hv e He)). }
    rewrite E1, E2. split; [apply filter_particao|]. split; [reflexivity|].
    intros e He. rewrite !filter_In.
    destruct (String.eqb (tipo e) "Saque"); cbn [negb].
    - left. split; [auto|]. intros [_ H]. discriminate H.
    - right. split; [auto|]. intros [_ H]. discriminate H. }
  split; apply G; reflexivity.
Qed.

End Propriedades_das_classes.

Section Propriedades_da_sessao.

Context {V : Type} {num : Numero V} {txt : Texto}.

(* ================================================================== *)
(** ** Looking up a customer *)

Lemma filtrar_cliente_achado (cpf_ : string) (cs : list PessoaFisica)
    (i : nat) (c : PessoaFisica) :
  filtrar_cliente cpf_ cs = Some (i, c) ->
  nth_error cs i = Some c /\ cpf c = cpf_
  /\ (forall j c', (j < i)%nat -> nth_error cs j = Some c' -> cpf c' <> cpf_).
Proof.
  revert i. induction cs as [|x cs IH]; intros i H; [discriminate H|].
  cbn [filtrar_cliente] in H.
  destruct (String.eqb (cpf x) cpf_) eqn:E.
  - injection H as <- <-. apply String.eqb_eq in E.
    repeat split; [exact E|]. intros j c' Hj. lia.
  - destruct (filtrar_cliente cpf_ cs) as [[i' c']|] eqn:F; [|discriminate H].
    injection H as <- <-. destruct (IH i' eq_refl) as (H1 & H2 & H3).
    repeat split; [exact H1 | exact H2 |].
    intros [|j] c'' Hj Hn; cbn in Hn.
    + injection Hn as <-. now apply String.eqb_neq.
    + apply (H3 j); [lia | exact Hn].
Qed.

Lemma filtrar_cliente_ausente (cpf_ : string) (cs : list PessoaFisica) :
  filtrar_cliente cpf_ cs = None <-> ~ In cpf_ (map cpf cs).
Proof.
  induction cs as [|x cs IH]; cbn [filtrar_cliente map In]; [tauto|].
  destruct (String.eqb (cpf x) cpf_) eqn:E.
  - apply String.eqb_eq in E. split; [discriminate | tauto].
  - apply String.eqb_neq in E.
    destruct (filtrar_cliente cpf_ cs) as [[i c]|].
    + split; [discriminate|]. intros H.
      assert (Hn : ~ In cpf_ (map cpf cs)) by tauto.
      apply IH in Hn. discriminate Hn.
    + tauto.
Qed.

(** X9.  [filtrar_cliente] returns the first customer of the list whose
    CPF is the one asked for: the customer at the position returned has
    that CPF and no customer before it has; it returns [None] exactly
    when no customer of the list has that CPF, in particular on the
    empty list. *)
Theorem X9_filtrar_cliente_primeiro_com_o_cpf
    (cpf_ : string) (lista : list PessoaFisica) :
  (forall i cliente,
      filtrar_cliente cpf_ lista = Some (i, cliente) ->
      nth_error lista i = Some cliente
      /\ cpf cliente = cpf_
      /\ forall j outro, (j < i)%nat -> nth_error lista j = Some outro ->
                         cpf outro <> cpf_)
  /\ (filtrar_cliente cpf_ lista = None <->
      forall cliente, In cliente lista -> cpf cliente <> cpf_)
  /\ filtrar_cliente cpf_ [] = None.
Proof.
  split; [intros i c; apply filtrar_cliente_achado|].
  split; [|reflexivity].
  rewrite filtrar_cliente_ausente, in_map_iff. split.
  - intros H c Hc E. apply H. now exists c.
  - intros H (c & E & Hc). now apply (H c).
Qed.

(* ================================================================== *)
(** ** ContasIterador *)

Lemma titular_de_registrado (cs : list PessoaFisica) (c : Conta V) :
  In (_cliente c) (map cpf cs) ->
  titular_de cs c = Some (ficha_titular (ficha_da_conta cs c)).
Proof.
  intros H. unfold ficha_da_conta, titular_de. cbn [ficha_titular].
  destruct (filtrar_cliente (_cliente c) cs) as [[i cl]|] eqn:E; [reflexivity|].
  apply filtrar_cliente_ausente in E. contradiction.
Qed.

Lemma ContasIterador_next_dentro (cs : list PessoaFisica) (ks : list (Conta V))
    (i : nat) (c : Conta V) :
  nth_error ks i = Some c -> In (_cliente c) (map cpf cs) ->
  ContasIterador_next cs ks i = (Retornou (ficha_da_conta cs c), S i).
Proof.
  intros Hn Hc. unfold ContasIterador_next.
  rewrite Hn, (titular_de_registrado cs c Hc). reflexivity.
Qed.

Lemma ContasIterador_next_fora (cs : list PessoaFisica) (ks : list (Conta V)) (i : nat) :
  (List.length ks <= i)%nat ->
  ContasIterador_next cs ks i = (Levantou StopIteration, S i).
Proof.
  intros H. unfold ContasIterador_next.
  apply nth_error_None in H. now rewrite H.
Qed.

Lemma skipn_nth_error {A : Type} (l : list A) (i : nat) (x : A) :
  nth_error l i = Some x -> skipn i l = x :: skipn (S i) l.
Proof.
  revert i. induction l as [|y l IH]; intros [|i] H; try discriminate H.
  - injection H as ->. reflexivity.
  - cbn in H. cbn [skipn]. rewrite (IH i H). reflexivity.
Qed.

(** The loop from any index, with fuel for the accounts that remain. *)
Lemma ContasIterador_for_desde (cs : list PessoaFisica) (ks : list (Conta V)) :
  Forall (fun c => In (_cliente c) (map cpf cs)) ks ->
  forall combustivel i,
    (List.length ks - i < combustivel)%nat ->
    ContasIterador_for combustivel cs ks i =
      (Retornou (map (ficha_da_conta cs) (skipn i ks)),
       S (Nat.max i (List.length ks))).
Proof.
  intros Hks. induction combustivel as [|n IH]; intros i Hf; [lia|].
  cbn [ContasIterador_for].
  destruct (nth_error ks i) as [c|] eqn:E.
  - assert (Hi : (i < List.length ks)%nat)
      by (apply nth_error_Some; congruence).
    rewrite (ContasIterador_next_dentro cs ks i c E).
    + rewrite IH by lia. rewrite (skipn_nth_error ks i c E). cbn [map].
      do 2 f_equal. lia.
    + rewrite Forall_forall in Hks. apply Hks. eapply nth_error_In; eauto.
  - apply nth_error_None in E.
    rewrite (ContasIterador_next_fora cs ks i E).
    rewrite skipn_all2 by exact E. cbn [map]. do 2 f_equal. lia.
Qed.

Lemma NoDup_map_unico {A B : Type} (f : A -> B) (l : list A) (x y : A) :
  NoDup (map f l) -> In x l -> In y l -> f x = f y -> x = y.
Proof.
  induction l as [|z l IH]; cbn [map In]; [tauto|].
  intros Hd Hx Hy E. inversion Hd as [|? ? Hz Hl]; subst.
  destruct Hx as [->|Hx], Hy as [->|Hy].
  - reflexivity.
  - exfalso. apply Hz. rewrite E. now apply in_map.
  - exfalso. apply Hz. rewrite <- E. now apply in_map.
  - now apply IH.
Qed.

(** Among customers of distinct CPFs, the customer found by the CPF an
    account keeps is its owner. *)
Lemma titular_de_unico (cs : list PessoaFisica) (c : Conta V)
    (cliente : PessoaFisica) :
  NoDup (map cpf cs) -> titular cs c cliente ->
  titular_de cs c = Some (nome cliente)
  /\ ficha_da_conta cs c = ficha_com_titular cliente c.
Proof.
  intros Hd [Hin Hc]. unfold ficha_da_conta, ficha_com_titular, titular_de.
  destruct (filtrar_cliente (_cliente c) cs) as [[i cl]|] eqn:E.
  - destruct (filtrar_cliente_achado _ _ _ _ E) as (Hi & Hcpf & _).
    apply nth_error_In in Hi.
    assert (cl = cliente)
      by (apply (NoDup_map_unico cpf cs); [assumption..|congruence]).
    subst cl. split; reflexivity.
  - apply filtrar_cliente_ausente in E. exfalso. apply E.
    rewrite <- Hc. now apply in_map.
Qed.

(** X11.  A [for] over a new [ContasIterador], when no two customers
    have the same CPF and the owner of each account is a registered
    customer: it yields the record of every account of the list, once
    and in the order of the list, each with the name of the owner of the
    account; it ends with the call of [__next__] that finds no account,
    which also advances the index.  From then on every call raises
    [StopIteration], so a second [for] over the same iterator yields
    nothing (also on the empty list, where the first one already
    does). *)
Theorem X11_ContasIterador_percorre_uma_vez
    (lista_clientes : list PessoaFisica) (lista : list (Conta V)) :
  NoDup (map cpf lista_clientes) ->
  Forall (fun c => In (_cliente c) (map cpf lista_clientes)) lista ->
  let n := List.length lista in
  ContasIterador_for (S n) lista_clientes lista 0 =
    (Retornou (map (ficha_da_conta lista_clientes) lista), S n)
  /\ (forall c cliente,
         In c lista -> titular lista_clientes c cliente ->
         ficha_da_conta lista_clientes c = ficha_com_titular cliente c)
  /\ ContasIterador_for (S n) lista_clientes lista (S n) =
       (Retornou [], S (S n))
  /\ (forall i, (n <= i)%nat ->
                ContasIterador_next lista_clientes lista i =
                  (Levantou StopIteration, S i)).
Proof.
  intros Hd H n. subst n. split; [|split; [|split]].
  - rewrite (ContasIterador_for_desde _ _ H) by lia.
    cbn [skipn]. rewrite Nat.max_0_l. reflexivity.
  - intros c cliente _ Ht. now apply titular_de_unico.
  - rewrite (ContasIterador_for_desde _ _ H) by lia.
    rewrite skipn_all2 by lia. cbn [map].
    rewrite Nat.max_l by lia. reflexivity.
  - intros i Hi. now apply ContasIterador_next_fora.
Qed.

(* ================================================================== *)
(** ** The functions of the session *)

Ltac prog_abre :=
  unfold Sessao.depositar_, Sessao.sacar_, Sessao.exibir_extrato_,
    Sessao.criar_cliente_, Sessao.criar_conta_,
    Sessao.recuperar_conta_cliente, Sessao.realizar_transacao_em,
    Sessao.na_conta, Sessao.float, Sessao.menu, Sessao.input, Sessao.print,
    Sessao.mundo, Sessao.bind, Sessao.ret, Sessao.levantar.

Ltac prog_simp :=
  cbn -[realizar_transacao gerar_relatorio no_historico ContaCorrente_init
        filtrar_cliente titular_de nth_error substituir String.eqb app map
        List.length Z.add Z.of_nat ContasIterador_next retorno depois saida
        Sessao.listar_contas_laco Sessao.main_laco In] in *.

(** Splits on the scrutinee of an innermost [match] of the goal. *)
Ltac prog_caso :=
  match goal with
  | |- context [match ?x with _ => _ end] =>
      lazymatch x with
      | context [match _ with _ => _ end] => fail
      | _ => idtac
      end;
      first [ is_var x; destruct x
            | destruct x eqn:? ]
  end.

Ltac prog_exec := prog_abre; prog_simp; repeat (prog_caso; prog_simp).

(** Replaces the CPF that was typed by the CPF of the customer found. *)
Ltac achado :=
  repeat match goal with
  | H : filtrar_cliente ?a _ = Some (_, _) |- _ =>
      is_var a;
      let E := fresh "E" in
      pose proof (proj1 (proj2 (filtrar_cliente_achado _ _ _ _ H))) as E;
      subst a
  end.

(** [log_transacao] adds one line when the function returns and none
    when it raises. *)
Lemma log_transacao_eq (funcao : string) (args : Mundo V -> list Argumento)
    (func : Sessao.Prog unit) (w : Mundo V) :
  Sessao.log_transacao funcao args func w =
    match func w with
    | (Retornou r, w1) =>
        (Retornou r,
         com_log_txt
           (log_txt w1 ++
              [mkRegistroLog (leitura_utc (relogio w1 (voltas w1))) funcao
                 (args w1) r])
           w1)
    | (Levantou e, w1) => (Levantou e, w1)
    | (Fora f, w1) => (Fora f, w1)
    end.
Proof.
  unfold Sessao.log_transacao, Sessao.bind, Sessao.mundo, Sessao.ret.
  destruct (func w) as [[r|e|f] w1]; reflexivity.
Qed.

Lemma depositar__mudanca (float_ : string -> option V) (w : Mundo V) :
  Mudanca w (snd (Sessao.depositar_ float_ w)).
Proof.
  destruct w as [cs ks inp out lg clk n]. prog_exec; achado;
    try (apply MudancaNenhuma; reflexivity).
  eapply MudancaTransacao; prog_simp; try eassumption; try reflexivity.
  match goal with H : contas_do_cliente _ = _ |- _ => rewrite H end. reflexivity.
Qed.

(** *** Replacing one element of a list *)

Lemma length_substituir {A : Type} (k : nat) (x : A) (l : list A) :
  List.length (substituir k x l) = List.length l.
Proof.
  revert k. induction l as [|y l IH]; intros [|k]; cbn; auto.
Qed.

Lemma nth_error_substituir_mesmo {A : Type} (k : nat) (x y : A) (l : list A) :
  nth_error l k = Some y -> nth_error (substituir k x l) k = Some x.
Proof.
  revert k. induction l as [|z l IH]; intros [|k] H; try discriminate H;
    cbn in *; auto.
Qed.

Lemma nth_error_substituir_outro {A : Type} (k j : nat) (x : A) (l : list A) :
  j <> k -> nth_error (substituir k x l) j = nth_error l j.
Proof.
  revert k j. induction l as [|z l IH]; intros [|k] [|j] H; cbn; auto;
    congruence.
Qed.

Lemma map_substituir {A B : Type} (f : A -> B) (k : nat) (x y : A) (l : list A) :
  nth_error l k = Some y -> f x = f y ->
  map f (substituir k x l) = map f l.
Proof.
  revert k. induction l as [|z l IH]; intros [|k] H E; try discriminate H;
    cbn in *.
  - injection H as ->. now rewrite E.
  - now rewrite (IH k H E).
Qed.

Lemma Forall_substituir {A : Type} (P : A -> Prop) (k : nat) (x : A) (l : list A) :
  Forall P l -> P x -> Forall P (substituir k x l).
Proof.
  intros H Hx. revert k. induction H as [|z l Hz Hl IH]; intros [|k]; cbn;
    constructor; auto.
Qed.

(** *** One transaction on an account of the session *)

(** A request changes neither the number, the agency nor the owner of
    the account. *)
Lemma desfecho_campos (p : Pedido V) (c c' : Conta V) (o : list Mensagem) :
  Desfecho p c c' o ->
  _numero c' = _numero c /\ _agencia c' = _agencia c /\ _cliente c' = _cliente c.
Proof. intros [Hs Hv Hb | Hs Hv | m Hm]; repeat split. Qed.

Lemma realizar_transacao_integra (hoje : Data) (agora : DataHora)
    (t : Transacao V) (c : Conta V) :
  conta_integra c ->
  conta_integra (depois (realizar_transacao hoje agora t c))
  /\ _numero (depois (realizar_transacao hoje agora t c)) = _numero c
  /\ _cliente (depois (realizar_transacao hoje agora t c)) = _cliente c.
Proof.
  intros (Hc & Ha & Hs & Hn & Hv).
  change (realizar_transacao hoje agora t c)
    with (atender (PedidoRealizar hoje agora t) c).
  set (p := PedidoRealizar hoje agora t).
  pose proof (atender_desfecho p c) as D.
  destruct (desfecho_campos _ _ _ _ D) as (F1 & F2 & F3).
  pose proof (desfecho_saldo_do_historico _ _ _ _ D eq_refl Hs) as S1.
  destruct (atender_limite_de_saques_mantido p c _ _ Hc) as [C1 C2].
  { unfold limite_saques_padrao in *. lia. }
  destruct (atender_entradas_validas p c _ Hc) as [_ E].
  { now rewrite <- Hc. }
  unfold conta_integra, saldo, historico in *.
  split; [|split; [exact F1 | exact F3]].
  split; [exact C1|]. split; [congruence|]. split; [exact S1|].
  split; [unfold limite_saques_padrao in *; lia|].
  rewrite C1. exact E.
Qed.

Lemma conta_criada_integra (w : Mundo V) (cliente : PessoaFisica) :
  conta_integra (conta_criada w cliente).
Proof.
  unfold conta_integra, conta_criada. cbn.
  unfold limite_saques_padrao. repeat split; try reflexivity; lia.
Qed.

(** *** The state of the session holds together *)

Lemma seq_mais_um (n : nat) : seq 0 (S n) = seq 0 n ++ [n].
Proof. rewrite seq_S. reflexivity. Qed.

Lemma contas_sao_do_cliente_mais_contas (ks novas : list (Conta V)) (cl : PessoaFisica) :
  contas_sao_do_cliente ks cl -> contas_sao_do_cliente (ks ++ novas) cl.
Proof.
  unfold contas_sao_do_cliente. apply Forall_impl.
  intros k (c & Hk & Hc). exists c. split; [|exact Hc].
  rewrite nth_error_app1; [exact Hk|]. apply nth_error_Some. congruence.
Qed.

Lemma contas_sao_do_cliente_substituir (ks : list (Conta V)) (k : nat) (c c' : Conta V)
    (cl : PessoaFisica) :
  nth_error ks k = Some c -> _cliente c' = _cliente c ->
  contas_sao_do_cliente ks cl ->
  contas_sao_do_cliente (substituir k c' ks) cl.
Proof.
  intros Hk Hc. unfold contas_sao_do_cliente. apply Forall_impl.
  intros j (d & Hj & Hd). destruct (Nat.eq_dec j k) as [->|N].
  - exists c'. split; [eapply nth_error_substituir_mesmo; eauto|]. congruence.
  - exists d. split; [|exact Hd]. now rewrite nth_error_substituir_outro.
Qed.

(** Each of the changes a turn can make keeps the state together. *)
Lemma mudanca_integra (w w' : Mundo V) :
  Mudanca w w' -> mundo_integro w -> mundo_integro w'.
Proof.
  intros M (Hd & Hn & Hi & Ho & Hr). unfold mundo_integro.
  destruct M as [Ec Ek | novo Hf Hl Ec Ek | i cl Hf Ec Ek
                 | i cl k c t Hf Hh Hk Ec Ek].
  - rewrite Ec, Ek. auto.
  - rewrite Ec, Ek. repeat split; auto.
    + rewrite map_app. cbn [map].
      apply filtrar_cliente_ausente in Hf.
      apply NoDup_app; [exact Hd | repeat constructor; intros [] | ].
      intros x Hx [<-|[]]. contradiction.
    + revert Ho. apply Forall_impl. intros c Hc.
      rewrite map_app. apply in_or_app. now left.
    + apply Forall_app. split; [exact Hr|]. constructor; [|constructor].
      unfold contas_sao_do_cliente. rewrite Hl. constructor.
  - destruct (filtrar_cliente_achado _ _ _ _ Hf) as (Hi' & _ & _).
    assert (Em : map cpf (clientes w') = map cpf (clientes w)).
    { rewrite Ec. now apply (map_substituir cpf i _ cl). }
    rewrite Em, Ek. repeat split; auto.
    + rewrite map_app, length_app, Nat.add_1_r, seq_mais_um, map_app, Hn.
      reflexivity.
    + apply Forall_app. split; [exact Hi|].
      constructor; [apply conta_criada_integra | constructor].
    + apply Forall_app. split; [exact Ho|].
      constructor; [|constructor]. cbn.
      apply in_map. eapply nth_error_In; eauto.
    + rewrite Ec. apply Forall_substituir.
      * revert Hr. apply Forall_impl. intros x.
        apply contas_sao_do_cliente_mais_contas.
      * unfold contas_sao_do_cliente, com_mais_uma_conta.
        cbn [contas_do_cliente cpf]. apply Forall_app. split.
        -- rewrite Forall_forall in Hr.
           apply (contas_sao_do_cliente_mais_contas _ _ cl).
           apply Hr. eapply nth_error_In; eauto.
        -- constructor; [|constructor].
           exists (conta_criada w cl). split; [|reflexivity].
           rewrite nth_error_app2, Nat.sub_diag by lia. reflexivity.
  - rewrite Forall_forall in Hi.
    assert (Ic : conta_integra c) by (apply Hi; eapply nth_error_In; eauto).
    destruct (realizar_transacao_integra
                (leitura_hoje (relogio w (voltas w)))
                (leitura_agora (relogio w (voltas w))) t c Ic)
      as (I' & N' & C').
    rewrite Ec, Ek. repeat split; auto.
    + rewrite length_substituir, <- Hn.
      now apply (map_substituir _numero k _ c).
    + apply Forall_substituir; [now apply Forall_forall | exact I'].
    + apply Forall_substituir; [exact Ho|]. rewrite C'.
      rewrite Forall_forall in Ho. apply Ho. eapply nth_error_In; eauto.
    + revert Hr. apply Forall_impl. intros x.
      now apply contas_sao_do_cliente_substituir with (c := c).
Qed.

(** *** What each function does *)

Lemma substituir_mesmo {A : Type} (k : nat) (y : A) (l : list A) :
  nth_error l k = Some y -> substituir k y l = l.
Proof.
  revert k. induction l as [|z l IH]; intros [|k] H; try discriminate H;
    cbn in *.
  - now injection H as ->.
  - now rewrite (IH k H).
Qed.

Lemma no_historico_gerar_relatorio (filtro : option string) (c : Conta V) :
  no_historico (gerar_relatorio filtro) c =
    (filter (relatorio_inclui filtro) (transacoes (historico c)), c, []).
Proof.
  unfold no_historico. rewrite gerar_relatorio_eq.
  now rewrite com_historico_mesmo.
Qed.

(** The first account of a customer found in a state that holds
    together is an account of the list. *)
Lemma referencia_valida (w : Mundo V) (cpf_ : string) (i : nat)
    (cl : PessoaFisica) (k : nat) (resto : list nat) :
  mundo_integro w ->
  filtrar_cliente cpf_ (clientes w) = Some (i, cl) ->
  contas_do_cliente cl = k :: resto ->
  exists c, nth_error (contas w) k = Some c.
Proof.
  intros (_ & _ & _ & _ & Hr) Hf Hl.
  destruct (filtrar_cliente_achado _ _ _ _ Hf) as (Hi & _ & _).
  rewrite Forall_forall in Hr.
  pose proof (Hr cl (nth_error_In _ _ Hi)) as Hc.
  unfold contas_sao_do_cliente in Hc. rewrite Hl in Hc.
  inversion Hc as [|? ? (c & Hk & _) _]. eauto.
Qed.

Ltac moldura_lidas :=
  first [ exists []; reflexivity
        | eexists [_]; reflexivity
        | eexists [_; _]; reflexivity
        | eexists [_; _; _]; reflexivity
        | eexists [_; _; _; _]; reflexivity ].

Ltac moldura_escritas :=
  rewrite <- ?app_assoc;
  first [ eexists; reflexivity | exists []; now rewrite app_nil_r ].

Ltac moldura_fora :=
  let Hi := fresh "Hi" in
  let f := fresh "f" in
  let Hf := fresh "Hf" in
  intros Hi f Hf; try discriminate Hf; exfalso;
  match goal with
  | H1 : filtrar_cliente _ _ = Some (_, ?cl),
    H2 : contas_do_cliente ?cl = _ :: _,
    H3 : nth_error _ _ = None |- _ =>
      destruct (referencia_valida _ _ _ _ _ _ Hi H1 H2) as [? ?];
      cbn [contas] in *; congruence
  end.

Ltac moldura :=
  unfold Moldura; cbn [fst snd stdin stdout relogio voltas];
  split; [moldura_lidas|];
  split; [moldura_escritas|];
  split; [reflexivity|];
  split; [reflexivity|];
  split; [let H := fresh in intros H; first [discriminate H | reflexivity]|];
  split; [let H := fresh in
          intros H; first [ discriminate H
                          | eexists; split; [|eassumption]; cbn; tauto ]|];
  split; [discriminate|];
  moldura_fora.

Lemma depositar__moldura (float_ : string -> option V) (w : Mundo V) :
  Moldura float_ w (fst (Sessao.depositar_ float_ w))
          (snd (Sessao.depositar_ float_ w))
  /\ log_txt (snd (Sessao.depositar_ float_ w)) = log_txt w.
Proof.
  destruct w as [cs ks inp out lg clk n]. prog_exec;
    (split; [moldura | reflexivity]).
Qed.

Ltac prog_relatorio :=
  rewrite ?no_historico_gerar_relatorio in *;
  cbn [depois retorno saida fst snd map] in *;
  repeat match goal with
  | H : nth_error ?l ?k = Some ?c |- context [substituir ?k ?c ?l] =>
      rewrite (substituir_mesmo k c l H)
  end;
  repeat match goal with
  | H : nth_error ?l ?k = Some ?c |- context [nth_error ?l ?k] => rewrite H
  end.

Ltac prog_exec_extrato :=
  prog_abre; prog_simp;
  repeat (prog_caso; prog_simp; prog_relatorio; prog_simp; prog_relatorio).

Lemma sacar__mudanca (float_ : string -> option V) (w : Mundo V) :
  Mudanca w (snd (Sessao.sacar_ float_ w)).
Proof.
  destruct w as [cs ks inp out lg clk n]. prog_exec; achado;
    try (apply MudancaNenhuma; reflexivity).
  eapply MudancaTransacao; prog_simp; try eassumption; try reflexivity.
  match goal with H : contas_do_cliente _ = _ |- _ => rewrite H end. reflexivity.
Qed.

Lemma sacar__moldura (float_ : string -> option V) (w : Mundo V) :
  Moldura float_ w (fst (Sessao.sacar_ float_ w)) (snd (Sessao.sacar_ float_ w))
  /\ log_txt (snd (Sessao.sacar_ float_ w)) = log_txt w.
Proof.
  destruct w as [cs ks inp out lg clk n]. prog_exec;
    (split; [moldura | reflexivity]).
Qed.

Lemma exibir_extrato__mudanca (float_ : string -> option V) (w : Mundo V) :
  clientes (snd (Sessao.exibir_extrato_ w)) = clientes w
  /\ contas (snd (Sessao.exibir_extrato_ w)) = contas w.
Proof.
  destruct w as [cs ks inp out lg clk n]. prog_exec_extrato;
    split; reflexivity.
Qed.

Lemma exibir_extrato__moldura (float_ : string -> option V) (w : Mundo V) :
  Moldura float_ w (fst (Sessao.exibir_extrato_ w))
          (snd (Sessao.exibir_extrato_ w))
  /\ log_txt (snd (Sessao.exibir_extrato_ w)) = log_txt w.
Proof.
  destruct w as [cs ks inp out lg clk n]. prog_exec_extrato;
    (split; [moldura | reflexivity]).
Qed.

Lemma criar_cliente__mudanca (w : Mundo V) :
  Mudanca w (snd (Sessao.criar_cliente_ w)).
Proof.
  destruct w as [cs ks inp out lg clk n]. prog_exec;
    try (apply MudancaNenhuma; reflexivity).
  eapply MudancaNovoCliente; cycle 2;
    [reflexivity | reflexivity | eassumption | reflexivity].
Qed.

Lemma criar_cliente__moldura (float_ : string -> option V) (w : Mundo V) :
  Moldura float_ w (fst (Sessao.criar_cliente_ w))
          (snd (Sessao.criar_cliente_ w))
  /\ log_txt (snd (Sessao.criar_cliente_ w)) = log_txt w.
Proof.
  destruct w as [cs ks inp out lg clk n]. prog_exec;
    (split; [moldura | reflexivity]).
Qed.

Lemma criar_conta__mudanca (w : Mundo V) :
  Mudanca w (snd (Sessao.criar_conta_
                    (Z.of_nat (List.length (contas w)) + 1) w)).
Proof.
  destruct w as [cs ks inp out lg clk n]. prog_exec; achado;
    try (apply MudancaNenhuma; reflexivity).
  eapply MudancaNovaConta; prog_simp; try eassumption; reflexivity.
Qed.

Lemma criar_conta__moldura (float_ : string -> option V) (numero : Z) (w : Mundo V) :
  Moldura float_ w (fst (Sessao.criar_conta_ numero w))
          (snd (Sessao.criar_conta_ numero w))
  /\ log_txt (snd (Sessao.criar_conta_ numero w)) = log_txt w.
Proof.
  destruct w as [cs ks inp out lg clk n]. prog_exec;
    (split; [moldura | reflexivity]).
Qed.

(** *** listar_contas *)

(** Whatever the state, the loop changes only the console, and it either
    returns or stops on an outcome of the model. *)
Lemma listar_contas_laco_moldura (combustivel i : nat) (w : Mundo V) :
  let r := fst (Sessao.listar_contas_laco combustivel i w) in
  let w' := snd (Sessao.listar_contas_laco combustivel i w) in
  (exists escritas, w' = com_stdout (stdout w ++ escritas) w)
  /\ (r = Retornou tt \/ exists f, r = Fora f).
Proof.
  cbv zeta. revert i w. induction combustivel as [|n IH]; intros i w.
  - cbn. split; [|right; eauto]. exists []. rewrite app_nil_r.
    destruct w; reflexivity.
  - cbn [Sessao.listar_contas_laco].
    unfold ContasIterador_next.
    destruct (nth_error (contas w) i) as [c|].
    + destruct (titular_de (clientes w) c) as [t|].
      * unfold Sessao.bind, Sessao.print. cbn [fst snd].
        set (w2 := com_stdout _ (com_stdout _ w)).
        destruct (IH (S i) w2) as [[e He] Hr].
        split; [|exact Hr].
        rewrite He. subst w2. cbn [stdout com_stdout].
        rewrite <- !app_assoc. eexists. reflexivity.
      * cbn. split; [|right; eauto]. exists []. rewrite app_nil_r.
        destruct w; reflexivity.
    + cbn. split; [|left; reflexivity]. exists []. rewrite app_nil_r.
      destruct w; reflexivity.
Qed.

(** With every owner registered and fuel for the accounts that remain,
    the loop writes the separator and the record of each of them. *)
Lemma listar_contas_laco_eq (combustivel : nat) :
  forall (i : nat) (w : Mundo V),
    Forall (fun c => In (_cliente c) (map cpf (clientes w))) (contas w) ->
    (List.length (contas w) - i < combustivel)%nat ->
    Sessao.listar_contas_laco combustivel i w =
      (Retornou tt,
       com_stdout
         (stdout w ++
            flat_map (fun c => [ListaSeparador;
                                ListaConta (ficha_da_conta (clientes w) c)])
                     (skipn i (contas w)))
         w).
Proof.
  induction combustivel as [|n IH]; intros i w Ho Hf; [lia|].
  cbn [Sessao.listar_contas_laco].
  destruct (nth_error (contas w) i) as [c|] eqn:E.
  - assert (Hi : (i < List.length (contas w))%nat)
      by (apply nth_error_Some; congruence).
    rewrite (ContasIterador_next_dentro _ _ i c E).
    2:{ rewrite Forall_forall in Ho. apply Ho. eapply nth_error_In; eauto. }
    unfold Sessao.bind, Sessao.print. cbn [fst snd].
    rewrite IH; cbn [clientes contas com_stdout stdout]; [|exact Ho|lia].
    rewrite (skipn_nth_error _ i c E). cbn [flat_map].
    rewrite <- !app_assoc. reflexivity.
  - apply nth_error_None in E.
    rewrite (ContasIterador_next_fora _ _ i E).
    rewrite skipn_all2 by exact E. cbn [flat_map]. rewrite app_nil_r.
    destruct w; reflexivity.
Qed.

Lemma listar_contas_moldura (float_ : string -> option V) (w : Mundo V) :
  Moldura float_ w (fst (Sessao.listar_contas w)) (snd (Sessao.listar_contas w))
  /\ log_txt (snd (Sessao.listar_contas w)) = log_txt w
  /\ clientes (snd (Sessao.listar_contas w)) = clientes w
  /\ contas (snd (Sessao.listar_contas w)) = contas w.
Proof.
  unfold Sessao.listar_contas, Sessao.bind, Sessao.mundo.
  set (r := Sessao.listar_contas_laco _ _ _).
  destruct (listar_contas_laco_moldura (S (List.length (contas w))) 0 w)
    as [[e He] Hr].
  fold r in He, Hr. rewrite He. cbn [log_txt clientes contas com_stdout].
  split; [|auto]. unfold Moldura.
  cbn [stdin stdout relogio voltas com_stdout].
  split; [exists []; reflexivity|].
  split; [eauto|]. split; [reflexivity|]. split; [reflexivity|].
  assert (N : forall e', fst r <> Levantou e').
  { intros e' H. destruct Hr as [Hr|[f Hr]]; congruence. }
  split; [intros H; now apply N in H|].
  split; [intros H; now apply N in H|].
  split; [apply N|].
  intros (_ & _ & _ & Ho & _) f Hf.
  unfold r in Hf. rewrite listar_contas_laco_eq in Hf; [discriminate Hf|exact Ho|lia].
Qed.

(** *** One turn of the loop *)

Lemma Mudanca_ext (w w1 w2 : Mundo V) :
  clientes w2 = clientes w1 -> contas w2 = contas w1 ->
  Mudanca w w1 -> Mudanca w w2.
Proof.
  intros Ec Ek [H1 H2 | novo H1 H2 H3 H4 | i cl H1 H2 H3 | i cl k c t H1 H2 H3 H4 H5].
  - apply MudancaNenhuma; congruence.
  - apply (MudancaNovoCliente w w2 novo H1 H2); congruence.
  - apply (MudancaNovaConta w w2 i cl H1); congruence.
  - apply (MudancaTransacao w w2 i cl k c t H1 H2 H3); congruence.
Qed.

Lemma Moldura_ext (float_ : string -> option V) (w w1 w2 : Mundo V)
    (r : Resultado unit) :
  stdin w2 = stdin w1 -> stdout w2 = stdout w1 ->
  relogio w2 = relogio w1 -> voltas w2 = voltas w1 ->
  Moldura float_ w r w1 -> Moldura float_ w r w2.
Proof.
  unfold Moldura. intros -> -> -> ->. auto.
Qed.

(** A decorated function does what the function does and then, when the
    function returned, writes its line. *)
Lemma log_transacao_volta (float_ : string -> option V) (funcao : string)
    (args : Mundo V -> list Argumento) (func : Sessao.Prog unit) (w : Mundo V) :
  In funcao funcoes_decoradas ->
  Mudanca w (snd (func w)) ->
  Moldura float_ w (fst (func w)) (snd (func w))
  /\ log_txt (snd (func w)) = log_txt w ->
  Volta float_ w (fst (Sessao.log_transacao funcao args func w))
        (snd (Sessao.log_transacao funcao args func w)).
Proof.
  intros Hf Hm [Hq Hl]. rewrite log_transacao_eq.
  destruct (func w) as [[[]|e|f] w1]; cbn [fst snd] in *; unfold Volta.
  - split; [apply (Mudanca_ext w w1); [reflexivity | reflexivity | exact Hm]|].
    split; [apply (Moldura_ext float_ w w1);
            [reflexivity | reflexivity | reflexivity | reflexivity | exact Hq]|].
    cbn [log_txt com_log_txt]. rewrite Hl. eexists [_].
    split; [reflexivity|].
    split; [constructor; [exact Hf | constructor]|]. split; [cbn; lia|].
    intros H. now contradiction H.
  - split; [exact Hm|]. split; [exact Hq|].
    exists []. rewrite app_nil_r. repeat split; auto. constructor.
  - split; [exact Hm|]. split; [exact Hq|].
    exists []. rewrite app_nil_r. repeat split; auto. constructor.
Qed.

(** Every turn of the loop, whatever option was typed. *)
Lemma acao_volta (float_ : string -> option V) (opcao : string) (w : Mundo V) :
  Volta float_ w (fst (Sessao.acao float_ opcao w))
        (snd (Sessao.acao float_ opcao w)).
Proof.
  unfold Sessao.acao.
  destruct (String.eqb opcao "d");
    [apply log_transacao_volta;
     [cbn; tauto | apply depositar__mudanca | apply depositar__moldura]|].
  destruct (String.eqb opcao "s");
    [apply log_transacao_volta;
     [cbn; tauto | apply sacar__mudanca | apply sacar__moldura]|].
  destruct (String.eqb opcao "e");
    [apply log_transacao_volta;
     [cbn; tauto
     | apply MudancaNenhuma; apply (exibir_extrato__mudanca float_)
     | apply exibir_extrato__moldura]|].
  destruct (String.eqb opcao "nu");
    [apply log_transacao_volta;
     [cbn; tauto | apply criar_cliente__mudanca | apply criar_cliente__moldura]|].
  destruct (String.eqb opcao "nc").
  { unfold Sessao.bind at 1, Sessao.mundo. cbn [fst snd].
    apply log_transacao_volta;
      [cbn; tauto | apply criar_conta__mudanca | apply criar_conta__moldura]. }
  destruct (String.eqb opcao "lc").
  { destruct (listar_contas_moldura float_ w) as (Hm & Hl & Hc & Hk).
    split; [now apply MudancaNenhuma|]. split; [exact Hm|].
    exists []. rewrite app_nil_r. repeat split; auto. constructor. }
  destruct w as [cs ks inp out lg clk n]. unfold Sessao.print.
  cbn [fst snd]. split; [now apply MudancaNenhuma|].
  split; [moldura|]. exists []. cbn. rewrite app_nil_r.
  repeat split; auto. constructor.
Qed.

(** *** The loop of main *)

Lemma mundo_integro_ext (w w' : Mundo V) :
  clientes w' = clientes w -> contas w' = contas w ->
  mundo_integro w -> mundo_integro w'.
Proof. unfold mundo_integro. intros -> ->. auto. Qed.

Lemma main_laco_S (float_ : string -> option V) (n : nat) (w : Mundo V) :
  Sessao.main_laco float_ (S n) w =
    match stdin w with
    | [] => (Levantou EOFError,
             com_stdout (stdout w ++ [Perguntou PerguntaMenu]) w)
    | opcao :: resto =>
        let w1 := com_stdin resto
                    (com_stdout (stdout w ++ [Perguntou PerguntaMenu]) w) in
        if String.eqb opcao "q" then (Retornou tt, w1)
        else match Sessao.acao float_ opcao w1 with
             | (Retornou _, w2) =>
                 Sessao.main_laco float_ n (com_voltas (S (voltas w2)) w2)
             | (Levantou e, w2) => (Levantou e, w2)
             | (Fora f, w2) => (Fora f, w2)
             end
    end.
Proof.
  cbn [Sessao.main_laco].
  unfold Sessao.bind at 1, Sessao.menu, Sessao.input.
  destruct (stdin w) as [|opcao resto]; [reflexivity|]. cbv zeta.
  destruct (String.eqb opcao "q"); [reflexivity|].
  unfold Sessao.bind. 
  destruct (Sessao.acao float_ opcao _) as [[[]|e|f] w2]; reflexivity.
Qed.

Lemma main_laco_resumo (float_ : string -> option V) (combustivel : nat) :
  forall w : Mundo V,
    mundo_integro w ->
    (List.length (stdin w) < combustivel)%nat ->
    Resumo float_ w (fst (Sessao.main_laco float_ combustivel w))
           (snd (Sessao.main_laco float_ combustivel w)).
Proof.
  induction combustivel as [|n IH]; intros w Hi Hf; [lia|].
  rewrite main_laco_S.
  destruct (stdin w) as [|opcao resto] eqn:Es.
  - (* the input ended *)
    unfold Resumo. cbn [fst snd stdin stdout log_txt voltas relogio com_stdout].
    split; [now apply (mundo_integro_ext w)|].
    split; [tauto|].
    split; [exists []; split; [now rewrite Es | discriminate]|].
    split; [now rewrite Es|]. split; [discriminate|].
    split; [eauto|].
    split; [exists []; rewrite app_nil_r; repeat split; [constructor | cbn; lia]|].
    reflexivity.
  - cbv zeta.
    set (w1 := com_stdin resto (com_stdout (stdout w ++ [Perguntou PerguntaMenu]) w)).
    assert (Hi1 : mundo_integro w1) by now apply (mundo_integro_ext w).
    destruct (String.eqb opcao "q") eqn:Eq.
    + (* "q" *)
      apply String.eqb_eq in Eq. subst opcao.
      unfold Resumo.
      cbn [fst snd stdin stdout log_txt voltas relogio com_stdout com_stdin w1].
      rewrite Es.
      split; [exact Hi1|]. split; [tauto|].
      split; [exists ["q"%string]; split; [reflexivity | intros _; now exists []]|].
      split; [discriminate|]. split; [discriminate|].
      split; [eauto|].
      split; [exists []; rewrite app_nil_r; repeat split; [constructor | cbn; lia]|].
      reflexivity.
    + (* one turn, then the rest of the loop *)
      pose proof (acao_volta float_ opcao w1) as Hvolta.
      destruct (Sessao.acao float_ opcao w1) as [r1 w2]. cbn [fst snd] in Hvolta.
      destruct Hvolta as (Vm & Vq & novas1 & Vl & Vf & Vn & Vr).
      destruct Vq as ([lidas1 Hl1] & [esc1 He1] & Hc1 & Hv1 & Heof & Hval & Hstop & Hfora).
      assert (Hi2 : mundo_integro w2) by now apply (mudanca_integra w1).
      cbn [stdin stdout log_txt voltas relogio com_stdout com_stdin w1] in *.
      destruct r1 as [[]|e|f].
      * (* the function returned *)
        set (w3 := com_voltas (S (voltas w2)) w2).
        assert (Hi3 : mundo_integro w3) by now apply (mundo_integro_ext w2).
        assert (Hf3 : (List.length (stdin w3) < n)%nat).
        { cbn [stdin w3 com_voltas].
          pose proof (f_equal (@List.length string) Hl1) as Hl.
          rewrite length_app in Hl. cbn [List.length] in Hf. lia. }
        destruct (IH w3 Hi3 Hf3)
          as (R1 & R2 & (lidas & R3 & R3q) & R4 & R5 & (esc & R6)
              & (novas & R7 & R7f & R7n) & R8).
        cbn [stdin stdout log_txt voltas relogio com_voltas w3] in *.
        unfold Resumo. rewrite Es.
        split; [exact R1|]. split; [exact R2|].
        split.
        { exists (opcao :: lidas1 ++ lidas). split.
          - cbn [app]. rewrite <- app_assoc, <- R3, <- Hl1. reflexivity.
          - intros H. destruct (R3q H) as [antes ->].
            exists (opcao :: lidas1 ++ antes).
            cbn [app]. now rewrite <- app_assoc. }
        split; [exact R4|].
        split.
        { intros H. destruct (R5 H) as (linha & Hin & Hn).
          exists linha. split; [|exact Hn].
          right. rewrite Hl1. apply in_or_app. now right. }
        split.
        { exists ([Perguntou PerguntaMenu] ++ esc1 ++ esc).
          rewrite R6, He1, <- !app_assoc. reflexivity. }
        split.
        { exists (novas1 ++ novas). rewrite R7, Vl, <- app_assoc.
          split; [reflexivity|]. split; [now apply Forall_app|].
          rewrite length_app. lia. }
        congruence.
      * (* the function raised *)
        unfold Resumo. cbn [fst snd]. rewrite Es.
        split; [exact Hi2|].
        split; [destruct e; [tauto | tauto | now contradiction Hstop]|].
        split.
        { exists (opcao :: lidas1). split; [cbn [app]; now rewrite <- Hl1|].
          discriminate. }
        split; [exact Heof|].
        split.
        { intros H. destruct (Hval H) as (linha & Hin & Hn).
          exists linha. split; [now right | exact Hn]. }
        split.
        { exists ([Perguntou PerguntaMenu] ++ esc1).
          rewrite He1, <- !app_assoc. reflexivity. }
        split.
        { exists []. rewrite app_nil_r.
          rewrite Vr in Vl by discriminate. rewrite app_nil_r in Vl.
          split; [exact Vl|]. split; [constructor | cbn; lia]. }
        congruence.
      * (* an outcome of the model: not on a state that holds together *)
        exfalso. exact (Hfora Hi1 f eq_refl).
Qed.

(** *** A function that raises has changed nothing *)

Ltac levantou :=
  let e := fresh "e" in
  let H := fresh "H" in
  intros e H; first [discriminate H | split; reflexivity].

Lemma depositar__levantou (float_ : string -> option V) (w : Mundo V) :
  forall e, fst (Sessao.depositar_ float_ w) = Levantou e ->
  clientes (snd (Sessao.depositar_ float_ w)) = clientes w
  /\ contas (snd (Sessao.depositar_ float_ w)) = contas w.
Proof. destruct w as [cs ks inp out lg clk n]. prog_exec; levantou. Qed.

Lemma sacar__levantou (float_ : string -> option V) (w : Mundo V) :
  forall e, fst (Sessao.sacar_ float_ w) = Levantou e ->
  clientes (snd (Sessao.sacar_ float_ w)) = clientes w
  /\ contas (snd (Sessao.sacar_ float_ w)) = contas w.
Proof. destruct w as [cs ks inp out lg clk n]. prog_exec; levantou. Qed.

Lemma criar_cliente__levantou (w : Mundo V) :
  forall e, fst (Sessao.criar_cliente_ w) = Levantou e ->
  clientes (snd (Sessao.criar_cliente_ w)) = clientes w
  /\ contas (snd (Sessao.criar_cliente_ w)) = contas w.
Proof. destruct w as [cs ks inp out lg clk n]. prog_exec; levantou. Qed.

Lemma criar_conta__levantou (numero : Z) (w : Mundo V) :
  forall e, fst (Sessao.criar_conta_ numero w) = Levantou e ->
  clientes (snd (Sessao.criar_conta_ numero w)) = clientes w
  /\ contas (snd (Sessao.criar_conta_ numero w)) = contas w.
Proof. destruct w as [cs ks inp out lg clk n]. prog_exec; levantou. Qed.

Lemma log_transacao_levantou (funcao : string) (args : Mundo V -> list Argumento)
    (func : Sessao.Prog unit) (w : Mundo V) :
  (forall e, fst (func w) = Levantou e ->
             clientes (snd (func w)) = clientes w
             /\ contas (snd (func w)) = contas w) ->
  forall e, fst (Sessao.log_transacao funcao args func w) = Levantou e ->
            clientes (snd (Sessao.log_transacao funcao args func w)) = clientes w
            /\ contas (snd (Sessao.log_transacao funcao args func w)) = contas w.
Proof.
  intros H e. rewrite log_transacao_eq.
  destruct (func w) as [[[]|e'|f] w1]; cbn [fst snd] in *;
    [discriminate | intros _; now apply (H e') | discriminate].
Qed.

(* ================================================================== *)
(** ** The turns of the menu *)

(** X10.  Deposit, withdrawal, statement and new account asked for a CPF
    that no customer has: the function reads that one line, prints that
    the customer was not found and returns; the customers and the
    accounts are as before, and the log gains the line of the
    function. *)
Theorem X10_cpf_desconhecido_nada_altera
    (float_ : string -> option V) (opcao cpf_ : string)
    (resto : list string) (w : Mundo V) :
  In opcao ["d"; "s"; "e"; "nc"]%string ->
  stdin w = cpf_ :: resto ->
  filtrar_cliente cpf_ (clientes w) = None ->
  let r := fst (Sessao.acao float_ opcao w) in
  let w' := snd (Sessao.acao float_ opcao w) in
  r = Retornou tt
  /\ clientes w' = clientes w
  /\ contas w' = contas w
  /\ stdin w' = resto
  /\ stdout w' =
       stdout w ++ [Perguntou (if String.eqb opcao "nc" then PerguntaCPFCliente
                               else PerguntaCPF);
                    ClienteNaoEncontrado]
  /\ exists linha, log_txt w' = log_txt w ++ [linha]
                   /\ Some (log_funcao linha) = funcao_da_opcao opcao.
Proof.
  intros Ho Es Hf. destruct w as [cs ks inp out lg clk n].
  cbn [stdin clientes] in Es, Hf. subst inp. cbv zeta.
  destruct Ho as [<-|[<-|[<-|[<-|[]]]]].
  - change (Sessao.acao float_ "d") with (Sessao.depositar float_).
    unfold Sessao.depositar. rewrite log_transacao_eq.
    prog_abre. prog_simp. rewrite Hf. prog_simp.
    rewrite <- app_assoc. repeat split. eexists. split; reflexivity.
  - change (Sessao.acao float_ "s") with (Sessao.sacar float_).
    unfold Sessao.sacar. rewrite log_transacao_eq.
    prog_abre. prog_simp. rewrite Hf. prog_simp.
    rewrite <- app_assoc. repeat split. eexists. split; reflexivity.
  - change (Sessao.acao float_ "e") with (Sessao.exibir_extrato (V:=V)).
    unfold Sessao.exibir_extrato. rewrite log_transacao_eq.
    prog_abre. prog_simp. rewrite Hf. prog_simp.
    rewrite <- app_assoc. repeat split. eexists. split; reflexivity.
  - set (W := mkMundo _ _ _ _ _ _ _).
    change (Sessao.acao float_ "nc" W)
      with (Sessao.criar_conta (Z.of_nat (List.length ks) + 1) W).
    subst W. unfold Sessao.criar_conta.
    rewrite log_transacao_eq.
    prog_abre. prog_simp. rewrite Hf. prog_simp.
    rewrite <- app_assoc. repeat split. eexists. split; reflexivity.
Qed.


(* ================================================================== *)
(** ** main *)

Lemma mundo_inicial_integro (entrada : list string) (relogio : nat -> Leituras)
    (log : list RegistroLog) :
  mundo_integro (Sessao.mundo_inicial entrada relogio log).
Proof.
  unfold mundo_integro, Sessao.mundo_inicial. cbn.
  repeat split; constructor.
Qed.

Lemma main_resumo (float_ : string -> option V) (entrada : list string)
    (relogio : nat -> Leituras) (log : list RegistroLog) :
  Resumo float_ (Sessao.mundo_inicial entrada relogio log)
         (fst (Sessao.main float_ entrada relogio log))
         (snd (Sessao.main float_ entrada relogio log)).
Proof.
  unfold Sessao.main. apply main_laco_resumo.
  - apply mundo_inicial_integro.
  - cbn. lia.
Qed.


(** X13.  Whatever is typed, when [main] ends no two customers have the
    same CPF. *)
Theorem X13_main_cpfs_distintos
    (float_ : string -> option V) (entrada : list string)
    (relogio : nat -> Leituras) (log : list RegistroLog) :
  NoDup (map cpf (clientes (snd (Sessao.main float_ entrada relogio log)))).
Proof. apply (main_resumo float_ entrada relogio log). Qed.

Lemma NoDup_map_injetiva {A B : Type} (f : A -> B) (l : list A) :
  (forall x y, f x = f y -> x = y) -> NoDup l -> NoDup (map f l).
Proof.
  intros Hf H. induction H as [|x l Hx Hl IH]; cbn; constructor; [|exact IH].
  intros Hin. apply in_map_iff in Hin as (y & E & Hy).
  apply Hf in E. subst y. contradiction.
Qed.

(** X14.  Whatever is typed, when [main] ends the accounts are numbered
    1, 2, 3, ... in the order in which they were opened: the numbers of
    the accounts of the list are [1] to the length of the list, so no
    two accounts have the same number. *)
Theorem X14_main_numeros_das_contas_em_sequencia
    (float_ : string -> option V) (entrada : list string)
    (relogio : nat -> Leituras) (log : list RegistroLog) :
  let lista := contas (snd (Sessao.main float_ entrada relogio log)) in
  map _numero lista
  = map (fun k => Z.of_nat k + 1) (seq 0 (List.length lista))
  /\ NoDup (map _numero lista).
Proof.
  cbv zeta.
  destruct (main_resumo float_ entrada relogio log) as ((_ & Hn & _) & _).
  split; [exact Hn|]. rewrite Hn.
  apply NoDup_map_injetiva; [|apply seq_NoDup].
  intros x y H. lia.
Qed.

(** Whatever is typed, when [main] ends every account is as the
    session keeps it. *)
Lemma main_contas_integras
    (float_ : string -> option V) (entrada : list string)
    (relogio : nat -> Leituras) (log : list RegistroLog) :
  Forall
    (fun c =>
       classe c = ClasseContaCorrente (de_int 500) 3
       /\ _agencia c = "0001"%string
       /\ saldo c = saldo_do_historico (historico c)
       /\ numero_saques (historico c) <= 3
       /\ forallb (entrada_valida (ClasseContaCorrente (de_int 500) 3))
                  (transacoes (historico c)) = true)
    (contas (snd (Sessao.main float_ entrada relogio log))).
Proof.
  destruct (main_resumo float_ entrada relogio log) as ((_ & _ & Hi & _) & _).
  revert Hi. apply Forall_impl. intros c (H1 & H2 & H3 & H4 & H5).
  rewrite H1 in H5. repeat split; assumption.
Qed.

(** A property of accounts that new accounts have and that
    [realizar_transacao] keeps is kept by every change a turn makes,
    hence by the loop of [main]. *)
Lemma mudanca_contas (P : Conta V -> Prop) (w w' : Mundo V) :
  (forall w cliente, P (conta_criada w cliente)) ->
  (forall hoje agora t c, P c -> P (depois (realizar_transacao hoje agora t c))) ->
  Mudanca w w' -> Forall P (contas w) -> Forall P (contas w').
Proof.
  intros Hnova Hpasso M Hw.
  destruct M as [Ec Ek | novo Hf Hl Ec Ek | i cl Hf Ec Ek
                 | i cl k c t Hf Hh Hk Ec Ek]; rewrite Ek; try exact Hw.
  - apply Forall_app. split; [exact Hw|]. constructor; [apply Hnova|constructor].
  - apply Forall_substituir; [exact Hw|]. apply Hpasso.
    rewrite Forall_forall in Hw. apply Hw. eapply nth_error_In; eauto.
Qed.

Lemma main_laco_contas (P : Conta V -> Prop) (float_ : string -> option V) :
  (forall w cliente, P (conta_criada w cliente)) ->
  (forall hoje agora t c, P c -> P (depois (realizar_transacao hoje agora t c))) ->
  forall combustivel w,
    Forall P (contas w) ->
    Forall P (contas (snd (Sessao.main_laco float_ combustivel w))).
Proof.
  intros Hnova Hpasso. induction combustivel as [|n IH]; intros w Hw;
    [exact Hw|].
  rewrite main_laco_S. destruct (stdin w) as [|opcao resto]; [exact Hw|].
  cbv zeta. destruct (String.eqb opcao "q"); [exact Hw|].
  set (w1 := com_stdin resto _).
  pose proof (proj1 (acao_volta float_ opcao w1)) as M.
  apply (mudanca_contas P _ _ Hnova Hpasso) in M; [|exact Hw].
  destruct (Sessao.acao float_ opcao w1) as [[[]|e|f] w2]; cbn [fst snd] in *;
    [|exact M|exact M].
  apply IH. exact M.
Qed.

Section Saldos_da_sessao.

Context {leis : Numero_leis V}.

(** Whatever is typed, when [main] ends no account has a balance below
    zero. *)
Lemma main_saldos_nao_negativos
    (float_ : string -> option V) (entrada : list string)
    (relogio : nat -> Leituras) (log : list RegistroLog) :
  Forall (fun c => negativo (saldo c) = false)
         (contas (snd (Sessao.main float_ entrada relogio log))).
Proof.
  unfold Sessao.main. apply main_laco_contas.
  - intros w cliente. apply zero_nao_negativo.
  - intros hoje agora t c Hc.
    exact (desfecho_nao_negativo _ _ _ _
             (atender_desfecho (PedidoRealizar hoje agora t) c) Hc).
  - constructor.
Qed.

End Saldos_da_sessao.

(** X16.  Whatever is typed, when [main] ends the owner of every account
    is a registered customer, and every account a customer holds is an
    account of the list of accounts whose owner is that customer. *)
Theorem X16_main_contas_e_clientes_ligados
    (float_ : string -> option V) (entrada : list string)
    (relogio : nat -> Leituras) (log : list RegistroLog) :
  let w' := snd (Sessao.main float_ entrada relogio log) in
  (forall c, In c (contas w') ->
             exists i cliente,
               filtrar_cliente (_cliente c) (clientes w') = Some (i, cliente))
  /\ (forall cliente k,
         In cliente (clientes w') -> In k (contas_do_cliente cliente) ->
         exists c, nth_error (contas w') k = Some c
                   /\ _cliente c = cpf cliente).
Proof.
  cbv zeta.
  destruct (main_resumo float_ entrada relogio log)
    as ((_ & _ & _ & Ho & Hr) & _).
  rewrite Forall_forall in Ho, Hr. split.
  - intros c Hc. specialize (Ho c Hc).
    destruct (filtrar_cliente (_cliente c) _) as [[i cl]|] eqn:E; [eauto|].
    apply filtrar_cliente_ausente in E. contradiction.
  - intros cl k Hcl Hk. specialize (Hr cl Hcl).
    unfold contas_sao_do_cliente in Hr. rewrite Forall_forall in Hr. auto.
Qed.

(** X17.  [main] only adds to the log: when it ends the log is what it
    held at the start followed by the new lines, each the line of one of
    the five decorated functions, and there are at most as many new
    lines as turns of the loop were completed. *)
Theorem X17_main_log_so_cresce
    (float_ : string -> option V) (entrada : list string)
    (relogio : nat -> Leituras) (log : list RegistroLog) :
  let w' := snd (Sessao.main float_ entrada relogio log) in
  exists novas,
    log_txt w' = log ++ novas
    /\ Forall (fun l => In (log_funcao l) funcoes_decoradas) novas
    /\ (List.length novas <= voltas w')%nat.
Proof.
  cbv zeta.
  destruct (main_resumo float_ entrada relogio log)
    as (_ & _ & _ & _ & _ & _ & (novas & R1 & R2 & R3) & _).
  cbn [log_txt voltas Sessao.mundo_inicial] in *.
  exists novas. repeat split; [exact R1 | exact R2 | lia].
Qed.

(** X18.  One turn of the menu, whatever the option and whatever is
    typed, changes the customers and accounts in at most one way: it
    registers one customer whose CPF was not registered, with no
    account; or it opens one account, numbered one more than the number
    of accounts, for a registered customer and adds it to that
    customer's accounts; or it applies one transaction to the first
    account of a registered customer and to nothing else.  It removes
    no customer and no account. *)
Theorem X18_uma_volta_faz_uma_mudanca
    (float_ : string -> option V) (opcao : string) (w : Mundo V) :
  let w' := snd (Sessao.acao float_ opcao w) in
  Mudanca w w'
  /\ (List.length (clientes w) <= List.length (clientes w'))%nat
  /\ (List.length (contas w) <= List.length (contas w'))%nat.
Proof.
  cbv zeta. destruct (acao_volta float_ opcao w) as (M & _).
  split; [exact M|].
  destruct M as [Ec Ek | novo Hf Hl Ec Ek | i cl Hf Ec Ek
                 | i cl k c t Hf Hh Hk Ec Ek]; rewrite Ec, Ek;
    rewrite ?length_app, ?length_substituir; lia.
Qed.

(** X21.  A turn of the menu that ends in an exception has changed
    neither the customers nor the accounts, and wrote no line to the
    log; the exception is [EOFError] with the input used up, or
    [ValueError] with a line of the input that is not a number.  So
    data typed for a customer or a transaction before the input ends or
    before a malformed amount is lost, and nothing is half done. *)
Theorem X21_excecao_nada_altera
    (float_ : string -> option V) (opcao : string) (w : Mundo V) (e : Excecao) :
  fst (Sessao.acao float_ opcao w) = Levantou e ->
  let w' := snd (Sessao.acao float_ opcao w) in
  clientes w' = clientes w
  /\ contas w' = contas w
  /\ log_txt w' = log_txt w
  /\ ((e = EOFError /\ stdin w' = [])
      \/ (e = ValueError
          /\ exists linha, In linha (stdin w) /\ float_ linha = None)).
Proof.
  intros He. cbv zeta.
  destruct (acao_volta float_ opcao w)
    as (_ & (_ & _ & _ & _ & Heof & Hval & Hstop & _) & novas & Vl & _ & _ & Vr).
  rewrite He in *.
  assert (Hcc : clientes (snd (Sessao.acao float_ opcao w)) = clientes w
                /\ contas (snd (Sessao.acao float_ opcao w)) = contas w).
  { revert He. unfold Sessao.acao.
    destruct (String.eqb opcao "d");
      [apply log_transacao_levantou, depositar__levantou|].
    destruct (String.eqb opcao "s");
      [apply log_transacao_levantou, sacar__levantou|].
    destruct (String.eqb opcao "e");
      [apply log_transacao_levantou; intros ? _;
       apply (exibir_extrato__mudanca float_)|].
    destruct (String.eqb opcao "nu");
      [apply log_transacao_levantou, criar_cliente__levantou|].
    destruct (String.eqb opcao "nc");
      [unfold Sessao.bind at 1 2 3, Sessao.mundo; cbn [fst snd];
       apply log_transacao_levantou, criar_conta__levantou|].
    destruct (String.eqb opcao "lc");
      [intros _; apply (listar_contas_moldura float_)|].
    intros _. split; reflexivity. }
  destruct Hcc as [Hc Hk].
  split; [exact Hc|]. split; [exact Hk|].
  split; [rewrite Vl, Vr by discriminate; apply app_nil_r|].
  destruct e; [left | right | now contradiction Hstop]; auto.
Qed.


(** X19.  The statement, asked for the CPF of a registered customer, in
    a state that holds together.  When the customer has an account,
    [exibir_extrato] prints the heading, one line for each entry of the
    ledger of the customer's first account, in the order of the ledger,
    then the balance and the closing line.  When the customer has none
    it prints that the customer has no account.  Either way it returns,
    reads only the CPF, leaves customers and accounts as they were, and
    the log gains its line. *)
Theorem X19_extrato_mostra_o_historico_e_o_saldo
    (cpf_ : string) (resto : list string) (w : Mundo V)
    (i : nat) (cliente : PessoaFisica) :
  mundo_integro w ->
  stdin w = cpf_ :: resto ->
  filtrar_cliente cpf_ (clientes w) = Some (i, cliente) ->
  let r := fst (Sessao.exibir_extrato w) in
  let w' := snd (Sessao.exibir_extrato w) in
  r = Retornou tt
  /\ clientes w' = clientes w
  /\ contas w' = contas w
  /\ stdin w' = resto
  /\ (exists linha, log_txt w' = log_txt w ++ [linha]
                    /\ log_funcao linha = "exibir_extrato"%string)
  /\ (contas_do_cliente cliente = [] ->
      stdout w' = stdout w ++ [Perguntou PerguntaCPF; ClienteSemConta])
  /\ (forall k outras c,
         contas_do_cliente cliente = k :: outras ->
         nth_error (contas w) k = Some c ->
         stdout w' = stdout w ++ [Perguntou PerguntaCPF] ++ linhas_do_extrato c).
Proof.
  intros Hi Es Hf.
  assert (Hr : forall k outras, contas_do_cliente cliente = k :: outras ->
                 exists c, nth_error (contas w) k = Some c).
  { intros k outras. now apply (referencia_valida w cpf_ i). }
  clear Hi. destruct w as [cs ks inp out lg clk n].
  cbn [stdin clientes contas] in *. subst inp. cbv zeta.
  unfold Sessao.exibir_extrato. rewrite log_transacao_eq.
  prog_abre. prog_simp. rewrite Hf. prog_simp.
  destruct (contas_do_cliente cliente) as [|k outras] eqn:El; prog_simp.
  - split; [reflexivity|]. split; [reflexivity|]. split; [reflexivity|].
    split; [reflexivity|]. split; [eexists; split; reflexivity|].
    split; [intros _; now rewrite <- app_assoc | discriminate].
  - destruct (Hr k outras eq_refl) as [c Ek]. rewrite Ek.
    prog_simp; prog_relatorio; prog_simp; prog_relatorio.
    split; [reflexivity|]. split; [reflexivity|]. split; [reflexivity|].
    split; [reflexivity|]. split; [eexists; split; reflexivity|].
    split; [discriminate|].
    intros k' outras' c' [= <- <-] Hk. rewrite Ek in Hk. injection Hk as <-.
    unfold linhas_do_extrato, transacoes, historico.
    rewrite filter_tudo, !app_nil_r, <- !app_assoc. reflexivity.
Qed.



(** X20.  [listar_contas], in a state where no two customers have the
    same CPF and the owner of every account is a registered customer:
    it prints, for each account of the list and in the order of the
    list, the separator and the record of the account (agency, number,
    name of the owner, balance), and returns; it changes nothing but the
    console.  With no account it prints nothing. *)
Theorem X20_listar_contas_mostra_todas (w : Mundo V) :
  NoDup (map cpf (clientes w)) ->
  Forall (fun c => In (_cliente c) (map cpf (clientes w))) (contas w) ->
  Sessao.listar_contas w =
    (Retornou tt,
     com_stdout (stdout w ++ linhas_da_lista (clientes w) (contas w)) w)
  /\ (forall c cliente,
         In c (contas w) -> titular (clientes w) c cliente ->
         ficha_da_conta (clientes w) c = ficha_com_titular cliente c)
  /\ (contas w = [] -> Sessao.listar_contas w = (Retornou tt, w)).
Proof.
  intros Hd Ho.
  assert (E : Sessao.listar_contas w =
              (Retornou tt,
               com_stdout (stdout w ++ linhas_da_lista (clientes w) (contas w)) w)).
  { unfold Sessao.listar_contas, Sessao.bind, Sessao.mundo.
    rewrite listar_contas_laco_eq; [reflexivity | exact Ho | lia]. }
  split; [exact E|]. split.
  - intros c cliente _ Ht. now apply titular_de_unico.
  - intros Hk. rewrite E, Hk. cbn. rewrite app_nil_r.
    destruct w; reflexivity.
Qed.

End Propriedades_da_sessao.
(* ================================================================== *)
(** * Integer amounts and float amounts *)

(** ** The integers *)

#[export] Instance Numero_int_leis : Numero_leis Z.
Proof.
  constructor; cbn.
  - reflexivity.
  - intros s v. rewrite !Z.gtb_ltb, !Z.ltb_ge, Z.leb_gt. lia.
  - intros s v. rewrite !Z.gtb_ltb, !Z.ltb_ge, Z.leb_gt. lia.
Qed.




(** ** The floats *)

Lemma digits2_pos_size (p : positive) : digits2_pos p = Pos.size p.
Proof. induction p; simpl; congruence. Qed.

(** A mantissa of [d] binary digits is below [2 ^ d] and at least half
    of it. *)
Lemma digits2_pos_limites (m : positive) :
  2 ^ (Zpos (digits2_pos m)) <= 2 * Zpos m
  /\ Zpos m < 2 ^ Zpos (digits2_pos m).
Proof.
  rewrite digits2_pos_size. split.
  - pose proof (Pos.size_le m) as H.
    change (2 * Zpos m) with (Zpos (m~0)).
    change 2 with (Zpos 2). rewrite <- Pos2Z.inj_pow. exact H.
  - pose proof (Pos.size_gt m) as H.
    change 2 with (Zpos 2). rewrite <- Pos2Z.inj_pow. exact H.
Qed.

Lemma iter_xO (m d : positive) : Zpos (Pos.iter xO m d) = Zpos m * 2 ^ Zpos d.
Proof.
  induction d as [|d IH] using Pos.peano_ind.
  - cbn [Pos.iter]. lia.
  - rewrite Pos.iter_succ, Pos2Z.inj_succ, Z.pow_succ_r by lia.
    rewrite Pos2Z.inj_xO, IH. ring.
Qed.

Lemma shl_align_fst (m : positive) (e e' : Z) :
  e' <= e -> Zpos (fst (shl_align m e e')) = Zpos m * 2 ^ (e - e').
Proof.
  intros H. unfold shl_align.
  destruct (e' - e) as [|d|d] eqn:E; cbn [fst].
  - replace (e - e') with 0 by lia. lia.
  - lia.
  - rewrite iter_xO. replace (e - e') with (Zpos d) by lia. reflexivity.
Qed.

Lemma sinal_nao_negativo_ltb (x : spec_float) :
  sinal_nao_negativo x = true -> SFltb x (S754_zero false) = false.
Proof. destruct x as [s|s| |s m e]; try destruct s; cbn; congruence. Qed.

(** Rounding keeps the sign. *)
Lemma binary_round_aux_sinal (mx ex : Z) (lx : location) :
  sinal_nao_negativo (binary_round_aux prec emax false mx ex lx) = true.
Proof.
  unfold binary_round_aux.
  destruct (shr_fexp prec emax mx ex lx) as [mrs' e'].
  destruct (shr_fexp prec emax _ e' loc_Exact) as [mrs'' e''].
  destruct (shr_m mrs''); [reflexivity| |reflexivity].
  destruct (e'' <=? emax - prec); reflexivity.
Qed.

Lemma binary_normalize_sinal (m e : Z) :
  0 <= m -> sinal_nao_negativo (binary_normalize prec emax m e false) = true.
Proof.
  intros H. destruct m as [|m|m]; [reflexivity| |lia].
  unfold binary_normalize, binary_round.
  destruct (shl_align _ _ _) as [mz ez]. apply binary_round_aux_sinal.
Qed.

(** [x - y] is not below zero when [x] is not, [y] is not [<= 0] and
    [x] is not [< y]. *)
Lemma SFsub_sinal (x y : spec_float) :
  valid_binary x = true -> valid_binary y = true ->
  SFltb x (S754_zero false) = false ->
  SFleb y (S754_zero false) = false ->
  SFltb x y = false ->
  sinal_nao_negativo (SFsub prec emax x y) = true.
Proof.
  intros Vx Vy Hx Hy Hxy.
  destruct x as [sx|sx| |sx mx ex], y as [sy|sy| |sy my ey];
    try destruct sx; try destruct sy; try reflexivity; try discriminate.
  cbn [SFsub cond_Zopp]. apply binary_normalize_sinal.
  unfold valid_binary in Vx, Vy. cbn [SpecFloat.valid_binary] in Vx, Vy.
  unfold bounded, canonical_mantissa, fexp in Vx, Vy.
  apply andb_prop in Vx, Vy. destruct Vx as [Cx _], Vy as [Cy _].
  apply Z.eqb_eq in Cx, Cy.
  unfold SFltb, SFcompare in Hxy.
  destruct (digits2_pos_limites mx) as [Lx Ux], (digits2_pos_limites my) as [Ly Uy].
  destruct (Z.compare_spec ex ey) as [E|E|E]; [|discriminate|].
  - subst ey. rewrite Z.min_id, !shl_align_fst by lia.
    rewrite Z.sub_diag.
    assert ((my <= mx)%positive).
    { change (Pos.compare_cont Eq mx my) with (Pos.compare mx my) in Hxy.
      destruct (Pos.compare_spec mx my); [lia|discriminate|lia]. }
    lia.
  - rewrite Z.min_r, !shl_align_fst by lia. rewrite Z.sub_diag.
    assert (Dx : Zpos (digits2_pos mx) = prec) by lia.
    assert (Dy : Zpos (digits2_pos my) <= prec) by lia.
    rewrite Dx in *.
    assert (2 ^ Zpos (digits2_pos my) <= 2 ^ prec) by (apply Z.pow_le_mono_r; lia).
    assert (2 * 1 <= 2 ^ (ex - ey)).
    { replace (ex - ey) with (Z.succ (ex - ey - 1)) by lia.
      rewrite Z.pow_succ_r by lia.
      assert (0 < 2 ^ (ex - ey - 1)) by (apply Z.pow_pos_nonneg; lia). lia. }
    nia.
Qed.

(** [x + y] is not below zero when [x] is not and [y] is not [<= 0]. *)
Lemma SFadd_sinal (x y : spec_float) :
  SFltb x (S754_zero false) = false ->
  SFleb y (S754_zero false) = false ->
  sinal_nao_negativo (SFadd prec emax x y) = true.
Proof.
  intros Hx Hy.
  destruct x as [sx|sx| |sx mx ex], y as [sy|sy| |sy my ey];
    try destruct sx; try destruct sy; try reflexivity; try discriminate.
  cbn [SFadd cond_Zopp]. apply binary_normalize_sinal. lia.
Qed.

Lemma float_subtrai_nao_negativa (s v : float) :
  PrimFloat.ltb s 0 = false -> PrimFloat.leb v 0 = false ->
  PrimFloat.ltb s v = false ->
  PrimFloat.ltb (PrimFloat.sub s v) 0 = false.
Proof.
  rewrite !ltb_spec, leb_spec, sub_spec.
  change (Prim2SF 0) with (S754_zero false).
  intros Hs Hv Hsv. apply sinal_nao_negativo_ltb.
  apply SFsub_sinal; auto using Prim2SF_valid.
Qed.

Lemma float_soma_nao_negativa (s v : float) :
  PrimFloat.ltb s 0 = false -> PrimFloat.leb v 0 = false ->
  PrimFloat.ltb (PrimFloat.add s v) 0 = false.
Proof.
  rewrite !ltb_spec, leb_spec, add_spec.
  change (Prim2SF 0) with (S754_zero false).
  intros Hs Hv. apply sinal_nao_negativo_ltb.
  apply SFadd_sinal; auto.
Qed.

(** A float above zero is not [<= 0]. *)
Lemma float_positivo (v : float) :
  PrimFloat.ltb 0 v = true -> PrimFloat.leb v 0 = false.
Proof.
  rewrite ltb_spec, leb_spec. change (Prim2SF 0) with (S754_zero false).
  destruct (Prim2SF v) as [s|s| |s m e]; try destruct s; cbn; congruence.
Qed.

#[export] Instance Numero_float_leis : Numero_leis float.
Proof.
  constructor.
  - reflexivity.
  - intros s v. apply float_soma_nao_negativa.
  - intros s v. apply float_subtrai_nao_negativa.
Qed.

(* ================================================================== *)
(** ** The balance after a sequence of requests *)



(* ================================================================== *)
(** ** The limit of 500 *)

(** A withdrawal above the limit of a [ContaCorrente] is refused with
    the limit message, and [registrar] writes nothing. *)
Lemma saque_acima_do_limite {V : Type} {num : Numero V}
    (c : Conta V) (l : V) (n : Z) (v : V) (agora : DataHora) :
  classe c = ClasseContaCorrente l n ->
  maior v l = true ->
  sacar v c = (false, c, [LimiteSaqueExcedido])
  /\ depois (registrar agora (Saque v) c) = c.
Proof.
  intros Hc Hv.
  assert (H : sacar v c = (false, c, [LimiteSaqueExcedido])).
  { rewrite (sacar_ContaCorrente c l n v Hc), Hv. reflexivity. }
  split; [exact H|]. apply saque_recusado. rewrite H. reflexivity.
Qed.

(** C6.  A [ContaCorrente] with [limite] 500, whatever its balance (so
    also a balance of 501 or more), its ledger and its cap: [sacar(501)]
    returns [False] with the limit message and changes nothing, and
    [Saque(501).registrar] appends no entry; with integer amounts and
    with float amounts. *)
Theorem C6_limite_500_recusa_501 :
  (forall (saldo0 numero : Z) (agencia cliente : string) (h : Historico Z)
          (limite_saques : Z) (agora : DataHora),
      let conta :=
        mkConta saldo0 numero agencia cliente h
                (ClasseContaCorrente 500 limite_saques) in
      sacar 501 conta = (false, conta, [LimiteSaqueExcedido])
      /\ transacoes (historico (depois (registrar agora (Saque 501) conta))) =
           transacoes h
      /\ depois (registrar agora (Saque 501) conta) = conta)
  /\ (forall (saldo0 : float) (numero : Z) (agencia cliente : string)
             (h : Historico float) (limite_saques : Z) (agora : DataHora),
         let conta :=
           mkConta saldo0 numero agencia cliente h
                   (ClasseContaCorrente 500%float limite_saques) in
         sacar 501%float conta = (false, conta, [LimiteSaqueExcedido])
         /\ transacoes
              (historico (depois (registrar agora (Saque 501%float) conta))) =
              transacoes h
         /\ depois (registrar agora (Saque 501%float) conta) = conta).
Proof.
  split.
  - intros saldo0 numero agencia cliente h limite_saques agora. cbv zeta.
    set (conta := mkConta saldo0 numero agencia cliente h _).
    destruct (saque_acima_do_limite (num := Numero_int) conta 500
                limite_saques 501 agora eq_refl) as [H Hr]; [reflexivity|].
    rewrite Hr. split; [exact H | split; reflexivity].
  - intros saldo0 numero agencia cliente h limite_saques agora. cbv zeta.
    set (conta := mkConta saldo0 numero agencia cliente h _).
    destruct (saque_acima_do_limite (num := Numero_float) conta 500%float
                limite_saques 501%float agora eq_refl) as [H Hr];
      [reflexivity|].
    rewrite Hr. split; [exact H | split; reflexivity].
Qed.

(* ================================================================== *)
(** ** Deposits *)

(** C10, as the code has it.  [depositar(v)] on an account of either
    class in any state (any balance, any ledger, any limit and cap),
    for every amount that passes the test of the method, so for every
    [v > 0]: it returns [True] and the balance becomes [saldo + v] in
    the arithmetic of the amounts, which with integers is the balance
    grown by exactly [v] and with floats is that sum rounded; the limit
    and the cap of a [ContaCorrente] play no part.
    [Deposito(v).registrar] then appends one entry, of kind
    ["Deposito"] and amount [v]. *)
Theorem C10_deposito_positivo_sempre_aceito :
  (forall (V : Type) (num : Numero V) (conta : Conta V) (v : V)
          (agora : DataHora),
      menor_igual v (de_int 0) = false ->
      depositar v conta =
        (true, com_saldo (soma (saldo conta) v) conta, [DepositoSucesso])
      /\ saldo (depois (depositar v conta)) = soma (saldo conta) v
      /\ depois (registrar agora (Deposito v) conta) =
           com_historico
             (mkHistorico (transacoes (historico conta)
                           ++ [mkEntrada "Deposito" v agora]))
             (com_saldo (soma (saldo conta) v) conta))
  /\ (forall (conta : Conta Z) (v : Z) (agora : DataHora),
         0 < v ->
         depositar v conta =
           (true, com_saldo (saldo conta + v) conta, [DepositoSucesso])
         /\ saldo (depois (depositar v conta)) = saldo conta + v
         /\ depois (registrar agora (Deposito v) conta) =
              com_historico
                (mkHistorico (transacoes (historico conta)
                              ++ [mkEntrada "Deposito" v agora]))
                (com_saldo (saldo conta + v) conta))
  /\ (forall (conta : Conta float) (v : float) (agora : DataHora),
         PrimFloat.ltb 0 v = true ->
         depositar v conta =
           (true, com_saldo (PrimFloat.add (saldo conta) v) conta,
            [DepositoSucesso])
         /\ saldo (depois (depositar v conta)) = PrimFloat.add (saldo conta) v
         /\ depois (registrar agora (Deposito v) conta) =
              com_historico
                (mkHistorico (transacoes (historico conta)
                              ++ [mkEntrada "Deposito" v agora]))
                (com_saldo (PrimFloat.add (saldo conta) v) conta)).
Proof.
  split; [|split].
  - intros V num conta v agora. apply deposito_aceito.
  - intros conta v agora Hv.
    assert (H : menor_igual v (de_int 0) = false) by (cbn; now apply Z.leb_gt).
    exact (deposito_aceito conta v agora H).
  - intros conta v agora Hv.
    assert (H : menor_igual v (de_int 0) = false)
      by (cbn; now apply float_positivo).
    exact (deposito_aceito conta v agora H).
Qed.

(** C10 as stated fails with float amounts: on an account that holds
    1e16, a deposit of 1 is accepted and leaves the balance at 1e16, so
    the balance did not grow by 1. *)
Lemma C10_deposito_aceito_sem_aumentar_o_saldo :
  let conta := depois (depositar 1e16%float (Conta_init 1 "123")) in
  PrimFloat.ltb 0 1 = true
  /\ saldo conta = 1e16%float
  /\ retorno (depositar 1%float conta) = true
  /\ saldo (depois (depositar 1%float conta)) = 1e16%float.
Proof. cbv zeta. split; [|split; [|split]]; vm_compute; reflexivity. Qed.

(* ================================================================== *)
(** ** A withdrawal and a deposit of the same amount *)

(** X6.  With integer amounts, a withdrawal that [sacar] accepted is
    undone by depositing the same amount, and a deposit of a positive
    amount on an account whose balance is not negative is undone by
    withdrawing it, when the withdrawal is within the limits of the
    account: in both orders the second call succeeds and the account is
    the one before the first.  With float amounts it need not be: on a
    balance of 1.0, depositing 1e16 and withdrawing 1e16, both accepted,
    leaves 0.0. *)
Theorem X6_saque_e_deposito_se_desfazem :
  (forall (conta : Conta Z) (v : Z),
      (retorno (sacar v conta) = true ->
       depositar v (depois (sacar v conta)) = (true, conta, [DepositoSucesso]))
      /\ (0 < v -> 0 <= saldo conta -> dentro_dos_limites conta v ->
          retorno (depositar v conta) = true
          /\ sacar v (depois (depositar v conta)) = (true, conta, [SaqueSucesso])))
  /\ (let conta :=
        mkConta 1%float 1 "0001" "123" Historico_init ClasseConta in
      let v := 1e16%float in
      retorno (depositar v conta) = true
      /\ retorno (sacar v (depois (depositar v conta))) = true
      /\ saldo conta = 1%float
      /\ saldo (depois (sacar v (depois (depositar v conta)))) = 0%float).
Proof.
  split.
  - intros conta v. split.
    + intros H. destruct (sacar_aceito v conta H) as (Hv & Hb & Hl).
      rewrite (sacar_aceita v conta Hv Hb Hl). unfold depois. cbn [fst snd].
      unfold depositar. rewrite Conta_depositar_eq, Hv. f_equal. f_equal.
      destruct conta; unfold com_saldo; cbn. f_equal. lia.
    + unfold saldo. intros Hv Hs Hl.
      assert (Hv' : menor_igual v (de_int 0) = false)
        by (cbn; now apply Z.leb_gt).
      unfold depositar. rewrite Conta_depositar_eq, Hv'.
      split; [reflexivity|]. unfold depois. cbn [fst snd].
      rewrite sacar_aceita.
      * f_equal. f_equal. destruct conta; unfold com_saldo; cbn. f_equal. lia.
      * exact Hv'.
      * cbn. rewrite Z.gtb_ltb. apply Z.ltb_ge. lia.
      * exact Hl.
  - cbv zeta. split; [|split; [|split]]; vm_compute; reflexivity.
Qed.

(* ================================================================== *)
(** ** The accounts of main *)

(** X15.  Whatever is typed, when [main] ends every account is a
    [ContaCorrente] of agency ["0001"] with limit 500 and cap 3; its
    balance is what its ledger leads to from zero, each deposit added
    and each withdrawal subtracted in the order of the ledger; its
    ledger holds at most three withdrawals; and every entry of the
    ledger is a deposit or a withdrawal whose amount passed the tests of
    the methods (it is not [<= 0], and for a withdrawal not [> 500]).
    With the amounts [main] reads, which are floats, no balance is
    below zero. *)
Theorem X15_main_contas_integras :
  (forall (V : Type) (num : Numero V) (txt : Texto)
          (float_ : string -> option V) (entrada : list string)
          (relogio : nat -> Leituras) (log : list RegistroLog),
      Forall
        (fun c =>
           classe c = ClasseContaCorrente (de_int 500) 3
           /\ _agencia c = "0001"%string
           /\ saldo c = saldo_do_historico (historico c)
           /\ numero_saques (historico c) <= 3
           /\ forallb (entrada_valida (ClasseContaCorrente (de_int 500) 3))
                      (transacoes (historico c)) = true)
        (contas (snd (Sessao.main float_ entrada relogio log))))
  /\ (forall (txt : Texto) (float_ : string -> option float)
             (entrada : list string) (relogio : nat -> Leituras)
             (log : list RegistroLog),
         Forall (fun c => PrimFloat.ltb (saldo c) 0 = false)
                (contas (snd (Sessao.main float_ entrada relogio log)))).
Proof.
  split.
  - intros V num txt. apply main_contas_integras.
  - intros txt float_ entrada relogio log.
    exact (main_saldos_nao_negativos (V := float) float_ entrada relogio log).
Qed.

(* ================================================================== *)
(** * Examples *)

(** The scenario of the specification: a new account, a deposit of 1000,
    a withdrawal of 1500 and one of 500. *)
Example cenario_extrato :
  let t := mkDataHora (mkData 3 11 2026) 9 0 0 in
  let r := executar [ PedidoRegistrar t (Deposito 1000%float);
                      PedidoRegistrar t (Saque 1500%float);
                      PedidoRegistrar t (Saque 500%float) ]
                    (ContaCorrente_init 1 "123" 5000%float 3) in
  saldo (fst r) = 500%float /\
  map snd (snd r) = [[DepositoSucesso]; [SaldoInsuficiente]; [SaqueSucesso]] /\
  retorno (gerar_relatorio (txt := Texto_ascii) None (historico (fst r))) =
    [mkEntrada "Deposito" 1000%float t; mkEntrada "Saque" 500%float t].
Proof. cbv zeta. split; [|split]; vm_compute; reflexivity. Qed.

Example igual_sem_caixa_exemplos :
  igual_sem_caixa (txt := Texto_ascii) "Saque" "SAQUE" = true
  /\ igual_sem_caixa (txt := Texto_ascii) "Deposito" "dEPOSITO" = true
  /\ igual_sem_caixa (txt := Texto_ascii) "Saque" "saques" = false
  /\ igual_sem_caixa (txt := Texto_ascii) "Saque" "Deposito" = false
  /\ lower "Saque-Az@[`{09" = "saque-az@[`{09"%string.
Proof. repeat split. Qed.

(** What nan does, which [float] reads from the line ["nan"]: it passes
    every test of the methods, since no comparison with nan holds, so it
    is deposited and withdrawn, and the balance becomes nan. *)
Example nan_passa_nos_testes :
  let nan := PrimFloat.div 0 0 in
  let conta := mkConta 100%float 1 "0001" "123" Historico_init
                 (ClasseContaCorrente 500%float 3) in
  PrimFloat.eqb nan nan = false
  /\ retorno (depositar nan conta) = true
  /\ retorno (sacar nan conta) = true
  /\ PrimFloat.eqb (saldo (depois (sacar nan conta)))
                   (saldo (depois (sacar nan conta))) = false.
Proof. cbv zeta. split; [|split; [|split]]; vm_compute; reflexivity. Qed.

(** C3 at two accounts: one with two entries of 3-11-2026, asked for a
    third transaction on that day, and the same account asked on the next
    day. *)
Lemma C3_limite_diario_testemunha :
  let d := mkData 3 11 2026 in
  let t := mkDataHora d 10 30 0 in
  let conta := mkConta 50 1 "0001" "123"
                 (mkHistorico [mkEntrada "Deposito" 100 t; mkEntrada "Saque" 50 t])
                 (ClasseContaCorrente 500 3) in
  realizar_transacao d t (Deposito 10) conta = (tt, conta, [LimiteDiarioExcedido])
  /\ realizar_transacao (mkData 4 11 2026) t (Deposito 10) conta =
       registrar t (Deposito 10) conta.
Proof.
  cbv zeta. split.
  - apply (C3_limite_diario_ou_registrar (mkData 3 11 2026)). vm_compute. lia.
  - apply (C3_limite_diario_ou_registrar (mkData 4 11 2026)). vm_compute. lia.
Defined.

(** C4 after a deposit of 100 and three withdrawals of 10, all made by
    the customer on three days: the fourth withdrawal. *)
Lemma C4_recusa_apos_tres_saques_testemunha :
  let d1 := mkData 3 11 2026 in
  let d2 := mkData 4 11 2026 in
  let d3 := mkData 5 11 2026 in
  let ps := [ PedidoRealizar d1 (mkDataHora d1 9 0 0) (Deposito 100%float);
              PedidoRealizar d1 (mkDataHora d1 9 5 0) (Saque 10%float);
              PedidoRealizar d2 (mkDataHora d2 9 0 0) (Saque 10%float);
              PedidoRealizar d2 (mkDataHora d2 9 5 0) (Saque 10%float) ] in
  let conta := fst (executar ps (ContaCorrente_init 1 "123" 500%float 3)) in
  saldo conta = 70%float
  /\ retorno (sacar 10%float conta) = false
  /\ (maior 10%float 500%float = false ->
      saida (sacar 10%float conta) = [LimiteSaquesExcedido])
  /\ depois (sacar 10%float conta) = conta
  /\ depois (registrar (mkDataHora d3 9 0 0) (Saque 10%float) conta) = conta
  /\ depois (realizar_transacao d3 (mkDataHora d3 9 0 0) (Saque 10%float) conta)
     = conta.
Proof.
  cbv zeta. split; [vm_compute; reflexivity|].
  apply (C4_recusa_apos_tres_saques_registrados 1 "123" 500%float
           [ PedidoRealizar (mkData 3 11 2026)
               (mkDataHora (mkData 3 11 2026) 9 0 0) (Deposito 100%float);
             PedidoRealizar (mkData 3 11 2026)
               (mkDataHora (mkData 3 11 2026) 9 5 0) (Saque 10%float);
             PedidoRealizar (mkData 4 11 2026)
               (mkDataHora (mkData 4 11 2026) 9 0 0) (Saque 10%float);
             PedidoRealizar (mkData 4 11 2026)
               (mkDataHora (mkData 4 11 2026) 9 5 0) (Saque 10%float) ]
           10%float (mkData 5 11 2026) (mkDataHora (mkData 5 11 2026) 9 0 0)).
  vm_compute. discriminate.
Defined.

Lemma C5_saque_acima_do_saldo_testemunha :
  let t := mkDataHora (mkData 3 11 2026) 10 30 0 in
  let conta := mkConta 1000 1 "0001" "123"
                 (mkHistorico [mkEntrada "Deposito" 1000 t])
                 (ClasseContaCorrente 5000 3) in
  retorno (sacar 1500 conta) = false
  /\ saldo (depois (sacar 1500 conta)) = 1000
  /\ depois (sacar 1500 conta) = conta
  /\ transacoes (historico (depois (registrar t (Saque 1500) conta))) =
       [mkEntrada "Deposito" 1000 t]
  /\ depois (registrar t (Saque 1500) conta) = conta
  /\ depois (realizar_transacao (mkData 3 11 2026) t (Saque 1500) conta) = conta.
Proof.
  cbv zeta.
  apply (C5_saque_acima_do_saldo_recusado
           (mkConta 1000 1 "0001" "123"
              (mkHistorico
                 [mkEntrada "Deposito" 1000 (mkDataHora (mkData 3 11 2026) 10 30 0)])
              (ClasseContaCorrente 5000 3))
           1500 (mkData 3 11 2026) (mkDataHora (mkData 3 11 2026) 10 30 0)).
  vm_compute. reflexivity.
Defined.

(** C7 at requests that fail a specific check and a base check: 1000
    against limit 500 and balance 100; and, with three withdrawals on the
    ledger, -5 and 400 against balance 100. *)
Lemma C7_verificacoes_especificas_testemunha :
  let t := mkDataHora (mkData 3 11 2026) 10 30 0 in
  let h := mkHistorico [mkEntrada "Saque" 10 t; mkEntrada "Saque" 10 t;
                        mkEntrada "Saque" 10 t] in
  let conta := mkConta 100 1 "0001" "123" h (ClasseContaCorrente 500 3) in
  sacar 1000 conta = (false, conta, [LimiteSaqueExcedido])
  /\ sacar (-5) conta = (false, conta, [LimiteSaquesExcedido])
  /\ sacar 400 conta = (false, conta, [LimiteSaquesExcedido]).
Proof.
  cbv zeta.
  set (h := mkHistorico _).
  split; [|split].
  - apply (proj1 (C7_verificacoes_especificas_primeiro
                    100 1 "0001" "123" h 500 3 1000)). reflexivity.
  - apply (proj1 (proj2 (C7_verificacoes_especificas_primeiro
                           100 1 "0001" "123" h 500 3 (-5)))).
    + reflexivity.
    + vm_compute. discriminate.
  - apply (proj1 (proj2 (C7_verificacoes_especificas_primeiro
                           100 1 "0001" "123" h 500 3 400))).
    + reflexivity.
    + vm_compute. discriminate.
Defined.

(** C10 at a [ContaCorrente] with limit 500 whose three withdrawals are
    on the ledger: a deposit of 1000, in integers and in floats. *)
Lemma C10_deposito_positivo_testemunha :
  let t := mkDataHora (mkData 3 11 2026) 10 30 0 in
  (let h := [mkEntrada "Saque" 10 t; mkEntrada "Saque" 10 t;
             mkEntrada "Saque" 10 t] in
   let conta := mkConta 0 1 "0001" "123" (mkHistorico h)
                  (ClasseContaCorrente 500 3) in
   depositar 1000 conta =
     (true, mkConta 1000 1 "0001" "123" (mkHistorico h) (ClasseContaCorrente 500 3),
      [DepositoSucesso])
   /\ saldo (depois (depositar 1000 conta)) = 1000
   /\ depois (registrar t (Deposito 1000) conta) =
        mkConta 1000 1 "0001" "123"
          (mkHistorico (h ++ [mkEntrada "Deposito" 1000 t]))
          (ClasseContaCorrente 500 3))
  /\ (let h := [mkEntrada "Saque" 10%float t; mkEntrada "Saque" 10%float t;
                mkEntrada "Saque" 10%float t] in
      let conta := mkConta 0%float 1 "0001" "123" (mkHistorico h)
                     (ClasseContaCorrente 500%float 3) in
      saldo (depois (depositar 1000%float conta)) = 1000%float).
Proof.
  cbv zeta. split.
  - apply (proj1 (proj2 C10_deposito_positivo_sempre_aceito)
             (mkConta 0 1 "0001" "123"
                (mkHistorico
                   [mkEntrada "Saque" 10 (mkDataHora (mkData 3 11 2026) 10 30 0);
                    mkEntrada "Saque" 10 (mkDataHora (mkData 3 11 2026) 10 30 0);
                    mkEntrada "Saque" 10 (mkDataHora (mkData 3 11 2026) 10 30 0)])
                (ClasseContaCorrente 500 3))
             1000 (mkDataHora (mkData 3 11 2026) 10 30 0)).
    lia.
  - set (conta := mkConta 0%float _ _ _ _ _).
    rewrite (proj1 (proj2 (proj2 (proj2 C10_deposito_positivo_sempre_aceito)
                             conta 1000%float
                             (mkDataHora (mkData 3 11 2026) 10 30 0) eq_refl))).
    reflexivity.
Defined.

Lemma X2_saldo_e_o_do_historico_testemunha :
  let d := mkData 3 11 2026 in
  let t := mkDataHora d 9 0 0 in
  let ps := [ PedidoRegistrar t (Deposito 1000%float);
              PedidoRealizar d t (Saque 1500%float);
              PedidoRealizar d t (Saque 300%float);
              PedidoRegistrar t (Saque 200%float) ] in
  let final := fst (executar ps (ContaCorrente_init 1 "123" 500%float 3)) in
  saldo final = saldo_do_historico (historico final)
  /\ saldo final = 500%float.
Proof.
  cbv zeta. split; [|vm_compute; reflexivity].
  apply X2_saldo_e_o_do_historico; vm_compute; reflexivity.
Defined.

Lemma X5_no_maximo_duas_entradas_testemunha :
  let d := mkData 3 11 2026 in
  let t := mkDataHora d 9 0 0 in
  let ps := [ PedidoRealizar d t (Deposito 100);
              PedidoRealizar d t (Deposito 100);
              PedidoRealizar d t (Deposito 100);
              PedidoRealizar d t (Saque 50) ] in
  (entradas_do_dia d
     (historico (fst (executar ps (Conta_init 1 "123")))) <= 2)%nat
  /\ map snd (snd (executar ps (Conta_init 1 "123"))) =
       [ [DepositoSucesso]; [DepositoSucesso];
         [LimiteDiarioExcedido]; [LimiteDiarioExcedido] ].
Proof.
  cbv zeta. split; [|reflexivity].
  apply X5_no_maximo_duas_entradas_por_dia.
  - reflexivity.
  - intros d'. cbn. lia.
Defined.

Lemma X8_relatorios_por_tipo_testemunha :
  let d := mkData 3 11 2026 in
  let t := mkDataHora d 9 0 0 in
  let ps := [ PedidoRegistrar t (Deposito 1000);
              PedidoRegistrar t (Saque 1500);
              PedidoRegistrar t (Saque 300);
              PedidoRegistrar t (Deposito 5);
              PedidoRegistrar t (Saque 200) ] in
  let h := historico (fst (executar ps (ContaCorrente_init 1 "123" 500 3))) in
  let saques :=
    retorno (gerar_relatorio (txt := Texto_ascii) (Some "SAQUE"%string) h) in
  let depositos :=
    retorno (gerar_relatorio (txt := Texto_ascii) (Some "deposito"%string) h) in
  ((List.length saques + List.length depositos
    = List.length (transacoes h))%nat
   /\ Z.of_nat (List.length saques) = numero_saques h
   /\ (forall e, In e (transacoes h) ->
                 (In e saques /\ ~ In e depositos)
                 \/ (In e depositos /\ ~ In e saques)))
  /\ List.length saques = 2%nat.
Proof.
  cbv zeta. split; [|reflexivity].
  apply (proj2 (X8_relatorios_por_tipo_repartem_o_historico
                  (txt := Texto_ascii) 1 "123" 500 3
                  [ PedidoRegistrar (mkDataHora (mkData 3 11 2026) 9 0 0) (Deposito 1000);
                    PedidoRegistrar (mkDataHora (mkData 3 11 2026) 9 0 0) (Saque 1500);
                    PedidoRegistrar (mkDataHora (mkData 3 11 2026) 9 0 0) (Saque 300);
                    PedidoRegistrar (mkDataHora (mkData 3 11 2026) 9 0 0) (Deposito 5);
                    PedidoRegistrar (mkDataHora (mkData 3 11 2026) 9 0 0) (Saque 200) ]
                  "SAQUE" "deposito" eq_refl eq_refl)).
Defined.

Lemma X11_ContasIterador_testemunha :
  let ana := mkPessoaFisica "Ana" "01-01-2000" "123" "Rua A" [0%nat; 1%nat] in
  let c1 := mkConta 500%float 1 "0001" "123" Historico_init
              (ClasseContaCorrente 500%float 3) in
  let c2 := mkConta 0%float 2 "0001" "123" Historico_init
              (ClasseContaCorrente 500%float 3) in
  ContasIterador_for 3 [ana] [c1; c2] 0 =
    (Retornou [mkFicha "0001" 1 "Ana" 500%float; mkFicha "0001" 2 "Ana" 0%float],
     3%nat)
  /\ (forall c cliente,
         In c [c1; c2] -> titular [ana] c cliente ->
         ficha_da_conta [ana] c = ficha_com_titular cliente c)
  /\ ContasIterador_for 3 [ana] [c1; c2] 3 = (Retornou [], 4%nat)
  /\ (forall i, (2 <= i)%nat ->
                ContasIterador_next [ana] [c1; c2] i =
                  (Levantou StopIteration, S i)).
Proof.
  cbv zeta.
  apply (X11_ContasIterador_percorre_uma_vez
           [mkPessoaFisica "Ana" "01-01-2000" "123" "Rua A" [0%nat; 1%nat]]
           [mkConta 500%float 1 "0001" "123" Historico_init
              (ClasseContaCorrente 500%float 3);
            mkConta 0%float 2 "0001" "123" Historico_init
              (ClasseContaCorrente 500%float 3)]).
  - cbn. constructor; [intros [] | constructor].
  - constructor; [cbn; tauto|]. constructor; [cbn; tauto | constructor].
Defined.

Lemma X10_cpf_desconhecido_testemunha :
  let ana := mkPessoaFisica "Ana" "01-01-2000" "123" "Rua A" [] in
  let t := mkDataHora (mkData 3 11 2026) 9 0 0 in
  let w : Mundo float :=
    mkMundo [ana] [] ["999"; "q"]%string [] []
            (fun _ => mkLeituras (mkData 3 11 2026) t t) 0 in
  let r := fst (Sessao.acao (txt := Texto_ascii) (fun _ => None) "s" w) in
  let w' := snd (Sessao.acao (txt := Texto_ascii) (fun _ => None) "s" w) in
  r = Retornou tt
  /\ clientes w' = [ana]
  /\ contas w' = []
  /\ stdin w' = ["q"%string]
  /\ stdout w' = [Perguntou PerguntaCPF; ClienteNaoEncontrado]
  /\ exists linha, log_txt w' = [linha]
                   /\ Some (log_funcao linha) = Some "sacar"%string.
Proof.
  cbv zeta.
  apply (X10_cpf_desconhecido_nada_altera (V := float) (txt := Texto_ascii)
           (fun _ => None) "s" "999" ["q"%string]
           (mkMundo [mkPessoaFisica "Ana" "01-01-2000" "123" "Rua A" []] []
              ["999"; "q"]%string [] []
              (fun _ => mkLeituras (mkData 3 11 2026)
                          (mkDataHora (mkData 3 11 2026) 9 0 0)
                          (mkDataHora (mkData 3 11 2026) 9 0 0)) 0)).
  - cbn. tauto.
  - reflexivity.
  - reflexivity.
Defined.

Lemma X21_excecao_nada_altera_testemunha :
  let ana := mkPessoaFisica "Ana" "01-01-2000" "123" "Rua A" [] in
  let t := mkDataHora (mkData 3 11 2026) 9 0 0 in
  let w : Mundo float :=
    mkMundo [ana] [] ["123"; "abc"; "q"]%string [] []
            (fun _ => mkLeituras (mkData 3 11 2026) t t) 0 in
  let w' := snd (Sessao.acao (txt := Texto_ascii) (fun _ => None) "d" w) in
  clientes w' = [ana]
  /\ contas w' = []
  /\ log_txt w' = []
  /\ ((ValueError = EOFError /\ stdin w' = [])
      \/ (ValueError = ValueError
          /\ exists linha, In linha ["123"; "abc"; "q"]%string
                           /\ (fun _ : string => @None float) linha = None)).
Proof.
  cbv zeta.
  apply (X21_excecao_nada_altera (V := float) (txt := Texto_ascii)
           (fun _ => None) "d"
           (mkMundo [mkPessoaFisica "Ana" "01-01-2000" "123" "Rua A" []] []
              ["123"; "abc"; "q"]%string [] []
              (fun _ => mkLeituras (mkData 3 11 2026)
                          (mkDataHora (mkData 3 11 2026) 9 0 0)
                          (mkDataHora (mkData 3 11 2026) 9 0 0)) 0)
           ValueError).
  reflexivity.
Defined.

(** The example session: the deposit is made, the withdrawal of 1500 is
    refused (above the limit of 500) and writes no entry, the withdrawal
    of 300 is made; each of the five functions called wrote its line in
    the log. *)
Example sessao_exemplo_resultado :
  fst sessao_exemplo = Retornou tt
  /\ stdin (snd sessao_exemplo) = ["123"%string]
  /\ map saldo (contas (snd sessao_exemplo)) = [700%float]
  /\ map (fun c => map (fun t => (tipo t, valor t)) (transacoes (historico c)))
         (contas (snd sessao_exemplo))
     = [[("Deposito"%string, 1000%float); ("Saque"%string, 300%float)]]
  /\ map log_funcao (log_txt (snd sessao_exemplo))
     = ["criar_cliente"; "criar_conta"; "depositar"; "sacar"; "sacar"]%string.
Proof. vm_compute. repeat split. Qed.

Lemma X19_extrato_testemunha :
  let w := snd sessao_exemplo in
  let ana := mkPessoaFisica "Ana" "01-01-2000" "123" "Rua A" [0%nat] in
  let r := fst (Sessao.exibir_extrato (txt := Texto_ascii) w) in
  let w' := snd (Sessao.exibir_extrato (txt := Texto_ascii) w) in
  r = Retornou tt
  /\ clientes w' = clientes w
  /\ contas w' = contas w
  /\ stdin w' = []
  /\ (exists linha, log_txt w' = log_txt w ++ [linha]
                    /\ log_funcao linha = "exibir_extrato"%string)
  /\ (contas_do_cliente ana = [] ->
      stdout w' = stdout w ++ [Perguntou PerguntaCPF; ClienteSemConta])
  /\ (forall k outras c,
         contas_do_cliente ana = k :: outras ->
         nth_error (contas w) k = Some c ->
         stdout w' = stdout w ++ [Perguntou PerguntaCPF] ++ linhas_do_extrato c).
Proof.
  cbv zeta.
  apply (X19_extrato_mostra_o_historico_e_o_saldo (txt := Texto_ascii)
           "123" [] (snd sessao_exemplo) 0
           (mkPessoaFisica "Ana" "01-01-2000" "123" "Rua A" [0%nat])).
  - exact (proj1 (main_resumo (txt := Texto_ascii)
                    float_exemplo entrada_exemplo relogio_exemplo [])).
  - vm_compute. reflexivity.
  - vm_compute. reflexivity.
Defined.

Lemma X20_listar_contas_testemunha :
  let w := snd sessao_exemplo in
  Sessao.listar_contas w =
    (Retornou tt,
     com_stdout
       (stdout w ++ [ListaSeparador;
                     ListaConta (mkFicha "0001" 1 "Ana" 700%float)]) w)
  /\ (forall c cliente,
         In c (contas w) -> titular (clientes w) c cliente ->
         ficha_da_conta (clientes w) c = ficha_com_titular cliente c)
  /\ (contas w = [] -> Sessao.listar_contas w = (Retornou tt, w)).
Proof.
  cbv zeta.
  apply (X20_listar_contas_mostra_todas (snd sessao_exemplo)).
  - vm_compute. constructor; [intros [] | constructor].
  - vm_compute. constructor; [tauto | constructor].
Defined.
